(** * W-2 parser: field normalisation, quality scoring and orchestration

    A shallow embedding of [task3_w2_parser/w2_parser.py] and of the
    command-line entry point [task3_w2_parser/run_parser.py].

    - Python objects are the JSON value universe [value]: the parser only
      ever handles the result of [json.loads] and values it builds
      itself.  Such a value is a tree (no object is reachable twice), so
      the in-place updates of the source are functional updates of the
      tree.  An update made before an exception is raised is not kept:
      the exception is all that the caller of [process_w2] can observe.
    - A Python [str] is a [string] whose characters are read as the code
      points 0..255.  The bullet of the insight texts lies outside that
      range and is written as the bytes of its UTF-8 encoding; the
      parser never inspects those texts.
    - A Python [float] is an IEEE binary64 number, [spec_float] at
      precision 53 and maximal exponent 1024.
    - A Python [dict] is an association list in insertion order.
    - Code that can raise returns [res]; [try]/[except Exception] is
      [try_except].  Console output is not modelled. *)

From Stdlib Require Import ZArith List String Ascii Bool Lia SpecFloat DecimalString.
Import ListNotations.

Local Open Scope string_scope.
Local Open Scope Z_scope.

(** ** The Python fragment *)

Module Py.

(** An instance of (a subclass of) [Exception]: [str(e)] is [exn_msg]. *)
Record exn : Type := Exn { exn_class : string; exn_msg : string }.

Inductive res (A : Type) : Type :=
| Ok (a : A)
| Raise (e : exn).
Arguments Ok {A} a.
Arguments Raise {A} e.

Definition bind {A B : Type} (c : res A) (k : A -> res B) : res B :=
  match c with
  | Ok a => k a
  | Raise e => Raise e
  end.

(** [try: body  except Exception as e: handler e] *)
Definition try_except {A : Type} (body : res A) (handler : exn -> res A) : res A :=
  match body with
  | Ok a => Ok a
  | Raise e => handler e
  end.

Fixpoint mapM {A B : Type} (f : A -> res B) (l : list A) : res (list B) :=
  match l with
  | [] => Ok []
  | x :: l' =>
      bind (f x) (fun y => bind (mapM f l') (fun ys => Ok (y :: ys)))
  end.

#[local] Set Warnings "-register-all".

Inductive value : Type :=
| VNone
| VBool (b : bool)
| VInt (z : Z)
| VFloat (f : spec_float)
| VStr (s : string)
| VList (l : list value)
| VDict (d : list (string * value)).

Definition type_name (v : value) : string :=
  match v with
  | VNone => "NoneType"
  | VBool _ => "bool"
  | VInt _ => "int"
  | VFloat _ => "float"
  | VStr _ => "str"
  | VList _ => "list"
  | VDict _ => "dict"
  end.

Definition AttributeError (v : value) (attr : string) : exn :=
  Exn "AttributeError"
      ("'" ++ type_name v ++ "' object has no attribute '" ++ attr ++ "'").

Definition TypeError (msg : string) : exn := Exn "TypeError" msg.

(** *** Strings *)

Definition chars (s : string) : list ascii := list_ascii_of_string s.
Definition str (l : list ascii) : string := string_of_list_ascii l.

Definition code (c : ascii) : N := N_of_ascii c.

(** [\d] on code points below 256. *)
Definition is_digit (c : ascii) : bool :=
  ((48 <=? code c) && (code c <=? 57))%N.

(** [str.isspace] on code points below 256. *)
Definition is_space (c : ascii) : bool :=
  let n := code c in
  (((9 <=? n) && (n <=? 13)) || ((28 <=? n) && (n <=? 32))
   || (n =? 133) || (n =? 160))%N.

(** [str.lower] on one code point below 256. *)
Definition lower_char (c : ascii) : ascii :=
  let n := code c in
  if (((65 <=? n) && (n <=? 90))
      || ((192 <=? n) && (n <=? 222) && negb (n =? 215)))%N
  then ascii_of_N (n + 32) else c.

Definition lower (s : string) : string := str (map lower_char (chars s)).

Fixpoint lstrip_chars (l : list ascii) : list ascii :=
  match l with
  | [] => []
  | c :: l' => if is_space c then lstrip_chars l' else l
  end.

Definition strip_chars (l : list ascii) : list ascii :=
  rev (lstrip_chars (rev (lstrip_chars l))).

(** [s.strip()] *)
Definition strip (s : string) : string := str (strip_chars (chars s)).

(** [len(s)] *)
Definition len (s : string) : Z := Z.of_nat (String.length s).

(** [re.sub(r'\D', '', s)] *)
Definition sub_non_digits (s : string) : string :=
  str (filter is_digit (chars s)).

Definition is_numeric_char (c : ascii) : bool :=
  is_digit c || Ascii.eqb c "." || Ascii.eqb c "-".

(** [re.sub(r'[^\d.-]', '', s)] *)
Definition sub_non_numeric (s : string) : string :=
  str (filter is_numeric_char (chars s)).

(** [s[-n:]] *)
Definition last_chars (n : nat) (s : string) : string :=
  str (skipn (List.length (chars s) - n) (chars s)).

Fixpoint is_prefix (p l : list ascii) : bool :=
  match p, l with
  | [], _ => true
  | a :: p', b :: l' => Ascii.eqb a b && is_prefix p' l'
  | _ :: _, [] => false
  end.

Fixpoint is_infix (p l : list ascii) : bool :=
  is_prefix p l ||
  match l with
  | [] => false
  | _ :: l' => is_infix p l'
  end.

(** [sep.join(parts)] *)
Fixpoint join (sep : string) (parts : list string) : string :=
  match parts with
  | [] => ""
  | [p] => p
  | p :: rest => p ++ sep ++ join sep rest
  end.

(** *** Dictionaries *)

Definition dict : Type := list (string * value).

Fixpoint lookup (k : string) (d : dict) : option value :=
  match d with
  | [] => None
  | (k', v) :: d' => if String.eqb k k' then Some v else lookup k d'
  end.

(** [d[k] = v] keeps the position of a key that is already there. *)
Fixpoint update (k : string) (v : value) (d : dict) : dict :=
  match d with
  | [] => [(k, v)]
  | (k', v') :: d' =>
      if String.eqb k k' then (k', v) :: d' else (k', v') :: update k v d'
  end.

(** The JSON value at a path of keys, through nested mappings. *)
Fixpoint at_path (path : list string) (v : value) : option value :=
  match path with
  | [] => Some v
  | k :: rest =>
      match v with
      | VDict d =>
          match lookup k d with
          | Some x => at_path rest x
          | None => None
          end
      | _ => None
      end
  end.

(** *** Numbers *)

Definition prec : Z := 53.
Definition emax : Z := 1024.

(** The exact value of an [int], [bool] or [float]: [m * 2^e], an
    infinity, or not a number. *)
Inductive num : Type :=
| NFinite (m e : Z)
| NInf (neg : bool)
| NNaN.

Definition num_of_float (f : spec_float) : num :=
  match f with
  | S754_zero _ => NFinite 0 0
  | S754_infinity s => NInf s
  | S754_nan => NNaN
  | S754_finite s m e => NFinite (cond_Zopp s (Zpos m)) e
  end.

Definition num_of (v : value) : option num :=
  match v with
  | VBool b => Some (NFinite (if b then 1 else 0) 0)
  | VInt z => Some (NFinite z 0)
  | VFloat f => Some (num_of_float f)
  | _ => None
  end.

(** [None] is the unordered result of a comparison with NaN. *)
Definition num_compare (a b : num) : option comparison :=
  match a, b with
  | NNaN, _ | _, NNaN => None
  | NInf s1, NInf s2 =>
      Some (match s1, s2 with
            | true, false => Lt
            | false, true => Gt
            | _, _ => Eq
            end)
  | NInf s, NFinite _ _ => Some (if s then Lt else Gt)
  | NFinite _ _, NInf s => Some (if s then Gt else Lt)
  | NFinite m1 e1, NFinite m2 e2 =>
      let e := Z.min e1 e2 in
      Some (Z.compare (m1 * 2 ^ (e1 - e)) (m2 * 2 ^ (e2 - e)))
  end.

Definition num_eqb (a b : num) : bool :=
  match num_compare a b with Some Eq => true | _ => false end.

Definition num_gtb (a b : num) : bool :=
  match num_compare a b with Some Gt => true | _ => false end.

(** [bool(v)] *)
Definition truthy (v : value) : bool :=
  match v with
  | VNone => false
  | VBool b => b
  | VInt z => negb (z =? 0)
  | VFloat f => match f with S754_zero _ => false | _ => true end
  | VStr s => negb (String.eqb s "")
  | VList l => match l with [] => false | _ => true end
  | VDict d => match d with [] => false | _ => true end
  end.

(** [a == b] *)
Fixpoint py_eq (a b : value) {struct a} : bool :=
  match a, b with
  | VNone, VNone => true
  | VStr s, VStr t => String.eqb s t
  | VList xs, VList ys =>
      (fix all2 (xs ys : list value) {struct xs} : bool :=
         match xs, ys with
         | [], [] => true
         | x :: xs', y :: ys' => py_eq x y && all2 xs' ys'
         | _, _ => false
         end) xs ys
  | VDict d1, VDict d2 =>
      Nat.eqb (List.length d1) (List.length d2) &&
      (fix all (d : dict) {struct d} : bool :=
         match d with
         | [] => true
         | (k, v) :: d' =>
             match lookup k d2 with
             | Some w => py_eq v w
             | None => false
             end && all d'
         end) d1
  | _, _ =>
      match num_of a, num_of b with
      | Some x, Some y => num_eqb x y
      | _, _ => false
      end
  end.

(** [s > t] on strings: lexicographic on code points. *)
Fixpoint chars_gtb (l r : list ascii) : bool :=
  match l, r with
  | [], _ => false
  | _ :: _, [] => true
  | a :: l', b :: r' =>
      match N.compare (code a) (code b) with
      | Gt => true
      | Lt => false
      | Eq => chars_gtb l' r'
      end
  end.

(** [a > b] *)
Fixpoint py_gt (a b : value) {struct a} : res bool :=
  match a, b with
  | VStr s, VStr t => Ok (chars_gtb (chars s) (chars t))
  | VList xs, VList ys =>
      (fix first_diff (xs ys : list value) {struct xs} : res bool :=
         match xs, ys with
         | x :: xs', y :: ys' =>
             if py_eq x y then first_diff xs' ys' else py_gt x y
         | _ :: _, [] => Ok true
         | [], _ => Ok false
         end) xs ys
  | _, _ =>
      match num_of a, num_of b with
      | Some x, Some y => Ok (num_gtb x y)
      | _, _ =>
          Raise (TypeError ("'>' not supported between instances of '"
                            ++ type_name a ++ "' and '" ++ type_name b ++ "'"))
      end
  end.

(** *** Attribute and item access on a [value] *)

(** [obj.get(key, default)] *)
Definition py_get (obj : value) (key : string) (default : value) : res value :=
  match obj with
  | VDict d =>
      Ok (match lookup key d with Some v => v | None => default end)
  | _ => Raise (AttributeError obj "get")
  end.

(** [key in obj], for a [str] key *)
Definition py_contains (key : string) (obj : value) : res bool :=
  match obj with
  | VDict d => Ok (match lookup key d with Some _ => true | None => false end)
  | VStr s => Ok (is_infix (chars key) (chars s))
  | VList l => Ok (existsb (py_eq (VStr key)) l)
  | _ =>
      Raise (TypeError ("argument of type '" ++ type_name obj
                        ++ "' is not iterable"))
  end.

(** [obj[key]], for a [str] key *)
Definition py_getitem (obj : value) (key : string) : res value :=
  match obj with
  | VDict d =>
      match lookup key d with
      | Some v => Ok v
      | None => Raise (Exn "KeyError" ("'" ++ key ++ "'"))
      end
  | VStr _ => Raise (TypeError "string indices must be integers, not 'str'")
  | VList _ =>
      Raise (TypeError "list indices must be integers or slices, not str")
  | _ =>
      Raise (TypeError ("'" ++ type_name obj ++ "' object is not subscriptable"))
  end.

(** [obj[key] = v], for a [str] key *)
Definition py_setitem (obj : value) (key : string) (v : value) : res value :=
  match obj with
  | VDict d => Ok (VDict (update key v d))
  | VList _ =>
      Raise (TypeError "list indices must be integers or slices, not str")
  | _ =>
      Raise (TypeError ("'" ++ type_name obj
                        ++ "' object does not support item assignment"))
  end.

(** The objects a [for] loop over [obj] visits. *)
Definition py_iter (obj : value) : res (list value) :=
  match obj with
  | VList l => Ok l
  | VDict d => Ok (map (fun kv => VStr (fst kv)) d)
  | VStr s => Ok (map (fun c => VStr (String c "")) (chars s))
  | _ =>
      Raise (TypeError ("'" ++ type_name obj ++ "' object is not iterable"))
  end.

(** [str(v)]. The text of a float, a list or a dict is the
    interpreter's [repr], taken as [repr_other]. *)
Definition py_str (repr_other : value -> string) (v : value) : string :=
  match v with
  | VStr s => s
  | VNone => "None"
  | VBool b => if b then "True" else "False"
  | VInt z => NilZero.string_of_int (Z.to_int z)
  | _ => repr_other v
  end.

(** *** [float(s)] on the text that [sub_non_numeric] leaves

    The text holds digits, dots and minus signs only.  [float] accepts an
    optional leading minus sign followed by digits with at most one dot
    and at least one digit, and returns the binary64 number nearest to
    that decimal (ties to even); it raises [ValueError] on anything
    else. *)

Definition digit_value (c : ascii) : Z := Z.of_N (code c) - 48.

Definition decimal_value (l : list ascii) : Z :=
  fold_left (fun acc c => 10 * acc + digit_value c) l 0.

Fixpoint span_digits (l : list ascii) : list ascii * list ascii :=
  match l with
  | c :: l' =>
      if is_digit c
      then let '(ds, rest) := span_digits l' in (c :: ds, rest)
      else ([], l)
  | [] => ([], [])
  end.

(** Sign, integer digits and fraction digits of a decimal literal. *)
Definition split_decimal (l : list ascii)
  : option (bool * list ascii * list ascii) :=
  let '(neg, body) :=
    match l with
    | c :: r => if Ascii.eqb c "-" then (true, r) else (false, l)
    | [] => (false, l)
    end in
  let '(ip, rest) := span_digits body in
  match rest with
  | [] => match ip with [] => None | _ => Some (neg, ip, []) end
  | c :: fp =>
      if Ascii.eqb c "." && forallb is_digit fp
      then match ip, fp with
           | [], [] => None
           | _, _ => Some (neg, ip, fp)
           end
      else None
  end.

(** The binary64 number nearest to [m / 10^k], with sign [neg]. *)
Definition round_decimal (neg : bool) (m : Z) (k : nat) : spec_float :=
  match m with
  | Z0 => S754_zero neg
  | _ =>
      let '(q, e, l) :=
        SFdiv_core_binary prec emax m 0 (10 ^ Z.of_nat k) 0 in
      binary_round_aux prec emax neg q e l
  end.

(** The number a decimal literal denotes, if the text is one. *)
Definition parse_float (s : string) : option spec_float :=
  match split_decimal (chars s) with
  | Some (neg, ip, fp) =>
      Some (round_decimal neg (decimal_value (ip ++ fp)) (List.length fp))
  | None => None
  end.

Definition py_float (s : string) : res value :=
  match parse_float s with
  | Some f => Ok (VFloat f)
  | None =>
      Raise (Exn "ValueError"
                 ("could not convert string to float: '" ++ s ++ "'"))
  end.

(** The float that is exactly the integer [z] (for [|z| < 2^53]). *)
Definition float_of_Z (z : Z) : spec_float := binary_normalize prec emax z 0 false.

End Py.

(** ** [w2_parser.py] *)

Module W2.
Import Py.

Notation "x <- c ;; k" := (bind c (fun x => k))
  (at level 61, c at next level, right associativity).
Notation "' pat <- c ;; k" := (bind c (fun x => match x with pat => k end))
  (at level 61, pat pattern, c at next level, right associativity).

(** [GeminiClient]: the two calls of the generative model, each returning
    a parsed JSON value or raising. *)
Record GeminiClient : Type := {
  extract_w2_data : string -> res value;
  generate_insights : value -> string -> res value
}.

(** What the parser takes from the interpreter, the operating system and
    the libraries it imports. *)
Record World : Type := {
  (* the imports of PyPDF2, PIL and pytesseract succeeded *)
  OCR_AVAILABLE : bool;
  (* os.path.exists(p) *)
  os_path_exists : string -> bool;
  (* os.path.getsize(p) *)
  os_path_getsize : string -> Z;
  (* Path(p).suffix *)
  Path_suffix : string -> string;
  (* open(p, 'r', encoding='utf-8').read() *)
  read_text : string -> res string;
  (* page.extract_text() for the pages of PyPDF2.PdfReader(open(p, 'rb')) *)
  pdf_page_texts : string -> res (list string);
  (* pytesseract.image_to_string(Image.open(p)) *)
  image_to_string : string -> res string;
  (* GeminiClient(api_key) *)
  new_GeminiClient : option string -> res GeminiClient;
  (* json.dump(result, open(p, 'w', encoding='utf-8'), ...) *)
  write_json : string -> value -> res unit;
  (* str(v) for a float, a list or a dict *)
  repr_other : value -> string
}.

Record W2Parser : Type := {
  test_mode : bool;
  gemini_client : option GeminiClient
}.

Section Parser.

Variable w : World.

(** [W2Parser.__init__] *)
Definition init (api_key : option string) (test_mode : bool) : res W2Parser :=
  if test_mode then Ok {| test_mode := true; gemini_client := None |}
  else
    c <- new_GeminiClient w api_key ;;
    Ok {| test_mode := false; gemini_client := Some c |}.

(** *** Text extraction *)

Definition _ocr_pdf (file_path : string) : string :=
  "PDF OCR would be implemented here with pdf2image conversion".

Definition newline : string := String (ascii_of_N 10) "".

Definition _extract_text_from_pdf (file_path : string) : res (string * string) :=
  if negb (OCR_AVAILABLE w)
  then Ok ("PDF processing requires PyPDF2 and pytesseract", "failed")
  else
    try_except
      (pages <- pdf_page_texts w file_path ;;
       let text :=
         fold_left
           (fun text page_text =>
              if truthy (VStr page_text) then text ++ page_text ++ newline
              else text)
           pages "" in
       if len (strip text) <? 100
       then Ok (_ocr_pdf file_path, "ocr")
       else Ok (text, "direct_extraction"))
      (fun e => Ok (_ocr_pdf file_path, "ocr_fallback")).

Definition _extract_text_from_image (file_path : string) : res (string * string) :=
  if negb (OCR_AVAILABLE w)
  then Ok ("Image processing requires PIL and pytesseract", "failed")
  else
    try_except
      (text <- image_to_string w file_path ;; Ok (text, "ocr"))
      (fun e => Raise (Exn "Exception" ("OCR failed: " ++ exn_msg e))).

Definition mem (x : string) (l : list string) : bool := existsb (String.eqb x) l.

Definition _extract_text_from_file (file_path : string) : res (string * string) :=
  if negb (os_path_exists w file_path)
  then Raise (Exn "FileNotFoundError" ("File not found: " ++ file_path))
  else
    let file_ext := lower (Path_suffix w file_path) in
    if mem file_ext [".pdf"] then _extract_text_from_pdf file_path
    else if mem file_ext [".jpg"; ".jpeg"; ".png"; ".tiff"; ".bmp"]
    then _extract_text_from_image file_path
    else if mem file_ext [".txt"]
    then text <- read_text w file_path ;; Ok (text, "direct_text")
    else Raise (Exn "ValueError" ("Unsupported file format: " ++ file_ext)).

(** *** Masking *)

(** The masked text of an identifier, from its digits. *)
Definition masked (digits : string) : string :=
  if 4 <=? len digits then "***-**-" ++ last_chars 4 digits
  else "***-**-****".

(** One block of [_mask_sensitive_data]: the two blocks of the source
    differ in the section ('employee', 'employer') and the key ('ssn',
    'ein') only. *)
Definition mask_field (section key : string) (data : value) : res value :=
  has_section <- py_contains section data ;;
  if has_section then
    sec <- py_getitem data section ;;
    present <- py_get sec key VNone ;;
    if truthy present then
      raw <- py_getitem sec key ;;
      let digits := sub_non_digits (py_str (repr_other w) raw) in
      sec' <- py_setitem sec key (VStr (masked digits)) ;;
      py_setitem data section sec'
    else Ok data
  else Ok data.

Definition _mask_sensitive_data (data : value) : res value :=
  data <- mask_field "employee" "ssn" data ;;
  mask_field "employer" "ein" data.

(** *** State codes *)

Definition state_mapping : list (string * string) := [
  ("alabama", "AL"); ("al", "AL");
  ("alaska", "AK"); ("ak", "AK");
  ("arizona", "AZ"); ("az", "AZ");
  ("arkansas", "AR"); ("ar", "AR");
  ("california", "CA"); ("ca", "CA");
  ("colorado", "CO"); ("co", "CO");
  ("connecticut", "CT"); ("ct", "CT");
  ("delaware", "DE"); ("de", "DE");
  ("florida", "FL"); ("fl", "FL");
  ("georgia", "GA"); ("ga", "GA");
  ("hawaii", "HI"); ("hi", "HI");
  ("idaho", "ID"); ("id", "ID");
  ("illinois", "IL"); ("il", "IL");
  ("indiana", "IN"); ("in", "IN");
  ("iowa", "IA"); ("ia", "IA");
  ("kansas", "KS"); ("ks", "KS");
  ("kentucky", "KY"); ("ky", "KY");
  ("louisiana", "LA"); ("la", "LA");
  ("maine", "ME"); ("me", "ME");
  ("maryland", "MD"); ("md", "MD");
  ("massachusetts", "MA"); ("ma", "MA");
  ("michigan", "MI"); ("mi", "MI");
  ("minnesota", "MN"); ("mn", "MN");
  ("mississippi", "MS"); ("ms", "MS");
  ("missouri", "MO"); ("mo", "MO");
  ("montana", "MT"); ("mt", "MT");
  ("nebraska", "NE"); ("ne", "NE");
  ("nevada", "NV"); ("nv", "NV");
  ("new hampshire", "NH"); ("nh", "NH");
  ("new jersey", "NJ"); ("nj", "NJ");
  ("new mexico", "NM"); ("nm", "NM");
  ("new york", "NY"); ("ny", "NY");
  ("north carolina", "NC"); ("nc", "NC");
  ("north dakota", "ND"); ("nd", "ND");
  ("ohio", "OH"); ("oh", "OH");
  ("oklahoma", "OK"); ("ok", "OK");
  ("oregon", "OR"); ("or", "OR");
  ("pennsylvania", "PA"); ("pa", "PA");
  ("rhode island", "RI"); ("ri", "RI");
  ("south carolina", "SC"); ("sc", "SC");
  ("south dakota", "SD"); ("sd", "SD");
  ("tennessee", "TN"); ("tn", "TN");
  ("texas", "TX"); ("tx", "TX");
  ("utah", "UT"); ("ut", "UT");
  ("vermont", "VT"); ("vt", "VT");
  ("virginia", "VA"); ("va", "VA");
  ("washington", "WA"); ("wa", "WA");
  ("west virginia", "WV"); ("wv", "WV");
  ("wisconsin", "WI"); ("wi", "WI");
  ("wyoming", "WY"); ("wy", "WY")
].

Fixpoint mapping_get (k : string) (m : list (string * string)) : option string :=
  match m with
  | [] => None
  | (k', v) :: m' => if String.eqb k k' then Some v else mapping_get k m'
  end.

Definition is_str (v : value) : bool :=
  match v with VStr _ => true | _ => false end.

(** The rewrite of one mapping [obj] that holds a 'state' key: the body
    that the source repeats for the employee address, the employer
    address and each state/local record. *)
Definition normalize_state_of (obj : value) : res value :=
  state <- py_get obj "state" (VStr "") ;;
  match state with
  | VStr s =>
      if truthy state then
        let state_lower := strip (lower s) in
        match mapping_get state_lower state_mapping with
        | Some code => py_setitem obj "state" (VStr code)
        | None => Ok obj
        end
      else Ok obj
  | _ => Ok obj
  end.

(** The employee and the employer block of [_normalize_state_codes]. *)
Definition normalize_address_state (section : string) (data : value) : res value :=
  has_section <- py_contains section data ;;
  if has_section then
    sec <- py_getitem data section ;;
    has_address <- py_contains "address" sec ;;
    if has_address then
      addr <- py_getitem sec "address" ;;
      addr' <- normalize_state_of addr ;;
      sec' <- py_setitem sec "address" addr' ;;
      py_setitem data section sec'
    else Ok data
  else Ok data.

(** [for state_data in data['state_local']: body]: the records are
    updated in place, so a list keeps its length and order; the keys of
    a dict and the characters of a str are visited but cannot change. *)
Definition for_state_local (body : value -> res value) (data : value) : res value :=
  has_section <- py_contains "state_local" data ;;
  if has_section then
    state_local <- py_getitem data "state_local" ;;
    items <- py_iter state_local ;;
    items' <- mapM body items ;;
    match state_local with
    | VList _ => py_setitem data "state_local" (VList items')
    | _ => Ok data
    end
  else Ok data.

Definition _normalize_state_codes (data : value) : res value :=
  data <- normalize_address_state "employee" data ;;
  data <- normalize_address_state "employer" data ;;
  for_state_local normalize_state_of data.

(** *** Numeric fields *)

Definition monetary_fields : list string := [
  "wages_tips"; "federal_income_tax"; "social_security_wages";
  "social_security_tax"; "medicare_wages"; "medicare_tax";
  "social_security_tips"; "allocated_tips"; "dependent_care_benefits";
  "nonqualified_plans"
].

Definition is_ValueError_or_TypeError (e : exn) : bool :=
  String.eqb (exn_class e) "ValueError" || String.eqb (exn_class e) "TypeError".

(** The body of both loops of [_convert_numeric_fields], for one [field]
    of the mapping [obj]. *)
Definition convert_field (obj : value) (field : string) : res value :=
  has_field <- py_contains field obj ;;
  if has_field then
    present <- py_getitem obj field ;;
    if truthy present then
      try_except
        (value <- py_getitem obj field ;;
         match value with
         | VStr s =>
             let cleaned := sub_non_numeric s in
             if truthy (VStr cleaned) && negb (String.eqb cleaned "-")
             then number <- py_float cleaned ;; py_setitem obj field number
             else py_setitem obj field VNone
         | _ => Ok obj
         end)
        (fun e =>
           if is_ValueError_or_TypeError e then py_setitem obj field VNone
           else Raise e)
    else Ok obj
  else Ok obj.

(** [for field in fields: body], threading the mapping. *)
Fixpoint convert_fields (fields : list string) (obj : value) : res value :=
  match fields with
  | [] => Ok obj
  | field :: rest => obj' <- convert_field obj field ;; convert_fields rest obj'
  end.

Definition _convert_numeric_fields (data : value) : res value :=
  has_federal <- py_contains "federal" data ;;
  data <-
    (if has_federal then
       federal <- py_getitem data "federal" ;;
       federal' <- convert_fields monetary_fields federal ;;
       py_setitem data "federal" federal'
     else Ok data) ;;
  for_state_local (convert_fields ["state_wages"; "state_income_tax"]) data.

(** *** [_normalize_data] *)

Definition _normalize_data (data : value) : res value :=
  if negb (truthy data) then Ok (VDict [])
  else
    employee <- py_get data "employee" (VDict []) ;;
    employer <- py_get data "employer" (VDict []) ;;
    federal <- py_get data "federal" (VDict []) ;;
    state_local <- py_get data "state_local" (VList []) ;;
    other_boxes <- py_get data "other_boxes" (VDict []) ;;
    let normalized := VDict [
      ("employee", employee);
      ("employer", employer);
      ("federal", federal);
      ("state_local", state_local);
      ("other_boxes", other_boxes)
    ] in
    normalized <- _mask_sensitive_data normalized ;;
    normalized <- _normalize_state_codes normalized ;;
    _convert_numeric_fields normalized.

(** *** Employee address *)

(** [sep.join(items)]: every item has to be a [str]. *)
Fixpoint strings_of (i : nat) (items : list value) : res (list string) :=
  match items with
  | [] => Ok []
  | VStr s :: rest => l <- strings_of (S i) rest ;; Ok (s :: l)
  | v :: _ =>
      Raise (TypeError ("sequence item " ++ NilZero.string_of_uint (Nat.to_uint i)
                        ++ ": expected str instance, " ++ type_name v ++ " found"))
  end.

Definition py_join (sep : string) (items : list value) : res string :=
  l <- strings_of 0 items ;; Ok (join sep l).

Definition _get_employee_address (data : value) : res string :=
  has_employee <- py_contains "employee" data ;;
  if has_employee then
    employee <- py_getitem data "employee" ;;
    has_address <- py_contains "address" employee ;;
    if has_address then
      addr <- py_getitem employee "address" ;;
      let add (key : string) (components : list value) : res (list value) :=
        present <- py_get addr key VNone ;;
        if truthy present
        then item <- py_getitem addr key ;; Ok (components ++ [item])%list
        else Ok components in
      components <- add "street" [] ;;
      components <- add "city" components ;;
      components <- add "state" components ;;
      components <- add "zip" components ;;
      py_join ", " components
    else Ok ""
  else Ok "".

(** *** Quality report *)

Fixpoint split_chars (sep : ascii) (l cur : list ascii) : list string :=
  match l with
  | [] => [str (rev cur)]
  | c :: l' =>
      if Ascii.eqb c sep then str (rev cur) :: split_chars sep l' []
      else split_chars sep l' (c :: cur)
  end.

(** [s.split(sep)] for a separator of one character *)
Definition split (sep : ascii) (s : string) : list string :=
  split_chars sep (chars s) [].

Definition critical_fields : list string := [
  "employee.name"; "employee.ssn"; "federal.wages_tips";
  "federal.federal_income_tax"
].

(** [v not in [None, ""]] *)
Definition not_none_or_empty (v : value) : bool :=
  negb (py_eq v VNone || py_eq v (VStr "")).

(** The inner loop over the parts of one path; the result is [found]. *)
Fixpoint find_path (parts : list string) (current : value) : res bool :=
  match parts with
  | [] => Ok true
  | part :: rest =>
      has_part <- py_contains part current ;;
      if has_part then
        v <- py_getitem current part ;;
        if not_none_or_empty v then find_path rest v else Ok false
      else Ok false
  end.

(** The outer loop: the paths that are not found, in order. *)
Fixpoint find_missing (paths : list string) (data : value) : res (list string) :=
  match paths with
  | [] => Ok []
  | field_path :: rest =>
      found <- find_path (split "." field_path) data ;;
      missing <- find_missing rest data ;;
      Ok (if found then missing else field_path :: missing)
  end.

(** The two variables that the three checks update. *)
Record scoring : Type := {
  warnings : list string;
  confidence : string
}.

(** Check for missing critical fields. *)
Definition check_critical_fields (data : value) (st : scoring)
  : res (scoring * list string) :=
  missing_fields <- find_missing critical_fields data ;;
  match missing_fields with
  | _ :: _ =>
      Ok ({| warnings :=
               (warnings st
                ++ [("Missing critical fields: " ++ join ", " missing_fields)%string])%list;
             confidence := "medium" |},
          missing_fields)
  | [] => Ok (st, missing_fields)
  end.

(** Check text extraction quality; the second component is [text_quality]. *)
Definition check_text_quality (extracted_text : string) (st : scoring)
  : scoring * string :=
  if len (strip extracted_text) <? 50 then
    ({| warnings :=
          (warnings st ++ ["Low text extraction - possible OCR issues"])%list;
        confidence := "low" |},
     "poor")
  else if len (strip extracted_text) <? 200 then
    ({| warnings := warnings st;
        confidence :=
          if negb (String.eqb (confidence st) "low") then "medium"
          else confidence st |},
     "fair")
  else (st, "good").

(** Check for inconsistent data. *)
Definition check_consistency (data : value) (st : scoring) : res scoring :=
  federal <- py_get data "federal" (VDict []) ;;
  wages_tips <- py_get federal "wages_tips" VNone ;;
  inconsistent <-
    (if truthy wages_tips then
       social_security_wages <- py_get federal "social_security_wages" VNone ;;
       if truthy social_security_wages then
         a <- py_getitem federal "social_security_wages" ;;
         b <- py_getitem federal "wages_tips" ;;
         py_gt a b
       else Ok false
     else Ok false) ;;
  if (inconsistent : bool) then
    Ok {| warnings :=
            (warnings st
             ++ ["Social Security wages exceed Box 1 wages - possible data inconsistency"])%list;
          confidence := confidence st |}
  else Ok st.

Definition _generate_quality_report
  (data : value) (extracted_text extraction_method : string) : res value :=
  let st := {| warnings := []; confidence := "high" |} in
  '(st, missing_fields) <- check_critical_fields data st ;;
  let '(st, text_quality) := check_text_quality extracted_text st in
  st <- check_consistency data st ;;
  Ok (VDict [
    ("confidence", VStr (confidence st));
    ("warnings", VList (map VStr (warnings st)));
    ("text_quality", VStr text_quality);
    ("extraction_method", VStr extraction_method);
    ("text_length", VInt (len (strip extracted_text)));
    ("critical_fields_missing", VInt (Z.of_nat (List.length missing_fields)))
  ]).

(** *** Test mode *)

(** The float written as the decimal [m / 10^k] in the source. *)
Definition dec (m : Z) (k : nat) : value := VFloat (round_decimal false m k).

Definition _process_test_mode : value :=
  VDict [
    ("fields", VDict [
      ("employee", VDict [
        ("name", VStr "John A. Doe");
        ("address", VDict [
          ("street", VStr "123 Main Street");
          ("city", VStr "New York");
          ("state", VStr "NY");
          ("zip", VStr "10001")
        ]);
        ("ssn", VStr "***-**-1234")
      ]);
      ("employer", VDict [
        ("name", VStr "Tech Solutions Inc.");
        ("address", VDict [
          ("street", VStr "456 Business Avenue");
          ("city", VStr "New York");
          ("state", VStr "NY");
          ("zip", VStr "10002")
        ]);
        ("ein", VStr "***-**-5678");
        ("state_id", VStr "NY-123456789")
      ]);
      ("federal", VDict [
        ("wages_tips", dec 750000 1);
        ("federal_income_tax", dec 150000 1);
        ("social_security_wages", dec 750000 1);
        ("social_security_tax", dec 46500 1);
        ("medicare_wages", dec 750000 1);
        ("medicare_tax", dec 10875 1);
        ("social_security_tips", dec 0 1);
        ("allocated_tips", dec 0 1);
        ("dependent_care_benefits", dec 0 1);
        ("nonqualified_plans", dec 0 1)
      ]);
      ("state_local", VList [
        VDict [
          ("state", VStr "NY");
          ("employer_state_id", VStr "NY-123456789");
          ("state_wages", dec 750000 1);
          ("state_income_tax", dec 45000 1)
        ]
      ]);
      ("other_boxes", VDict [
        ("box_12", VDict [("D", dec 50000 1)]);
        ("box_13", VDict [
          ("statutory_employee", VBool false);
          ("retirement_plan", VBool true);
          ("third_party_sick_pay", VBool false)
        ]);
        ("box_14", VDict [("other_info", VStr "Professional dues: 300.00")])
      ])
    ]);
    ("insights", VList [
      VStr "• Test mode: Using simulated W-2 data";
      VStr "• Address validation: ZIP code 10001 corresponds to NY state, matches employer state";
      VStr "• Federal withholding at 20.0% of Box 1 wages ($15,000 / $75,000)";
      VStr "• Social Security wages below annual limit of $160,200 for 2023";
      VStr "• Single state income reported for New York with $4,500 state tax withheld";
      VStr "• All critical W-2 boxes present and consistent";
      VStr "• Retirement plan participation indicated in Box 13"
    ]);
    ("quality", VDict [
      ("confidence", VStr "high");
      ("warnings", VList [VStr "Test mode - no actual processing performed"]);
      ("text_quality", VStr "good");
      ("extraction_method", VStr "test_mode");
      ("text_length", VInt 0);
      ("critical_fields_missing", VInt 0)
    ])
  ].

(** *** [process_w2] *)

(** The result of the [except Exception as e] branch. *)
Definition degraded (e : exn) : value :=
  VDict [
    ("fields", VDict []);
    ("insights", VList [VStr ("• Processing error: " ++ exn_msg e)]);
    ("quality", VDict [
      ("confidence", VStr "low");
      ("warnings", VList [VStr ("Processing failed: " ++ exn_msg e)]);
      ("ocr_quality", VStr "unknown");
      ("extraction_method", VStr "failed")
    ])
  ].

(** [self.gemini_client.<method>]: the attribute of [None] in test mode. *)
Definition client_of (self : W2Parser) (method : string) : res GeminiClient :=
  match gemini_client self with
  | Some c => Ok c
  | None => Raise (AttributeError VNone method)
  end.

(** The body of the [try] block: steps 1 to 5 and the result. *)
Definition pipeline (self : W2Parser) (file_path : string) : res value :=
  '(text_content, extraction_method) <- _extract_text_from_file file_path ;;
  client <- client_of self "extract_w2_data" ;;
  extracted_data <- extract_w2_data client text_content ;;
  normalized_data <- _normalize_data extracted_data ;;
  address <- _get_employee_address normalized_data ;;
  client <- client_of self "generate_insights" ;;
  insights_data <- generate_insights client normalized_data address ;;
  quality_report <-
    _generate_quality_report normalized_data text_content extraction_method ;;
  insights <- py_get insights_data "insights" (VList []) ;;
  Ok (VDict [
    ("fields", normalized_data);
    ("insights", insights);
    ("quality", quality_report)
  ]).

Definition process_w2 (self : W2Parser) (file_path : string) : res value :=
  if test_mode self then Ok _process_test_mode
  else try_except (pipeline self file_path) (fun e => Ok (degraded e)).

End Parser.

End W2.

(** ** [run_parser.py] *)

Module Run.
Import Py W2.

(** The parsed command line. *)
Record Args : Type := {
  file_path : string;
  arg_test_mode : bool;
  output : option string;
  api_key : option string
}.

(** How [main] ends: [sys.exit(status)], or a normal return after the
    result has been written out. *)
Inductive outcome : Type :=
| SysExit (status : Z)
| Returned (result : value).

(** [len(v)] *)
Definition py_len (v : value) : res Z :=
  match v with
  | VStr s => Ok (len s)
  | VList l => Ok (Z.of_nat (List.length l))
  | VDict d => Ok (Z.of_nat (List.length d))
  | _ => Raise (TypeError ("object of type '" ++ type_name v ++ "' has no len()"))
  end.

(** The [try] block of [main]: construct the parser, process the file,
    write the result and read what the summary prints. *)
Definition run (w : World) (args : Args) : res value :=
  w2_parser <- init w (api_key args) (arg_test_mode args) ;;
  result <- process_w2 w w2_parser (file_path args) ;;
  _ <- match output args with
       | Some path => write_json w path result
       | None => Ok tt
       end ;;
  quality <- py_getitem result "quality" ;;
  _ <- py_getitem quality "confidence" ;;
  fields <- py_getitem result "fields" ;;
  _ <- py_len fields ;;
  insights <- py_getitem result "insights" ;;
  _ <- py_len insights ;;
  warnings <- py_getitem quality "warnings" ;;
  _ <- (if truthy warnings then py_len warnings else Ok 0) ;;
  Ok result.

Definition main (w : World) (args : Args) : outcome :=
  if negb (os_path_exists w (file_path args)) then SysExit 1
  else
    let file_size := os_path_getsize w (file_path args) in
    if file_size =? 0 then SysExit 1
    else
      match run w args with
      | Ok result => Returned result
      | Raise e => SysExit 1
      end.

End Run.

(** ** [gemini_client.py] *)

Module Gemini.
Import Py W2.

(** What the client takes from the model service, the [json] module, the
    file system and the interpreter.  [generate_content n prompt] is the
    text of the response to the call number [n] (from 0) of one method
    call, or the exception that the call or the access to the text of
    the response raises.  A prompt file is [None] when it does not
    exist, and else what reading it gives. *)
Record Service : Type := {
  (* os.getenv of GEMINI_API_KEY *)
  getenv_key : option string;
  (* genai.configure(api_key=key); genai.GenerativeModel('gemini-pro') *)
  configure : string -> res unit;
  (* prompts/extraction_prompt.txt *)
  extraction_prompt_file : option (res string);
  (* prompts/insights_prompt.txt *)
  insights_prompt_file : option (res string);
  (* self.model.generate_content(prompt).text *)
  generate_content : nat -> string -> res string;
  (* json.loads(text) *)
  json_loads : string -> res value;
  (* json.dumps(value, indent=2) *)
  json_dumps : value -> string;
  (* template.format(extracted_data=..., employee_address=...) *)
  format : string -> string -> string -> res string
}.

Definition quote : string := String (ascii_of_N 34) "".

Definition indent : string := "                ".

Definition extraction_fallback_prompt : string :=
  "EXTRACT W-2 INFORMATION TO JSON" ++ newline
  ++ indent ++ "Extract all W-2 tax form fields into structured JSON format." ++ newline
  ++ indent ++ "Include employee info, employer info, federal tax data, and state/local data." ++ newline
  ++ indent ++ "Mask SSN and EIN to last 4 digits only." ++ newline
  ++ indent ++ "Return ONLY valid JSON, no other text.".

Definition insights_fallback_template : string :=
  "Generate 5-8 concise insights for this W-2 data:" ++ newline
  ++ indent ++ "{extracted_data}" ++ newline
  ++ indent ++ newline
  ++ indent ++ "Employee Address: {employee_address}" ++ newline
  ++ indent ++ newline
  ++ indent ++ "Focus on:" ++ newline
  ++ indent ++ "- Address validation" ++ newline
  ++ indent ++ "- Tax withholding analysis  " ++ newline
  ++ indent ++ "- Social Security & Medicare" ++ newline
  ++ indent ++ "- Data quality issues" ++ newline
  ++ indent ++ "- Follow-up actions" ++ newline
  ++ indent ++ newline
  ++ indent ++ "Return JSON: {" ++ quote ++ "insights" ++ quote ++ ": ["
  ++ quote ++ "• insight 1" ++ quote ++ ", "
  ++ quote ++ "• insight 2" ++ quote ++ ", ...]}".

(** [s.startswith(prefix)] *)
Definition startswith (prefix s : string) : bool :=
  is_prefix (chars prefix) (chars s).

(** [s.endswith(suffix)] *)
Definition endswith (suffix s : string) : bool :=
  is_prefix (rev (chars suffix)) (rev (chars s)).

(** [s[n:]] *)
Definition drop (n : nat) (s : string) : string := str (skipn n (chars s)).

(** [s[:-n]], for [n] above 0 *)
Definition drop_last (n : nat) (s : string) : string :=
  str (firstn (List.length (chars s) - n) (chars s)).

Definition fence : string := "```".

(** "Clean the response": the three tests on the response text, in the
    order of the source. *)
Definition strip_fences (result_text : string) : string :=
  let result_text :=
    if startswith (fence ++ "json") result_text then drop 7 result_text
    else result_text in
  let result_text :=
    if endswith fence result_text then drop_last 3 result_text
    else result_text in
  if startswith fence result_text then drop 3 result_text else result_text.

Definition max_retries : nat := 3.

Definition is_JSONDecodeError (e : exn) : bool :=
  String.eqb (exn_class e) "JSONDecodeError".

Section Client.

Variable s : Service.

(** [GeminiClient.__init__]: the key that is used. *)
Definition init (api_key : option string) : res string :=
  let key :=
    match api_key with
    | Some k => if truthy (VStr k) then Some k else getenv_key s
    | None => getenv_key s
    end in
  match key with
  | Some k =>
      if truthy (VStr k) then _ <- configure s k ;; Ok k
      else Raise (Exn "ValueError" "GEMINI_API_KEY environment variable is required")
  | None => Raise (Exn "ValueError" "GEMINI_API_KEY environment variable is required")
  end.

(** The body of the inner [try] of [extract_w2_data]. *)
Definition extract_attempt (full_prompt : string) (attempt : nat) : res value :=
  response_text <- generate_content s attempt full_prompt ;;
  json_loads s (strip_fences (strip response_text)).

(** [for attempt in range(max_retries)], from [attempt] on, with
    [remaining] rounds to go.  A loop that ran out would leave the
    function at its end, which returns [None]. *)
Fixpoint extract_loop (full_prompt : string) (remaining attempt : nat) : res value :=
  match remaining with
  | O => Ok VNone
  | S remaining' =>
      match extract_attempt full_prompt attempt with
      | Ok data => Ok data
      | Raise e =>
          if is_JSONDecodeError e then
            if (attempt <? max_retries - 1)%nat
            then extract_loop full_prompt remaining' (S attempt)
            else Raise (Exn "Exception"
                            ("Failed to parse JSON response after 3 attempts: "
                             ++ exn_msg e))
          else
            if (attempt <? max_retries - 1)%nat
            then extract_loop full_prompt remaining' (S attempt)
            else Raise e
      end
  end.

Definition extract_w2_data (text_content : string) : res value :=
  try_except
    (prompt <-
       match extraction_prompt_file s with
       | Some content => content
       | None => Ok extraction_fallback_prompt
       end ;;
     let full_prompt :=
       prompt ++ newline ++ newline ++ "W-2 CONTENT:" ++ newline ++ text_content in
     extract_loop full_prompt max_retries 0)
    (fun e => Raise (Exn "Exception" ("Gemini extraction failed: " ++ exn_msg e))).

Definition is_list (v : value) : bool :=
  match v with VList _ => true | _ => false end.

(** The body of the inner [try] of [generate_insights]. *)
Definition insights_attempt (prompt : string) (attempt : nat) : res value :=
  response_text <- generate_content s attempt prompt ;;
  insights_data <- json_loads s (strip_fences (strip response_text)) ;;
  insights <- py_get insights_data "insights" VNone ;;
  if is_list insights then Ok insights_data
  else Ok (VDict [("insights", VList [])]).

Fixpoint insights_loop (prompt : string) (remaining attempt : nat) : res value :=
  match remaining with
  | O => Ok VNone
  | S remaining' =>
      match insights_attempt prompt attempt with
      | Ok data => Ok data
      | Raise e =>
          if is_JSONDecodeError e then
            if (attempt <? max_retries - 1)%nat
            then insights_loop prompt remaining' (S attempt)
            else Ok (VDict [("insights",
                             VList [VStr "• Unable to generate insights due to processing error"])])
          else
            if (attempt <? max_retries - 1)%nat
            then insights_loop prompt remaining' (S attempt)
            else Ok (VDict [("insights", VList [VStr "• Insight generation failed"])])
      end
  end.

Definition generate_insights (extracted_data : value) (address : string) : res value :=
  try_except
    (prompt_template <-
       match insights_prompt_file s with
       | Some content => content
       | None => Ok insights_fallback_template
       end ;;
     prompt <- format s prompt_template (json_dumps s extracted_data) address ;;
     insights_loop prompt max_retries 0)
    (fun e =>
       Ok (VDict [("insights",
                   VList [VStr ("• Error generating insights: " ++ exn_msg e)])])).

(** The client object, as [W2Parser] uses it. *)
Definition client : GeminiClient := {|
  W2.extract_w2_data := extract_w2_data;
  W2.generate_insights := generate_insights
|}.

(** [GeminiClient(api_key)] *)
Definition new (api_key : option string) : res GeminiClient :=
  _ <- init api_key ;; Ok client.

End Client.

End Gemini.

(** ** A concrete world for the examples *)

Module Sample.
Import Py W2 Run.

(** The final component of a path, trailing slash apart; [cur] holds the
    characters read since the last slash, in reverse. *)
Fixpoint final_component (l cur : list ascii) : list ascii :=
  match l with
  | [] => rev cur
  | c :: l' =>
      if Ascii.eqb c "/" then
        match l' with
        | [] => rev cur
        | _ => final_component l' []
        end
      else final_component l' (c :: cur)
  end.

(** The characters after the last dot, if there is a dot. *)
Fixpoint after_last_dot (l : list ascii) (acc : option (list ascii))
  : option (list ascii) :=
  match l with
  | [] => acc
  | c :: l' =>
      if Ascii.eqb c "." then after_last_dot l' (Some l')
      else after_last_dot l' acc
  end.

(** [PurePosixPath(path).suffix]: the text from the last dot of the final
    component, unless that dot starts or ends the component. *)
Definition posix_suffix (path : string) : string :=
  let name := final_component (chars path) [] in
  match name with
  | [] => ""
  | c :: rest =>
      match after_last_dot rest None with
      | Some ((_ :: _) as ext) => str ("."%char :: ext)
      | _ => ""
      end
  end.

(** A model whose extraction answers with one fixed JSON value and whose
    insight call answers with one fixed list. *)
Definition client (extracted : value) : GeminiClient := {|
  extract_w2_data := fun _ => Ok extracted;
  generate_insights := fun _ _ =>
    Ok (VDict [("insights", VList [VStr "Wages and withholding look consistent"])])
|}.

(** A file system given as a list of text files; no OCR libraries; an
    API key has to be passed explicitly.  No example turns a float, a
    list or a dict into text, so [repr_other] is never consulted. *)
Definition world (files : list (string * string)) (extracted : value) : World := {|
  OCR_AVAILABLE := false;
  os_path_exists := fun p =>
    match mapping_get p files with Some _ => true | None => false end;
  os_path_getsize := fun p =>
    match mapping_get p files with Some c => len c | None => 0 end;
  Path_suffix := posix_suffix;
  read_text := fun p =>
    match mapping_get p files with
    | Some c => Ok c
    | None => Raise (Exn "FileNotFoundError" ("No such file or directory: '" ++ p ++ "'"))
    end;
  pdf_page_texts := fun _ => Ok [];
  image_to_string := fun _ => Ok "";
  new_GeminiClient := fun key =>
    match key with
    | Some _ => Ok (client extracted)
    | None => Raise (Exn "ValueError" "GEMINI_API_KEY environment variable is required")
    end;
  write_json := fun _ _ => Ok tt;
  repr_other := fun _ => ""
|}.

(** The non-test-mode parser of [world]. *)
Definition parser (extracted : value) : W2Parser := {|
  test_mode := false;
  gemini_client := Some (client extracted)
|}.

(** The tree of the masking test of the repository. *)
Definition identifiers : dict := [
  ("employee", VDict [("ssn", VStr "123-45-6789")]);
  ("employer", VDict [("ein", VStr "12-3456789")])
].

(** Scenario 2 of the specification, with a record list added. *)
Definition addresses : dict := [
  ("employee", VDict [("address", VDict [("state", VStr "california")])]);
  ("employer", VDict [("address", VDict [("state", VStr " Ny ")])]);
  ("state_local", VList [
     VDict [("state", VStr "Atlantis")];
     VDict [("state", VStr "TEXAS"); ("state_wages", VStr "$1,000.00")]
   ])
].

(** Scenario 3 of the specification, with more fields. *)
Definition amounts : dict := [
  ("federal", VDict [
     ("wages_tips", VStr "$75,000.00");
     ("federal_income_tax", VStr "15000");
     ("medicare_wages", VStr "-");
     ("medicare_tax", VStr "n/a");
     ("allocated_tips", VStr "1.2.3");
     ("social_security_tips", VInt 12);
     ("box", VStr "7")
   ]);
  ("state_local", VList [
     VDict [("state", VStr "TX"); ("state_wages", VStr "$1,000.50")]
   ])
].

(** A federal section whose wages are the empty text. *)
Definition blank_wages : dict := [
  ("federal", VDict [("wages_tips", VStr "")])
].

(** Scenario 5 of the specification: no [employee.ssn], no
    [federal.wages_tips]. *)
Definition incomplete : dict := [
  ("employee", VDict [("name", VStr "John A. Doe")]);
  ("federal", VDict [
     ("wages_tips", VNone);
     ("federal_income_tax", dec 150000 1);
     ("social_security_wages", dec 750000 1)
   ])
].

(** Scenario 4 of the specification: a text of length 10. *)
Definition short_text : string := "0123456789".

(** A complete tree whose Box 1 wages are 0.0 and whose Social Security
    wages are 50000.0. *)
Definition zero_wages : dict := [
  ("employee", VDict [("name", VStr "John A. Doe"); ("ssn", VStr "***-**-1234")]);
  ("federal", VDict [
     ("wages_tips", dec 0 1);
     ("federal_income_tax", dec 0 1);
     ("social_security_wages", dec 500000 1)
   ])
].

(** The same tree with Box 1 wages of 40000.0. *)
Definition low_wages : dict := [
  ("employee", VDict [("name", VStr "John A. Doe"); ("ssn", VStr "***-**-1234")]);
  ("federal", VDict [
     ("wages_tips", dec 400000 1);
     ("federal_income_tax", dec 0 1);
     ("social_security_wages", dec 500000 1)
   ])
].

(** A text of 200 characters. *)
Definition long_text : string :=
  let ten := "W-2 wages." in
  let fifty := ten ++ ten ++ ten ++ ten ++ ten in
  fifty ++ fifty ++ fifty ++ fifty.

(** One text file, one file with an extension the parser does not know,
    and one empty file; the model answers with the tree [identifiers]. *)
Definition office : World :=
  world [("w2.txt", long_text); ("w2.doc", "W-2"); ("empty.txt", "")]
        (VDict identifiers).

Definition clerk : W2Parser := parser (VDict identifiers).

Definition command_line (path : string) : Args := {|
  file_path := path;
  arg_test_mode := false;
  output := None;
  api_key := Some "key"
|}.

End Sample.

(** ** What the passes compute on a well-shaped tree *)

Module Pure.
Import Py W2.

(** Rewrite the value stored under [k], if there is one. *)
Definition alter (f : value -> value) (k : string) (d : dict) : dict :=
  match lookup k d with
  | Some v => update k (f v) d
  | None => d
  end.

Definition on_dict (g : dict -> dict) (v : value) : value :=
  match v with VDict m => VDict (g m) | _ => v end.

Definition on_list (g : list value -> list value) (v : value) : value :=
  match v with VList l => VList (g l) | _ => v end.

Definition is_dict (v : value) : bool :=
  match v with VDict _ => true | _ => false end.

(** The key [k] is missing from [d] or holds a mapping that satisfies [p]. *)
Definition dict_or_absent (p : dict -> bool) (k : string) (d : dict) : bool :=
  match lookup k d with
  | None => true
  | Some (VDict m) => p m
  | Some _ => false
  end.

Definition any_dict (m : dict) : bool := true.

(** The digits of a text, in order. *)
Definition digits_of (s : string) : list ascii := filter is_digit (chars s).

(** The last [n] elements of a list. *)
Definition lastn {A : Type} (n : nat) (l : list A) : list A :=
  rev (firstn n (rev l)).

(** The masking rule in the words of the specification. *)
Definition mask_text (raw : string) : string :=
  if (4 <=? List.length (digits_of raw))%nat
  then "***-**-" ++ str (lastn 4 (digits_of raw))
  else "***-**-****".

(** The new value of an identifier field: a value that counts as absent
    or empty is kept. *)
Definition mask_value (w : World) (raw : value) : value :=
  if truthy raw then VStr (mask_text (py_str (repr_other w) raw)) else raw.

(** [m'] is [m] with the value under [key], if any, replaced by its
    image under [f]: no key is added, removed or moved, and no other
    value changes. *)
Definition field_rewritten (f : value -> value) (key : string) (m m' : dict) : Prop :=
  map fst m' = map fst m /\
  (forall k, k <> key -> lookup k m' = lookup k m) /\
  lookup key m' = option_map f (lookup key m).

(** The mapping under [sec] is related by [R] to its new contents; a
    section that is missing stays missing. *)
Definition section_rewritten (R : dict -> dict -> Prop) (sec : string) (d d' : dict) : Prop :=
  match lookup sec d with
  | None => lookup sec d' = None
  | Some (VDict m) => exists m', lookup sec d' = Some (VDict m') /\ R m m'
  | Some v => lookup sec d' = Some v
  end.

(** The fifty states: full name in lower case, and code. *)
Definition us_states : list (string * string) := [
  ("alabama", "AL"); ("alaska", "AK"); ("arizona", "AZ");
  ("arkansas", "AR"); ("california", "CA"); ("colorado", "CO");
  ("connecticut", "CT"); ("delaware", "DE"); ("florida", "FL");
  ("georgia", "GA"); ("hawaii", "HI"); ("idaho", "ID");
  ("illinois", "IL"); ("indiana", "IN"); ("iowa", "IA");
  ("kansas", "KS"); ("kentucky", "KY"); ("louisiana", "LA");
  ("maine", "ME"); ("maryland", "MD"); ("massachusetts", "MA");
  ("michigan", "MI"); ("minnesota", "MN"); ("mississippi", "MS");
  ("missouri", "MO"); ("montana", "MT"); ("nebraska", "NE");
  ("nevada", "NV"); ("new hampshire", "NH"); ("new jersey", "NJ");
  ("new mexico", "NM"); ("new york", "NY"); ("north carolina", "NC");
  ("north dakota", "ND"); ("ohio", "OH"); ("oklahoma", "OK");
  ("oregon", "OR"); ("pennsylvania", "PA"); ("rhode island", "RI");
  ("south carolina", "SC"); ("south dakota", "SD"); ("tennessee", "TN");
  ("texas", "TX"); ("utah", "UT"); ("vermont", "VT");
  ("virginia", "VA"); ("washington", "WA"); ("west virginia", "WV");
  ("wisconsin", "WI"); ("wyoming", "WY")
].

(** The code of the state whose full name or lower-cased code is [key]. *)
Definition canonical_code (key : string) : option string :=
  option_map snd
    (find (fun st => String.eqb key (fst st) || String.eqb key (lower (snd st)))
          us_states).

(** The rule of state normalisation in the words of the specification:
    trim, lower-case, look the result up among the full names and the
    codes; anything that does not match, and anything that is not a text,
    is kept. *)
Definition normalize_state_value (v : value) : value :=
  match v with
  | VStr s =>
      match canonical_code (lower (strip s)) with
      | Some c => VStr c
      | None => v
      end
  | _ => v
  end.

(** The records of a list are related one by one. *)
Definition records_rewritten (R : dict -> dict -> Prop) (d d' : dict) : Prop :=
  match lookup "state_local" d with
  | None => lookup "state_local" d' = None
  | Some (VList l) =>
      exists l',
        lookup "state_local" d' = Some (VList l') /\
        Forall2 (fun r r' => exists m m', r = VDict m /\ r' = VDict m' /\ R m m') l l'
  | Some v => lookup "state_local" d' = Some v
  end.

(** The key 'state_local' is missing or holds a list of mappings. *)
Definition records_or_absent (d : dict) : bool :=
  match lookup "state_local" d with
  | None => true
  | Some (VList l) => forallb is_dict l
  | Some _ => false
  end.

(** A section whose other keys are kept and whose address has its state
    rewritten by [f]. *)
Definition address_rewritten (f : value -> value) (m m' : dict) : Prop :=
  map fst m' = map fst m /\
  (forall k, k <> "address" -> lookup k m' = lookup k m) /\
  section_rewritten (field_rewritten f "state") "address" m m'.

Definition is_upper (c : ascii) : bool := ((65 <=? code c) && (code c <=? 90))%N.

(** The rule of numeric coercion as the code applies it: a text that is
    not empty is cleaned and parsed, and becomes [None] when nothing
    numeric is left or the rest is not a number; the empty text and
    every value that is not a text are kept. *)
Definition coerce (v : value) : value :=
  match v with
  | VStr s =>
      if String.eqb s "" then v
      else
        let cleaned := sub_non_numeric s in
        if String.eqb cleaned "" || String.eqb cleaned "-" then VNone
        else
          match parse_float cleaned with
          | Some f => VFloat f
          | None => VNone
          end
  | _ => v
  end.

(** The rule as the claim words it: the empty text becomes [None] too. *)
Definition coerce_claimed (v : value) : value :=
  match v with
  | VStr s =>
      let cleaned := sub_non_numeric s in
      if String.eqb cleaned "" || String.eqb cleaned "-" then VNone
      else
        match parse_float cleaned with
        | Some f => VFloat f
        | None => VNone
        end
  | _ => v
  end.

(** [m'] is [m] with the value of every key of [fields] replaced by its
    image under [f]. *)
Definition fields_rewritten (f : value -> value) (fields : list string) (m m' : dict) : Prop :=
  map fst m' = map fst m /\
  forall k,
    lookup k m' = if mem k fields then option_map f (lookup k m) else lookup k m.

(** *** Quality report *)

Definition is_none_or_empty (v : value) : bool :=
  match v with
  | VNone => true
  | VStr s => String.eqb s ""
  | _ => false
  end.

(** A dotted path is missing from a tree of nested mappings when some
    segment is absent, or its value is [None] or the empty text. *)
Fixpoint path_missing (segments : list string) (v : value) : bool :=
  match segments with
  | [] => false
  | segment :: rest =>
      match v with
      | VDict d =>
          match lookup segment d with
          | None => true
          | Some x => is_none_or_empty x || path_missing rest x
          end
      | _ => true
      end
  end.

(** The critical paths that are missing from [data], in order. *)
Definition missing_paths (data : value) : list string :=
  filter (fun p => path_missing (split "." p) data) critical_fields.

(** The section [sec] is missing, [None], the empty text or a mapping. *)
Definition section_or_blank (sec : string) (d : dict) : bool :=
  match lookup sec d with
  | None => true
  | Some v => is_none_or_empty v || is_dict v
  end.

Definition is_number (v : value) : bool :=
  match v with
  | VBool _ | VInt _ | VFloat _ => true
  | _ => false
  end.

(** An amount of the data model: missing, a number, or a value that
    counts as absent ([None], the empty text). *)
Definition amount_ok (v : option value) : bool :=
  match v with
  | None => true
  | Some x => negb (truthy x) || is_number x
  end.

(** The shape the quality report expects of the normalised tree. *)
Definition report_input_ok (d : dict) : bool :=
  section_or_blank "employee" d &&
  match lookup "federal" d with
  | None => true
  | Some (VDict federal) =>
      amount_ok (lookup "wages_tips" federal)
      && amount_ok (lookup "social_security_wages" federal)
  | Some _ => false
  end.

Definition get_or_none (k : string) (d : dict) : value :=
  match lookup k d with Some v => v | None => VNone end.

Definition federal_of (d : dict) : dict :=
  match lookup "federal" d with Some (VDict federal) => federal | _ => [] end.

(** What the consistency check of the code tests: both amounts count as
    true, and Social Security wages are greater than Box 1 wages. *)
Definition flagged_inconsistent (d : dict) : bool :=
  let wages_tips := get_or_none "wages_tips" (federal_of d) in
  let social_security_wages := get_or_none "social_security_wages" (federal_of d) in
  truthy wages_tips && truthy social_security_wages &&
  match num_of social_security_wages, num_of wages_tips with
  | Some a, Some b => num_gtb a b
  | _, _ => false
  end.

(** What the claim asks the check to test: both amounts are present
    (zero included), and Social Security wages are greater. *)
Definition claimed_inconsistent (d : dict) : bool :=
  match lookup "social_security_wages" (federal_of d),
        lookup "wages_tips" (federal_of d) with
  | Some x, Some y =>
      match num_of x, num_of y with
      | Some a, Some b => num_gtb a b
      | _, _ => false
      end
  | _, _ => false
  end.

(** The order of the tiers: low below medium below high. *)
Definition tier_rank (c : string) : option nat :=
  if String.eqb c "low" then Some 0%nat
  else if String.eqb c "medium" then Some 1%nat
  else if String.eqb c "high" then Some 2%nat
  else None.

Definition tier_le (a b : string) : Prop :=
  match tier_rank a, tier_rank b with
  | Some x, Some y => (x <= y)%nat
  | _, _ => False
  end.

Definition low_text_warning : string :=
  "Low text extraction - possible OCR issues".

Definition inconsistency_warning : string :=
  "Social Security wages exceed Box 1 wages - possible data inconsistency".

Definition missing_warning (missing : list string) : string :=
  "Missing critical fields: " ++ join ", " missing.

(** The report in closed form. *)
Definition later_warnings (d : dict) (text : string) : list string :=
  ((if len (strip text) <? 50 then [low_text_warning] else [])
   ++ (if flagged_inconsistent d then [inconsistency_warning] else []))%list.

Definition report_warnings (d : dict) (text : string) : list string :=
  match missing_paths (VDict d) with
  | [] => later_warnings d text
  | _ :: _ => missing_warning (missing_paths (VDict d)) :: later_warnings d text
  end.

Definition report_confidence (d : dict) (text : string) : string :=
  if len (strip text) <? 50 then "low"
  else if len (strip text) <? 200 then "medium"
  else match missing_paths (VDict d) with
       | [] => "high"
       | _ :: _ => "medium"
       end.

Definition report_text_quality (text : string) : string :=
  if len (strip text) <? 50 then "poor"
  else if len (strip text) <? 200 then "fair"
  else "good".

Definition quality_report (d : dict) (text method : string) : value :=
  VDict [
    ("confidence", VStr (report_confidence d text));
    ("warnings", VList (map VStr (report_warnings d text)));
    ("text_quality", VStr (report_text_quality text));
    ("extraction_method", VStr method);
    ("text_length", VInt (len (strip text)));
    ("critical_fields_missing",
     VInt (Z.of_nat (List.length (missing_paths (VDict d)))))
  ].

(** *** Orchestration *)

Definition supported_extensions : list string :=
  [".pdf"; ".jpg"; ".jpeg"; ".png"; ".tiff"; ".bmp"; ".txt"].

(** A quality report with the six fields of the data model. *)
Definition six_fields (q : value) : Prop :=
  exists confidence warnings text_quality method text_length missing,
    q = VDict [
      ("confidence", VStr confidence);
      ("warnings", VList (map VStr warnings));
      ("text_quality", VStr text_quality);
      ("extraction_method", VStr method);
      ("text_length", VInt text_length);
      ("critical_fields_missing", VInt missing)
    ] /\
    In confidence ["high"; "medium"; "low"] /\
    In text_quality ["good"; "fair"; "poor"] /\
    0 <= text_length /\
    0 <= missing.

(** One of the five named steps of the pipeline raises [e], the steps
    before it having returned. *)
Inductive step_raises (w : World) (self : W2Parser) (path : string) (e : exn) : Prop :=
| raises_text_extraction :
    _extract_text_from_file w path = Raise e ->
    step_raises w self path e
| raises_structured_extraction text method client :
    _extract_text_from_file w path = Ok (text, method) ->
    gemini_client self = Some client ->
    extract_w2_data client text = Raise e ->
    step_raises w self path e
| raises_normalization text method client data :
    _extract_text_from_file w path = Ok (text, method) ->
    gemini_client self = Some client ->
    extract_w2_data client text = Ok data ->
    _normalize_data w data = Raise e ->
    step_raises w self path e
| raises_insight_generation text method client data normalized address :
    _extract_text_from_file w path = Ok (text, method) ->
    gemini_client self = Some client ->
    extract_w2_data client text = Ok data ->
    _normalize_data w data = Ok normalized ->
    _get_employee_address normalized = Ok address ->
    generate_insights client normalized address = Raise e ->
    step_raises w self path e
| raises_quality_scoring text method client data normalized address insights :
    _extract_text_from_file w path = Ok (text, method) ->
    gemini_client self = Some client ->
    extract_w2_data client text = Ok data ->
    _normalize_data w data = Ok normalized ->
    _get_employee_address normalized = Ok address ->
    generate_insights client normalized address = Ok insights ->
    _generate_quality_report normalized text method = Raise e ->
    step_raises w self path e.

(** *** Normalisation as a whole *)

Definition sections : list string :=
  ["employee"; "employer"; "federal"; "state_local"; "other_boxes"].

(** The default of a section that the blob lacks. *)
Definition default_of (sec : string) : value :=
  if String.eqb sec "state_local" then VList [] else VDict [].

(** The shape of the data model: employee and employer are mappings whose
    address is a mapping, federal is a mapping, state_local is a list of
    mappings; every one of them may be missing. *)
Definition tree_ok (d : dict) : bool :=
  dict_or_absent (dict_or_absent any_dict "address") "employee" d
  && dict_or_absent (dict_or_absent any_dict "address") "employer" d
  && dict_or_absent any_dict "federal" d
  && records_or_absent d.

Definition is_empty (v : value) : bool :=
  match v with
  | VDict [] | VList [] => true
  | _ => false
  end.

(** [d'] has the keys of [d] in the same order, the same 'other_boxes',
    and every empty section of [d] unchanged. *)
Definition keeps (d d' : dict) : Prop :=
  map fst d' = map fst d /\
  lookup "other_boxes" d' = lookup "other_boxes" d /\
  forall k v, lookup k d = Some v -> is_empty v = true -> lookup k d' = Some v.

Definition mask_tree (w : World) (d : dict) : dict :=
  alter (on_dict (alter (mask_value w) "ein")) "employer"
    (alter (on_dict (alter (mask_value w) "ssn")) "employee" d).

Definition normalize_address (m : dict) : dict :=
  alter (on_dict (alter normalize_state_value "state")) "address" m.

Definition states_tree (d : dict) : dict :=
  alter (on_list (map (on_dict (alter normalize_state_value "state"))))
        "state_local"
    (alter (on_dict normalize_address) "employer"
       (alter (on_dict normalize_address) "employee" d)).

Definition coerce_all (fields : list string) (m : dict) : dict :=
  fold_left (fun m field => alter coerce field m) fields m.

Definition convert_tree (d : dict) : dict :=
  alter (on_list (map (on_dict (coerce_all ["state_wages"; "state_income_tax"]))))
        "state_local"
    (alter (on_dict (coerce_all monetary_fields)) "federal" d).

(** The tree [_normalize_data] builds before the three passes. *)
Definition with_defaults (d : dict) : dict :=
  map (fun sec =>
         (sec, match lookup sec d with Some v => v | None => default_of sec end))
      sections.

End Pure.

(** ** Definitions for the further properties *)

Module More.
Import Py W2 Run Gemini Sample Pure.

(** The service [s] with other answers of the model. *)
Definition with_content (s : Service) (g : nat -> string -> res string) : Service := {|
  getenv_key := getenv_key s;
  configure := configure s;
  extraction_prompt_file := extraction_prompt_file s;
  insights_prompt_file := insights_prompt_file s;
  generate_content := g;
  json_loads := json_loads s;
  json_dumps := json_dumps s;
  format := format s
|}.

(** The prompt of the extraction call: the file if it exists, else the
    built-in text. *)
Definition extraction_prompt (s : Service) : res string :=
  match extraction_prompt_file s with
  | Some content => content
  | None => Ok extraction_fallback_prompt
  end.

Definition full_prompt (prompt text_content : string) : string :=
  prompt ++ newline ++ newline ++ "W-2 CONTENT:" ++ newline ++ text_content.

(** The prompt of the insight call, or the exception of reading the
    template or of formatting it. *)
Definition insights_prompt (s : Service) (extracted_data : value) (address : string)
  : res string :=
  prompt_template <-
    match insights_prompt_file s with
    | Some content => content
    | None => Ok insights_fallback_template
    end ;;
  format s prompt_template (json_dumps s extracted_data) address.

(** A mapping whose 'insights' is a list. *)
Definition has_insights_list (v : value) : Prop :=
  exists m l, v = VDict m /\ lookup "insights" m = Some (VList l).

(** The four address components, in the order of the display text. *)
Definition address_keys : list string := ["street"; "city"; "state"; "zip"].

(** The components of an address that count as true. *)
Definition address_components (addr : dict) : list value :=
  filter truthy (map (fun k => get_or_none k addr) address_keys).

Definition text_or_absent (k : string) (addr : dict) : bool :=
  match lookup k addr with
  | None | Some (VStr _) | Some VNone => true
  | Some _ => false
  end.

Definition text_of (v : value) : string :=
  match v with VStr t => t | _ => "" end.

Definition extraction_labels : list string :=
  ["failed"; "ocr"; "direct_extraction"; "ocr_fallback"; "direct_text"].

Definition image_extensions : list string :=
  [".jpg"; ".jpeg"; ".png"; ".tiff"; ".bmp"].

(** A service for the examples: the model answers call [n] with the
    [n]-th entry of [responses]; [json.loads] knows the texts of [table];
    formatting a template appends the data and the address. *)
Definition service (responses : list (res string)) (table : list (string * value))
  : Service := {|
  getenv_key := None;
  configure := fun _ => Ok tt;
  extraction_prompt_file := None;
  insights_prompt_file := None;
  generate_content := fun n _ =>
    nth n responses (Raise (Exn "RuntimeError" "no response"));
  json_loads := fun t =>
    match lookup t table with
    | Some v => Ok v
    | None => Raise (Exn "JSONDecodeError" "Expecting value: line 1 column 1 (char 0)")
    end;
  json_dumps := fun _ => "{}";
  format := fun template data address => Ok (template ++ data ++ address)
|}.

(** The same service with a template that cannot be formatted. *)
Definition service_bad_template : Service := {|
  getenv_key := None;
  configure := fun _ => Ok tt;
  extraction_prompt_file := None;
  insights_prompt_file := None;
  generate_content := fun _ _ => Ok "{}";
  json_loads := fun _ => Ok (VDict []);
  json_dumps := fun _ => "{}";
  format := fun _ _ _ => Raise (Exn "KeyError" "'field'")
|}.

(** Two answers that are no JSON, then a fenced answer. *)
Definition third_time_lucky : Service :=
  service [Ok "Here is the data"; Raise (Exn "TimeoutError" "timed out");
           Ok ("```json" ++ newline ++ "{}" ++ newline ++ "```")]
          [(newline ++ "{}" ++ newline, VDict [("federal", VDict [])]);
           ("{}", VDict [])].

(** Three answers that are no JSON. *)
Definition never_json : Service :=
  service [Ok "Sorry"; Ok "Sorry"; Ok "Sorry"; Ok "{}"] [("{}", VDict [])].

(** An address whose zip code is a number. *)
Definition numeric_zip : dict := [
  ("employee", VDict [
     ("name", VStr "John A. Doe");
     ("address", VDict [
        ("street", VStr "123 Main Street");
        ("city", VStr "");
        ("state", VStr "NY");
        ("zip", VInt 10001)
      ])
   ])
].

(** The same address with the zip code as a text. *)
Definition text_zip : dict := [
  ("employee", VDict [
     ("name", VStr "John A. Doe");
     ("address", VDict [
        ("street", VStr "123 Main Street");
        ("city", VStr "");
        ("state", VStr "NY");
        ("zip", VStr "10001")
      ])
   ])
].

(** A blob whose employee section is [null]. *)
Definition null_employee : dict := [
  ("employee", VNone);
  ("federal", VDict [("wages_tips", VStr "100")])
].

(** A world with the OCR libraries, where reading any PDF fails and
    [w2.pdf], [scan.png] exist. *)
Definition scanner (ocr : bool) (pages : res (list string)) : World := {|
  OCR_AVAILABLE := ocr;
  os_path_exists := fun p => mem p ["w2.pdf"; "scan.png"];
  os_path_getsize := fun _ => 1024;
  Path_suffix := posix_suffix;
  read_text := fun _ => Raise (Exn "UnicodeDecodeError" "invalid start byte");
  pdf_page_texts := fun _ => pages;
  image_to_string := fun _ => Raise (Exn "TesseractNotFoundError" "tesseract is not installed");
  new_GeminiClient := Gemini.new third_time_lucky;
  write_json := fun _ _ => Ok tt;
  repr_other := fun _ => ""
|}.

(** A parser that uses the client of the repository. *)
Definition analyst (s : Service) : W2Parser := {|
  test_mode := false;
  gemini_client := Some (Gemini.client s)
|}.

(** A result from which the summary of the command line can be printed:
    [fields] is a mapping, [insights] a list, and [quality] has a tier
    and a list of warnings. *)
Definition summary_ready (result : value) : Prop :=
  exists fields insights q confidence warnings,
    result = VDict [("fields", VDict fields); ("insights", VList insights);
                    ("quality", q)] /\
    at_path ["confidence"] q = Some confidence /\
    at_path ["warnings"] q = Some (VList warnings).

End More.

(** ** Facts *)

Import Py W2 Run Sample Pure.

(** One step of a computation that returns: the first call returned. *)
Ltac step :=
  match goal with
  | |- bind ?c _ = Ok _ -> _ =>
      let E := fresh "E" in
      destruct c eqn:E; cbn [bind]; [|discriminate]
  end.

(** *** Association lists *)

Lemma lookup_update_same k v d : lookup k (update k v d) = Some v.
Proof.
  induction d as [|[k' v'] d IH]; simpl.
  - now rewrite String.eqb_refl.
  - destruct (String.eqb k k') eqn:E; simpl; rewrite E; auto.
Qed.

Lemma lookup_update_other k k' v d :
  k' <> k -> lookup k' (update k v d) = lookup k' d.
Proof.
  intros Hne. induction d as [|[k0 v0] d IH]; simpl.
  - apply String.eqb_neq in Hne. now rewrite Hne.
  - destruct (String.eqb k k0) eqn:E; simpl.
    + apply String.eqb_eq in E. subst k0.
      apply String.eqb_neq in Hne. now rewrite Hne.
    + now rewrite IH.
Qed.

Lemma keys_update k v d x :
  lookup k d = Some x -> map fst (update k v d) = map fst d.
Proof.
  induction d as [|[k0 v0] d IH]; simpl; intros H.
  - discriminate.
  - destruct (String.eqb k k0) eqn:E; simpl.
    + reflexivity.
    + now rewrite IH.
Qed.

Lemma update_same k v d : lookup k d = Some v -> update k v d = d.
Proof.
  induction d as [|[k0 v0] d IH]; simpl; intros H.
  - discriminate.
  - destruct (String.eqb k k0) eqn:E.
    + now inversion H.
    + now rewrite IH.
Qed.

Lemma lookup_alter_same f k d : lookup k (alter f k d) = option_map f (lookup k d).
Proof.
  unfold alter. destruct (lookup k d) eqn:E; simpl.
  - apply lookup_update_same.
  - exact E.
Qed.

Lemma lookup_alter_other f k k' d :
  k' <> k -> lookup k' (alter f k d) = lookup k' d.
Proof.
  intros Hne. unfold alter. destruct (lookup k d); auto using lookup_update_other.
Qed.

Lemma alter_some f k d v : lookup k d = Some v -> alter f k d = update k (f v) d.
Proof. unfold alter. now intros ->. Qed.

Lemma alter_none f k d : lookup k d = None -> alter f k d = d.
Proof. unfold alter. now intros ->. Qed.

Lemma keys_alter f k d : map fst (alter f k d) = map fst d.
Proof.
  unfold alter. destruct (lookup k d) eqn:E; eauto using keys_update.
Qed.

Lemma field_rewritten_alter f key m : field_rewritten f key m (alter f key m).
Proof.
  repeat split.
  - apply keys_alter.
  - intros k Hk. now apply lookup_alter_other.
  - apply lookup_alter_same.
Qed.

(** *** Strings *)

Lemma chars_str l : chars (str l) = l.
Proof. apply list_ascii_of_string_of_list_ascii. Qed.

Lemma length_chars s : List.length (chars s) = String.length s.
Proof. induction s; simpl; congruence. Qed.

Lemma len_str l : len (str l) = Z.of_nat (List.length l).
Proof. unfold len. now rewrite <- length_chars, chars_str. Qed.

Lemma skipn_lastn {A : Type} (n : nat) (l : list A) :
  skipn (List.length l - n) l = lastn n l.
Proof.
  unfold lastn. now rewrite firstn_rev, rev_involutive.
Qed.

Lemma masked_mask_text s : masked (sub_non_digits s) = mask_text s.
Proof.
  unfold masked, mask_text, sub_non_digits, last_chars, digits_of.
  rewrite len_str, chars_str, skipn_lastn.
  destruct (Nat.leb_spec 4 (List.length (filter is_digit (chars s))));
    destruct (Z.leb_spec 4 (Z.of_nat (List.length (filter is_digit (chars s)))));
    try reflexivity; lia.
Qed.

(** *** Masking *)

Lemma mask_field_pure w sec key d :
  dict_or_absent any_dict sec d = true ->
  mask_field w sec key (VDict d)
  = Ok (VDict (alter (on_dict (alter (mask_value w) key)) sec d)).
Proof.
  unfold dict_or_absent, mask_field, alter at 1. simpl.
  destruct (lookup sec d) as [v|] eqn:Hsec; simpl; [|reflexivity].
  destruct v; try discriminate. intros _. simpl.
  unfold alter, mask_value.
  destruct (lookup key d0) as [raw|] eqn:Hkey; simpl.
  - destruct (truthy raw) eqn:Ht; simpl.
    + now rewrite masked_mask_text.
    + now rewrite (update_same key raw), (update_same sec (VDict d0)).
  - now rewrite (update_same sec (VDict d0)).
Qed.

Lemma section_rewritten_on_dict (R : dict -> dict -> Prop) g sec d d' :
  lookup sec d' = option_map (on_dict g) (lookup sec d) ->
  (forall m, R m (g m)) ->
  section_rewritten R sec d d'.
Proof.
  unfold section_rewritten. intros H HR.
  destruct (lookup sec d) as [v|]; simpl in H; [|exact H].
  destruct v; simpl in H; try exact H.
  eexists; split; [exact H | apply HR].
Qed.

Lemma dict_or_absent_alter_other p f k k' d :
  k' <> k -> dict_or_absent p k' (alter f k d) = dict_or_absent p k' d.
Proof.
  intros Hne. unfold dict_or_absent. now rewrite lookup_alter_other.
Qed.

(** C2.  On a field tree whose employee and employer sections are
    mappings (or missing), masking returns a tree with the same keys in
    which only [employee.ssn] and [employer.ein] can differ.  Each of the
    two is rewritten by the same rule: a value that is missing or empty
    is kept and no key is created; otherwise the non-digits are stripped
    and the new value is ["***-**-"] followed by the last four digits
    when at least four digits remain, and ["***-**-****"] when fewer
    remain. *)
Theorem mask_sensitive_data_rewrites (w : World) (d : dict) :
  dict_or_absent any_dict "employee" d = true ->
  dict_or_absent any_dict "employer" d = true ->
  exists d',
    _mask_sensitive_data w (VDict d) = Ok (VDict d') /\
    map fst d' = map fst d /\
    (forall k, k <> "employee" -> k <> "employer" -> lookup k d' = lookup k d) /\
    section_rewritten (field_rewritten (mask_value w) "ssn") "employee" d d' /\
    section_rewritten (field_rewritten (mask_value w) "ein") "employer" d d' /\
    (forall raw : string,
        raw <> "" ->
        mask_value w (VStr raw)
        = VStr (if (4 <=? List.length (digits_of raw))%nat
                then "***-**-" ++ str (lastn 4 (digits_of raw))
                else "***-**-****")) /\
    mask_value w (VStr "") = VStr "" /\
    mask_value w VNone = VNone.
Proof.
  intros He Hr.
  unfold _mask_sensitive_data.
  rewrite (mask_field_pure w "employee" "ssn" d He). simpl.
  rewrite mask_field_pure
    by (rewrite dict_or_absent_alter_other; [exact Hr | discriminate]).
  eexists. split; [reflexivity|].
  split; [now rewrite !keys_alter|].
  split.
  { intros k H1 H2. now rewrite !lookup_alter_other. }
  split.
  { apply section_rewritten_on_dict with (g := alter (mask_value w) "ssn").
    - rewrite lookup_alter_other by discriminate. apply lookup_alter_same.
    - intros m. apply field_rewritten_alter. }
  split.
  { apply section_rewritten_on_dict with (g := alter (mask_value w) "ein").
    - rewrite lookup_alter_same.
      now rewrite lookup_alter_other by discriminate.
    - intros m. apply field_rewritten_alter. }
  split; [|split; reflexivity].
  intros raw Hraw. unfold mask_value, mask_text. simpl.
  apply String.eqb_neq in Hraw. now rewrite Hraw.
Qed.

Lemma mask_sensitive_data_rewrites_witness :
  exists d',
    _mask_sensitive_data (world [] VNone) (VDict identifiers) = Ok (VDict d') /\
    map fst d' = map fst identifiers /\
    (forall k, k <> "employee" -> k <> "employer" ->
               lookup k d' = lookup k identifiers) /\
    section_rewritten (field_rewritten (mask_value (world [] VNone)) "ssn")
                      "employee" identifiers d' /\
    section_rewritten (field_rewritten (mask_value (world [] VNone)) "ein")
                      "employer" identifiers d' /\
    (forall raw : string,
        raw <> "" ->
        mask_value (world [] VNone) (VStr raw)
        = VStr (if (4 <=? List.length (digits_of raw))%nat
                then "***-**-" ++ str (lastn 4 (digits_of raw))
                else "***-**-****")) /\
    mask_value (world [] VNone) (VStr "") = VStr "" /\
    mask_value (world [] VNone) VNone = VNone.
Proof.
  apply (mask_sensitive_data_rewrites (world [] VNone) identifiers);
    reflexivity.
Defined.

(** Scenario 1 of the specification: both identifiers end in 6789. *)
Example mask_sensitive_data_scenario :
  _mask_sensitive_data (world [] VNone) (VDict identifiers)
  = Ok (VDict [
      ("employee", VDict [("ssn", VStr "***-**-6789")]);
      ("employer", VDict [("ein", VStr "***-**-6789")])
    ]).
Proof. reflexivity. Qed.

(** *** Trimming and lower-casing *)

Lemma is_space_lower_char c : is_space (lower_char c) = is_space c.
Proof. destruct c as [[] [] [] [] [] [] [] []]; reflexivity. Qed.

Lemma lstrip_chars_lower l :
  lstrip_chars (map lower_char l) = map lower_char (lstrip_chars l).
Proof.
  induction l as [|c l IH]; simpl; [reflexivity|].
  rewrite is_space_lower_char. now destruct (is_space c).
Qed.

Lemma strip_chars_lower l :
  strip_chars (map lower_char l) = map lower_char (strip_chars l).
Proof.
  unfold strip_chars.
  now rewrite lstrip_chars_lower, <- map_rev, lstrip_chars_lower, map_rev.
Qed.

(** Lower-casing and trimming commute, so the order of the source
    ([state.lower().strip()]) and the order of the specification agree. *)
Lemma strip_lower s : strip (lower s) = lower (strip s).
Proof.
  unfold strip, lower. now rewrite !chars_str, strip_chars_lower.
Qed.

Lemma lstrip_chars_spaces a l :
  forallb is_space a = true -> lstrip_chars (a ++ l)%list = lstrip_chars l.
Proof.
  induction a as [|c a IH]; simpl; [reflexivity|].
  intros H. apply andb_prop in H as [Hc Ha]. rewrite Hc. auto.
Qed.

Lemma lstrip_chars_app l b :
  lstrip_chars (l ++ b)%list
  = match lstrip_chars l with
    | [] => lstrip_chars b
    | _ => (lstrip_chars l ++ b)%list
    end.
Proof.
  induction l as [|c l IH]; simpl.
  - now destruct (lstrip_chars b).
  - destruct (is_space c); auto.
Qed.

Lemma forallb_reverse {A : Type} (p : A -> bool) (l : list A) :
  forallb p (rev l) = forallb p l.
Proof.
  induction l as [|x l IH]; simpl; [reflexivity|].
  rewrite forallb_app, IH. simpl. rewrite andb_true_r. apply andb_comm.
Qed.

(** Whitespace around a text does not change what [strip] returns. *)
Lemma strip_chars_padded a l b :
  forallb is_space a = true -> forallb is_space b = true ->
  strip_chars (a ++ l ++ b)%list = strip_chars l.
Proof.
  intros Ha Hb. unfold strip_chars.
  rewrite (lstrip_chars_spaces a _ Ha), lstrip_chars_app.
  destruct (lstrip_chars l) as [|c t] eqn:E.
  - replace (lstrip_chars b) with (@nil ascii); [reflexivity|].
    clear -Hb. induction b as [|x b IH]; simpl in *; [reflexivity|].
    apply andb_prop in Hb as [Hx Hb]. rewrite Hx. auto.
  - rewrite rev_app_distr, lstrip_chars_spaces; [reflexivity|].
    now rewrite forallb_reverse.
Qed.

(** *** The state table *)

(** The table of the source is the fifty states, each under its full
    name and under its lower-cased code. *)
Lemma state_mapping_us_states :
  state_mapping
  = flat_map (fun st => [(fst st, snd st); (lower (snd st), snd st)]) us_states.
Proof. reflexivity. Qed.

Lemma mapping_get_both_forms k (l : list (string * string)) :
  mapping_get k (flat_map (fun st => [(fst st, snd st); (lower (snd st), snd st)]) l)
  = option_map snd
      (find (fun st => String.eqb k (fst st) || String.eqb k (lower (snd st))) l).
Proof.
  induction l as [|[n c] l IH]; simpl; [reflexivity|].
  destruct (String.eqb k n); simpl; [reflexivity|].
  destruct (String.eqb k (lower c)); simpl; [reflexivity|exact IH].
Qed.

Lemma mapping_get_canonical k : mapping_get k state_mapping = canonical_code k.
Proof.
  rewrite state_mapping_us_states. apply mapping_get_both_forms.
Qed.

Lemma canonical_code_closed k c :
  canonical_code k = Some c ->
  exists n, In (n, c) us_states /\ (k = n \/ k = lower c).
Proof.
  unfold canonical_code.
  destruct (find _ us_states) as [[n c']|] eqn:E; simpl; [|discriminate].
  intros H. inversion H. subst c'.
  apply find_some in E as [Hin Hk]. simpl in Hk.
  exists n. split; [exact Hin|].
  apply orb_prop in Hk as [Hk|Hk]; apply String.eqb_eq in Hk; auto.
Qed.

Lemma canonical_code_both_forms :
  Forall (fun st => canonical_code (fst st) = Some (snd st) /\
                    canonical_code (lower (snd st)) = Some (snd st))
         us_states.
Proof. repeat constructor. Qed.

(** *** State codes *)

Lemma normalize_state_of_pure m :
  normalize_state_of (VDict m)
  = Ok (VDict (alter normalize_state_value "state" m)).
Proof.
  unfold normalize_state_of, alter. cbn [py_get bind].
  destruct (lookup "state" m) as [v|] eqn:E; [|reflexivity].
  destruct v; cbn [normalize_state_value];
    try (now rewrite (update_same "state" _ m E)).
  cbn [truthy]. destruct (String.eqb s "") eqn:Es; cbn [negb].
  - apply String.eqb_eq in Es. subst s.
    change (canonical_code (lower (strip ""))) with (@None string).
    cbv iota. now rewrite (update_same "state" _ m E).
  - rewrite mapping_get_canonical, strip_lower.
    destruct (canonical_code (lower (strip s))); [reflexivity|].
    now rewrite (update_same "state" _ m E).
Qed.

Lemma normalize_address_state_pure sec d :
  dict_or_absent (dict_or_absent any_dict "address") sec d = true ->
  normalize_address_state sec (VDict d)
  = Ok (VDict (alter
                 (on_dict (alter (on_dict (alter normalize_state_value "state"))
                                 "address"))
                 sec d)).
Proof.
  unfold dict_or_absent at 1, normalize_address_state, alter at 1.
  cbn [py_contains py_getitem bind].
  destruct (lookup sec d) as [v|] eqn:Hsec; [|reflexivity].
  destruct v; try discriminate. cbn [bind py_contains py_getitem on_dict].
  unfold dict_or_absent, alter at 1.
  destruct (lookup "address" d0) as [a|] eqn:Ha; cbn [bind].
  - destruct a; try discriminate. intros _.
    now rewrite normalize_state_of_pure.
  - intros _. now rewrite (update_same sec _ d Hsec).
Qed.

Lemma mapM_on_dicts (body : value -> res value) (g : dict -> dict) l :
  (forall m, body (VDict m) = Ok (VDict (g m))) ->
  forallb is_dict l = true ->
  mapM body l = Ok (map (on_dict g) l).
Proof.
  intros Hbody. induction l as [|r l IH]; simpl; [reflexivity|].
  intros H. apply andb_prop in H as [Hr Hl].
  destruct r; try discriminate.
  rewrite Hbody. simpl. now rewrite IH.
Qed.

Lemma for_state_local_pure (body : value -> res value) (g : dict -> dict) d :
  (forall m, body (VDict m) = Ok (VDict (g m))) ->
  records_or_absent d = true ->
  for_state_local body (VDict d)
  = Ok (VDict (alter (on_list (map (on_dict g))) "state_local" d)).
Proof.
  intros Hbody. unfold records_or_absent, for_state_local, alter.
  cbn [py_contains py_getitem bind].
  destruct (lookup "state_local" d) as [v|] eqn:E; [|reflexivity].
  destruct v; try discriminate. intros Hl.
  cbn [bind py_iter on_list].
  now rewrite (mapM_on_dicts body g l Hbody Hl).
Qed.

Lemma records_rewritten_map (R : dict -> dict -> Prop) (g : dict -> dict) d d' :
  records_or_absent d = true ->
  lookup "state_local" d'
  = option_map (on_list (map (on_dict g))) (lookup "state_local" d) ->
  (forall m, R m (g m)) ->
  records_rewritten R d d'.
Proof.
  unfold records_or_absent, records_rewritten. intros Hs H HR.
  destruct (lookup "state_local" d) as [v|]; simpl in H; [|exact H].
  destruct v; try discriminate. simpl in H.
  eexists; split; [exact H|]. clear H.
  induction l as [|r l IH]; simpl; constructor.
  - simpl in Hs. apply andb_prop in Hs as [Hr _].
    destruct r; try discriminate. simpl. eauto.
  - apply IH. simpl in Hs. now apply andb_prop in Hs as [_ Hl].
Qed.

Lemma records_or_absent_alter_other f k d :
  k <> "state_local" -> records_or_absent (alter f k d) = records_or_absent d.
Proof.
  intros Hne. unfold records_or_absent.
  rewrite lookup_alter_other; [reflexivity|congruence].
Qed.

Lemma address_rewritten_alter f m :
  address_rewritten f m (alter (on_dict (alter f "state")) "address" m).
Proof.
  repeat split.
  - apply keys_alter.
  - intros k Hk. now apply lookup_alter_other.
  - apply section_rewritten_on_dict with (g := alter f "state").
    + apply lookup_alter_same.
    + intros a. apply field_rewritten_alter.
Qed.

Lemma normalize_state_value_matches st s :
  In st us_states ->
  lower (strip s) = fst st \/ lower (strip s) = lower (snd st) ->
  normalize_state_value (VStr s) = VStr (snd st).
Proof.
  intros Hin Hs. unfold normalize_state_value.
  pose proof canonical_code_both_forms as F.
  rewrite Forall_forall in F. destruct (F st Hin) as [Hn Hc].
  destruct Hs as [Hs|Hs]; rewrite Hs; [now rewrite Hn | now rewrite Hc].
Qed.

Lemma normalize_state_value_other s :
  (forall st, In st us_states ->
              lower (strip s) <> fst st /\ lower (strip s) <> lower (snd st)) ->
  normalize_state_value (VStr s) = VStr s.
Proof.
  intros Hno. unfold normalize_state_value.
  destruct (canonical_code (lower (strip s))) as [c|] eqn:E; [|reflexivity].
  apply canonical_code_closed in E as (n & Hin & Hk).
  destruct (Hno (n, c) Hin) as [H1 H2]. simpl in *. now destruct Hk.
Qed.

(** C4.  On a field tree whose sections have the shape of the data
    model, state normalisation returns a tree with the same keys in which
    only [employee.address.state], [employer.address.state] and the
    [state] of each state/local record can differ, each rewritten by
    [normalize_state_value].  For each of the fifty states a text that,
    trimmed and lower-cased, is the full name or the code is rewritten to
    the two-letter upper-case code; a text that matches no entry exactly,
    a value that is not a text and a missing field are kept. *)
Theorem normalize_state_codes_canonical (d : dict) :
  dict_or_absent (dict_or_absent any_dict "address") "employee" d = true ->
  dict_or_absent (dict_or_absent any_dict "address") "employer" d = true ->
  records_or_absent d = true ->
  exists d',
    _normalize_state_codes (VDict d) = Ok (VDict d') /\
    map fst d' = map fst d /\
    (forall k, k <> "employee" -> k <> "employer" -> k <> "state_local" ->
               lookup k d' = lookup k d) /\
    section_rewritten (address_rewritten normalize_state_value) "employee" d d' /\
    section_rewritten (address_rewritten normalize_state_value) "employer" d d' /\
    records_rewritten (field_rewritten normalize_state_value "state") d d' /\
    List.length us_states = 50%nat /\
    Forall (fun st => String.length (snd st) = 2%nat /\
                      forallb is_upper (chars (snd st)) = true) us_states /\
    (forall st s,
        In st us_states ->
        lower (strip s) = fst st \/ lower (strip s) = lower (snd st) ->
        normalize_state_value (VStr s) = VStr (snd st)) /\
    (forall s,
        (forall st, In st us_states ->
                    lower (strip s) <> fst st /\ lower (strip s) <> lower (snd st)) ->
        normalize_state_value (VStr s) = VStr s) /\
    (forall v, is_str v = false -> normalize_state_value v = v).
Proof.
  intros He Hr Hl. unfold _normalize_state_codes.
  rewrite (normalize_address_state_pure "employee" d He). cbn [bind].
  rewrite normalize_address_state_pure
    by (rewrite dict_or_absent_alter_other; [exact Hr | discriminate]).
  cbn [bind].
  rewrite (for_state_local_pure normalize_state_of
             (alter normalize_state_value "state"));
    [ | apply normalize_state_of_pure
      | rewrite !records_or_absent_alter_other; [exact Hl | discriminate..] ].
  eexists. split; [reflexivity|].
  split; [now rewrite !keys_alter|].
  split.
  { intros k H1 H2 H3. now rewrite !lookup_alter_other. }
  split.
  { apply section_rewritten_on_dict
      with (g := alter (on_dict (alter normalize_state_value "state")) "address").
    - rewrite !lookup_alter_other by discriminate. apply lookup_alter_same.
    - intros m. apply address_rewritten_alter. }
  split.
  { apply section_rewritten_on_dict
      with (g := alter (on_dict (alter normalize_state_value "state")) "address").
    - rewrite lookup_alter_other by discriminate.
      rewrite lookup_alter_same.
      now rewrite lookup_alter_other by discriminate.
    - intros m. apply address_rewritten_alter. }
  split.
  { apply records_rewritten_map with (g := alter normalize_state_value "state").
    - exact Hl.
    - rewrite lookup_alter_same.
      now rewrite !lookup_alter_other by discriminate.
    - intros m. apply field_rewritten_alter. }
  split; [reflexivity|].
  split; [repeat constructor|].
  split; [intros st s; apply normalize_state_value_matches|].
  split; [apply normalize_state_value_other|].
  intros v Hv. now destruct v.
Qed.

Lemma normalize_state_codes_canonical_witness :
  exists d',
    _normalize_state_codes (VDict addresses) = Ok (VDict d') /\
    map fst d' = map fst addresses /\
    section_rewritten (address_rewritten normalize_state_value)
                      "employee" addresses d' /\
    section_rewritten (address_rewritten normalize_state_value)
                      "employer" addresses d' /\
    records_rewritten (field_rewritten normalize_state_value "state")
                      addresses d'.
Proof.
  destruct (normalize_state_codes_canonical addresses)
    as (d' & H1 & H2 & _ & H4 & H5 & H6 & _); try reflexivity.
  exists d'. repeat split; assumption.
Defined.

(** Scenario 2 of the specification. *)
Example normalize_state_codes_scenario :
  _normalize_state_codes (VDict addresses)
  = Ok (VDict [
      ("employee", VDict [("address", VDict [("state", VStr "CA")])]);
      ("employer", VDict [("address", VDict [("state", VStr "NY")])]);
      ("state_local", VList [
         VDict [("state", VStr "Atlantis")];
         VDict [("state", VStr "TX"); ("state_wages", VStr "$1,000.00")]
       ])
    ]).
Proof. reflexivity. Qed.

(** The table is closed: territories and the federal district are not in it. *)
Example no_territories :
  map canonical_code ["puerto rico"; "pr"; "guam"; "district of columbia"; "dc"]
  = [None; None; None; None; None].
Proof. reflexivity. Qed.

(** *** Numeric fields *)

Lemma coerce_falsy v : truthy v = false -> coerce v = v.
Proof.
  destruct v; simpl; try reflexivity.
  intros H. apply negb_false_iff in H. now rewrite H.
Qed.

Lemma convert_field_pure m field :
  convert_field (VDict m) field = Ok (VDict (alter coerce field m)).
Proof.
  unfold convert_field, alter. cbn [py_contains py_getitem bind].
  destruct (lookup field m) as [v|] eqn:E; [|reflexivity].
  cbn [bind]. destruct (truthy v) eqn:Ht.
  2:{ now rewrite (coerce_falsy v Ht), (update_same field v m E). }
  destruct v; cbn [bind try_except coerce];
    try (now rewrite (update_same field _ m E)).
  simpl in Ht. apply negb_true_iff in Ht. rewrite Ht.
  cbn [truthy]. unfold py_float.
  destruct (String.eqb (sub_non_numeric s) ""); cbn [negb andb orb];
    [reflexivity|].
  destruct (String.eqb (sub_non_numeric s) "-"); cbn [negb andb orb];
    [reflexivity|].
  now destruct (parse_float (sub_non_numeric s)).
Qed.

Lemma convert_fields_pure fields m :
  convert_fields fields (VDict m)
  = Ok (VDict (fold_left (fun m field => alter coerce field m) fields m)).
Proof.
  revert m. induction fields as [|field rest IH]; intros m; simpl.
  - reflexivity.
  - rewrite convert_field_pure. simpl. apply IH.
Qed.

Lemma mem_false_not_in k l : mem k l = false -> ~ In k l.
Proof.
  unfold mem. intros H Hin.
  assert (existsb (String.eqb k) l = true) as Ht.
  { apply existsb_exists. exists k. split; [exact Hin | apply String.eqb_refl]. }
  congruence.
Qed.

Lemma not_in_mem_false k l : ~ In k l -> mem k l = false.
Proof.
  unfold mem. intros Hnin. destruct (existsb (String.eqb k) l) eqn:E; [|reflexivity].
  apply existsb_exists in E as (x & Hin & Hx).
  apply String.eqb_eq in Hx. now subst x.
Qed.

Lemma fields_rewritten_fold (f : value -> value) fields m :
  NoDup fields ->
  fields_rewritten f fields m
    (fold_left (fun m field => alter f field m) fields m).
Proof.
  intros Hnd. revert m.
  induction Hnd as [|field rest Hnin Hnd IH]; intros m; simpl.
  - split; [reflexivity|]. intros k. reflexivity.
  - destruct (IH (alter f field m)) as [Hkeys Hlook].
    split; [now rewrite Hkeys, keys_alter|].
    intros k. rewrite Hlook. unfold mem. simpl. fold (mem k rest).
    destruct (String.eqb k field) eqn:E; simpl.
    + apply String.eqb_eq in E. subst k.
      rewrite (not_in_mem_false field rest Hnin). apply lookup_alter_same.
    + apply String.eqb_neq in E.
      now rewrite (lookup_alter_other f field k m E).
Qed.

Lemma monetary_fields_distinct : NoDup monetary_fields.
Proof.
  unfold monetary_fields.
  repeat (constructor; [simpl; intuition discriminate|]). constructor.
Qed.

Lemma state_fields_distinct : NoDup ["state_wages"; "state_income_tax"].
Proof.
  repeat (constructor; [simpl; intuition discriminate|]). constructor.
Qed.

Lemma convert_numeric_fields_pure d :
  dict_or_absent any_dict "federal" d = true ->
  records_or_absent d = true ->
  _convert_numeric_fields (VDict d)
  = Ok (VDict
          (alter
             (on_list
                (map (on_dict
                        (fun m =>
                           fold_left (fun m field => alter coerce field m)
                                     ["state_wages"; "state_income_tax"] m))))
             "state_local"
             (alter
                (on_dict
                   (fun m =>
                      fold_left (fun m field => alter coerce field m)
                                monetary_fields m))
                "federal" d))).
Proof.
  intros Hf Hl. unfold _convert_numeric_fields.
  cbn [py_contains py_getitem bind].
  unfold dict_or_absent in Hf.
  destruct (lookup "federal" d) as [v|] eqn:E; cbn [bind].
  - destruct v; try discriminate.
    rewrite convert_fields_pure, (alter_some _ _ _ _ E).
    cbn [bind py_setitem on_dict].
    apply for_state_local_pure.
    + intros m. apply convert_fields_pure.
    + unfold records_or_absent.
      rewrite lookup_update_other by discriminate. exact Hl.
  - rewrite (alter_none _ _ _ E).
    apply for_state_local_pure; [|exact Hl].
    intros m. apply convert_fields_pure.
Qed.

Lemma coerce_agrees_on_text s :
  s <> "" -> coerce (VStr s) = coerce_claimed (VStr s).
Proof.
  intros Hs. apply String.eqb_neq in Hs. simpl. now rewrite Hs.
Qed.

(** C3, as amended.  On a tree whose federal section is a mapping (or
    missing) and whose state/local section is a list of mappings (or
    missing), numeric conversion returns without raising a tree with the
    same keys in which only the ten federal monetary fields and the two
    monetary fields of each state/local record can differ, each rewritten
    by [coerce]: a text that is not empty is stripped of every character
    except digits, ['.'] and ['-'] and becomes the parsed number, or
    [None] when the cleaned text is empty, is ["-"] or does not parse;
    the empty text is kept as it is; numbers, [None] and every other
    value that is not a text are kept.  ["$75,000.00"] becomes 75000.0
    and ["15000"] becomes 15000.0. *)
Theorem convert_numeric_fields_coerces (d : dict) :
  dict_or_absent any_dict "federal" d = true ->
  records_or_absent d = true ->
  exists d',
    _convert_numeric_fields (VDict d) = Ok (VDict d') /\
    map fst d' = map fst d /\
    (forall k, k <> "federal" -> k <> "state_local" -> lookup k d' = lookup k d) /\
    section_rewritten (fields_rewritten coerce monetary_fields) "federal" d d' /\
    records_rewritten
      (fields_rewritten coerce ["state_wages"; "state_income_tax"]) d d' /\
    List.length monetary_fields = 10%nat /\
    coerce (VStr "$75,000.00") = VFloat (float_of_Z 75000) /\
    coerce (VStr "15000") = VFloat (float_of_Z 15000) /\
    coerce (VStr "-") = VNone /\
    coerce (VStr "") = VStr "" /\
    (forall s, s <> "" -> coerce (VStr s) = coerce_claimed (VStr s)) /\
    (forall v, is_str v = false -> coerce v = v).
Proof.
  intros Hf Hl. rewrite (convert_numeric_fields_pure d Hf Hl).
  eexists. split; [reflexivity|].
  split; [now rewrite !keys_alter|].
  split.
  { intros k H1 H2. now rewrite !lookup_alter_other. }
  split.
  { apply section_rewritten_on_dict
      with (g := fun m => fold_left (fun m field => alter coerce field m)
                                    monetary_fields m).
    - rewrite lookup_alter_other by discriminate. apply lookup_alter_same.
    - intros m. apply fields_rewritten_fold, monetary_fields_distinct. }
  split.
  { apply records_rewritten_map
      with (g := fun m => fold_left (fun m field => alter coerce field m)
                                    ["state_wages"; "state_income_tax"] m).
    - exact Hl.
    - rewrite lookup_alter_same.
      now rewrite lookup_alter_other by discriminate.
    - intros m. apply fields_rewritten_fold, state_fields_distinct. }
  repeat (split; [reflexivity|]).
  split; [apply coerce_agrees_on_text|].
  intros v Hv. now destruct v.
Qed.

Lemma convert_numeric_fields_coerces_witness :
  exists d',
    _convert_numeric_fields (VDict amounts) = Ok (VDict d') /\
    map fst d' = map fst amounts /\
    section_rewritten (fields_rewritten coerce monetary_fields)
                      "federal" amounts d' /\
    records_rewritten
      (fields_rewritten coerce ["state_wages"; "state_income_tax"]) amounts d'.
Proof.
  destruct (convert_numeric_fields_coerces amounts)
    as (d' & H1 & H2 & _ & H4 & H5 & _); try reflexivity.
  exists d'. repeat split; assumption.
Defined.

(** C3 as stated fails on the empty text: the code keeps it, where the
    claim has the field become [None]. *)
Lemma convert_numeric_fields_keeps_empty_text :
  _convert_numeric_fields (VDict blank_wages) = Ok (VDict blank_wages) /\
  at_path ["federal"; "wages_tips"] (VDict blank_wages) = Some (VStr "") /\
  coerce_claimed (VStr "") = VNone /\
  ~ section_rewritten (fields_rewritten coerce_claimed monetary_fields)
      "federal" blank_wages blank_wages.
Proof.
  repeat (split; [reflexivity|]).
  unfold section_rewritten. simpl.
  intros (m' & Hm' & _ & Hlook). inversion Hm'. subst m'.
  specialize (Hlook "wages_tips"). discriminate.
Qed.

(** Scenario 3 of the specification; the exact values of the two floats
    are 75000 and 15000. *)
Example convert_numeric_fields_scenario :
  _convert_numeric_fields (VDict amounts)
  = Ok (VDict [
      ("federal", VDict [
         ("wages_tips", VFloat (S754_finite false 5153960755200000 (-36)));
         ("federal_income_tax", VFloat (S754_finite false 8246337208320000 (-39)));
         ("medicare_wages", VNone);
         ("medicare_tax", VNone);
         ("allocated_tips", VNone);
         ("social_security_tips", VInt 12);
         ("box", VStr "7")
       ]);
      ("state_local", VList [
         VDict [("state", VStr "TX");
                ("state_wages", VFloat (S754_finite false 8800491068719104 (-43)))]
       ])
    ]) /\
  5153960755200000 = 75000 * 2 ^ 36 /\
  8246337208320000 = 15000 * 2 ^ 39.
Proof. repeat split. Qed.

(** *** Quality report *)

Lemma not_none_or_empty_spec v : not_none_or_empty v = negb (is_none_or_empty v).
Proof. unfold not_none_or_empty. now destruct v. Qed.

Lemma find_path_two s1 s2 d :
  section_or_blank s1 d = true ->
  find_path [s1; s2] (VDict d) = Ok (negb (path_missing [s1; s2] (VDict d))).
Proof.
  unfold section_or_blank. cbn [find_path path_missing py_contains py_getitem bind].
  destruct (lookup s1 d) as [v|]; cbn [bind]; [|reflexivity].
  rewrite not_none_or_empty_spec.
  destruct (is_none_or_empty v) eqn:Hv; cbn [negb orb]; [reflexivity|].
  intros Hd. destruct v; try discriminate.
  cbn [py_contains py_getitem bind].
  destruct (lookup s2 d0) as [x|]; cbn [bind]; [|reflexivity].
  rewrite not_none_or_empty_spec, orb_false_r.
  now destruct (is_none_or_empty x).
Qed.

Lemma find_missing_pure paths d :
  Forall (fun p => exists s1 s2,
              split "." p = [s1; s2] /\ section_or_blank s1 d = true) paths ->
  find_missing paths (VDict d)
  = Ok (filter (fun p => path_missing (split "." p) (VDict d)) paths).
Proof.
  induction 1 as [|p paths (s1 & s2 & Hp & Hs) _ IH];
    cbn [find_missing filter]; [reflexivity|].
  rewrite Hp, (find_path_two s1 s2 d Hs), IH. cbn [bind].
  now destruct (path_missing [s1; s2] (VDict d)).
Qed.

Lemma report_input_sections d :
  report_input_ok d = true ->
  section_or_blank "employee" d = true /\ section_or_blank "federal" d = true.
Proof.
  unfold report_input_ok. intros H. apply andb_prop in H as [He Hf].
  split; [exact He|]. unfold section_or_blank.
  destruct (lookup "federal" d) as [v|]; [|reflexivity].
  now destruct v.
Qed.

Lemma find_missing_critical d :
  report_input_ok d = true ->
  find_missing critical_fields (VDict d) = Ok (missing_paths (VDict d)).
Proof.
  intros H. apply report_input_sections in H as [He Hf].
  apply find_missing_pure. unfold critical_fields.
  repeat constructor; eexists; eexists; (split; [reflexivity|assumption]).
Qed.

Lemma check_critical_fields_pure d st :
  report_input_ok d = true ->
  check_critical_fields (VDict d) st
  = Ok (match missing_paths (VDict d) with
        | [] => st
        | _ :: _ =>
            {| warnings :=
                 (warnings st ++ [missing_warning (missing_paths (VDict d))])%list;
               confidence := "medium" |}
        end,
        missing_paths (VDict d)).
Proof.
  intros H. unfold check_critical_fields.
  rewrite (find_missing_critical d H). cbn [bind].
  now destruct (missing_paths (VDict d)).
Qed.

Lemma py_gt_numbers a b x y :
  num_of a = Some x -> num_of b = Some y -> py_gt a b = Ok (num_gtb x y).
Proof.
  destruct a; try discriminate; destruct b; try discriminate;
    simpl; intros Ha Hb; inversion Ha; inversion Hb; reflexivity.
Qed.

Lemma truthy_amount v :
  amount_ok (Some v) = true -> truthy v = true -> exists x, num_of v = Some x.
Proof.
  simpl. intros H Ht. rewrite Ht in H. simpl in H.
  destruct v; try discriminate; simpl; eauto.
Qed.

Lemma check_consistency_pure d st :
  report_input_ok d = true ->
  check_consistency (VDict d) st
  = Ok (if flagged_inconsistent d
        then {| warnings := (warnings st ++ [inconsistency_warning])%list;
                confidence := confidence st |}
        else st).
Proof.
  unfold report_input_ok, check_consistency, flagged_inconsistent, federal_of,
    get_or_none.
  intros H. apply andb_prop in H as [_ H].
  cbn [py_get bind].
  destruct (lookup "federal" d) as [v|]; [|reflexivity].
  destruct v; try discriminate. apply andb_prop in H as [Hw Hs].
  cbn [py_get py_getitem bind].
  destruct (lookup "wages_tips" d0) as [wt|]; [|reflexivity].
  destruct (truthy wt) eqn:Hwt; cbn [andb bind]; [|reflexivity].
  destruct (lookup "social_security_wages" d0) as [ss|]; [|reflexivity].
  destruct (truthy ss) eqn:Hss; cbn [andb bind]; [|reflexivity].
  destruct (truthy_amount wt Hw Hwt) as [y Hy].
  destruct (truthy_amount ss Hs Hss) as [x Hx].
  rewrite (py_gt_numbers ss wt x y Hx Hy), Hx, Hy. cbn [bind].
  now destruct (num_gtb x y).
Qed.

(** The consistency check never touches the tier, whatever the tree. *)
Lemma check_consistency_keeps_confidence data st st' :
  check_consistency data st = Ok st' -> confidence st' = confidence st.
Proof.
  unfold check_consistency.
  destruct (py_get data "federal" (VDict [])) as [federal|]; [|discriminate].
  cbn [bind].
  destruct (py_get federal "wages_tips" VNone) as [wt|]; [|discriminate].
  cbn [bind].
  match goal with
  | |- bind ?c _ = _ -> _ => destruct c as [[|]|]
  end; cbn [bind]; intros H; inversion H; reflexivity.
Qed.

Lemma tier_le_refl c : tier_rank c <> None -> tier_le c c.
Proof.
  unfold tier_le. destruct (tier_rank c); [lia|congruence].
Qed.

(** The text-quality rule never raises the tier it is given. *)
Lemma check_text_quality_monotone text st :
  tier_rank (confidence st) <> None ->
  tier_le (confidence (fst (check_text_quality text st))) (confidence st).
Proof.
  intros Hr. unfold check_text_quality.
  destruct (len (strip text) <? 50); cbn [fst confidence].
  - unfold tier_le. cbn. destruct (tier_rank (confidence st)); [lia|congruence].
  - destruct (len (strip text) <? 200); cbn [fst confidence].
    + destruct (String.eqb (confidence st) "low") eqn:E; cbn [negb].
      * now apply tier_le_refl.
      * unfold tier_le, tier_rank in *. rewrite E in *. cbn.
        destruct (String.eqb (confidence st) "medium"); [lia|].
        destruct (String.eqb (confidence st) "high"); [lia|congruence].
    + now apply tier_le_refl.
Qed.

Lemma check_text_quality_keeps_low text st :
  confidence st = "low" ->
  confidence (fst (check_text_quality text st)) = "low".
Proof.
  intros Hc. unfold check_text_quality.
  destruct (len (strip text) <? 50); [reflexivity|].
  destruct (len (strip text) <? 200); cbn [fst confidence]; [|exact Hc].
  now rewrite Hc.
Qed.

(** C5.  On a tree of the shape the report expects, the three checks run
    in order from the tier ["high"], and no check raises the tier.  The
    first check finds exactly the critical paths that are missing from
    the tree: when there are some the tier becomes ["medium"] and one
    warning names them, when there are none the tier stays ["high"] and
    nothing is warned.  A trimmed text shorter than 50 gives text
    quality ["poor"], the tier ["low"] and a warning; a length in
    [50,200) gives ["fair"] and the tier ["medium"] (a tier that is
    already ["low"] stays ["low"]); a length of 200 or more gives
    ["good"] and keeps the tier; the consistency check keeps the tier
    and every warning.  The report returns the tier, the text quality
    and the warnings of the last check: its tier is ["low"] and its
    warnings hold the warning of the short text whenever the trimmed
    text is shorter than 50, with or without missing fields; it is
    ["medium"] for a length in [50,200); for a length of 200 or more it
    is ["high"] without missing paths and ["medium"] with them. *)
Theorem quality_confidence_only_downgraded (d : dict) (text method : string) :
  report_input_ok d = true ->
  exists st1 st2 text_quality st3 report,
    check_critical_fields (VDict d) {| warnings := []; confidence := "high" |}
    = Ok (st1, missing_paths (VDict d)) /\
    check_text_quality text st1 = (st2, text_quality) /\
    check_consistency (VDict d) st2 = Ok st3 /\
    _generate_quality_report (VDict d) text method = Ok report /\
    at_path ["confidence"] report = Some (VStr (confidence st3)) /\
    at_path ["text_quality"] report = Some (VStr text_quality) /\
    at_path ["warnings"] report = Some (VList (map VStr (warnings st3))) /\
    tier_le (confidence st1) "high" /\
    tier_le (confidence st2) (confidence st1) /\
    confidence st3 = confidence st2 /\
    (exists rest, warnings st3 = (warnings st2 ++ rest)%list) /\
    (missing_paths (VDict d) <> [] ->
     confidence st1 = "medium" /\
     warnings st1 = [missing_warning (missing_paths (VDict d))]) /\
    (missing_paths (VDict d) = [] ->
     confidence st1 = "high" /\ warnings st1 = []) /\
    (len (strip text) < 50 ->
     text_quality = "poor" /\ confidence st2 = "low" /\
     warnings st2 = (warnings st1 ++ [low_text_warning])%list /\
     at_path ["confidence"] report = Some (VStr "low") /\
     In low_text_warning (warnings st3)) /\
    (50 <= len (strip text) < 200 ->
     text_quality = "fair" /\ confidence st2 = "medium" /\
     warnings st2 = warnings st1 /\
     at_path ["confidence"] report = Some (VStr "medium")) /\
    (200 <= len (strip text) ->
     text_quality = "good" /\ confidence st2 = confidence st1 /\
     warnings st2 = warnings st1 /\
     at_path ["confidence"] report
     = Some (VStr (match missing_paths (VDict d) with
                   | [] => "high"
                   | _ :: _ => "medium"
                   end))) /\
    (missing_paths (VDict d) <> [] -> len (strip text) < 50 ->
     confidence st3 = "low") /\
    (forall st, tier_rank (confidence st) <> None ->
                tier_le (confidence (fst (check_text_quality text st)))
                        (confidence st)) /\
    (forall st, confidence st = "low" ->
                confidence (fst (check_text_quality text st)) = "low").
Proof.
  intros H.
  pose proof (check_critical_fields_pure d
                {| warnings := []; confidence := "high" |} H) as H1.
  set (missing := missing_paths (VDict d)) in *.
  set (st1 := match missing with [] => _ | _ :: _ => _ end) in H1.
  assert (Hst1 : (missing = [] /\ confidence st1 = "high" /\ warnings st1 = []) \/
                 (missing <> [] /\ confidence st1 = "medium" /\
                  warnings st1 = [missing_warning missing])).
  { subst st1. destruct missing; [left|right]; repeat split;
      (reflexivity || discriminate). }
  assert (Hcase : confidence st1
                  = match missing with [] => "high" | _ :: _ => "medium" end).
  { subst st1. now destruct missing. }
  destruct (check_text_quality text st1) as [st2 tq] eqn:H2.
  pose proof (check_consistency_pure d st2 H) as H3.
  set (st3 := if flagged_inconsistent d then _ else st2) in H3.
  assert (Hst3 : confidence st3 = confidence st2).
  { subst st3. now destruct (flagged_inconsistent d). }
  assert (Hw3 : exists rest, warnings st3 = (warnings st2 ++ rest)%list).
  { subst st3. destruct (flagged_inconsistent d).
    - now exists [inconsistency_warning].
    - exists []. now rewrite app_nil_r. }
  assert (Hmono : tier_le (confidence st2) (confidence st1)).
  { replace st2 with (fst (check_text_quality text st1)) by now rewrite H2.
    apply check_text_quality_monotone.
    destruct Hst1 as [(_ & -> & _)|(_ & -> & _)]; discriminate. }
  pose proof H2 as H2'. unfold check_text_quality in H2.
  exists st1, st2, tq, st3. eexists.
  split; [exact H1|]. split; [exact H2'|]. split; [exact H3|].
  split.
  { unfold _generate_quality_report. rewrite H1. cbn [bind].
    rewrite H2', H3. cbn [bind]. reflexivity. }
  split; [reflexivity|]. split; [reflexivity|]. split; [reflexivity|].
  split.
  { destruct Hst1 as [(_ & -> & _)|(_ & -> & _)]; unfold tier_le; cbn; lia. }
  split; [exact Hmono|]. split; [exact Hst3|]. split; [exact Hw3|].
  split.
  { intros Hm. destruct Hst1 as [(Hm' & _)|(_ & Hc & Hw)];
      [contradiction|split; assumption]. }
  split.
  { intros Hm. destruct Hst1 as [(_ & Hc & Hw)|(Hm' & _)];
      [split; assumption|contradiction]. }
  split.
  { intros Hlen. apply Z.ltb_lt in Hlen. rewrite Hlen in H2.
    injection H2 as <- <-. cbn [confidence warnings] in Hst3, Hw3.
    destruct Hw3 as [rest Hrest].
    split; [reflexivity|]. split; [reflexivity|]. split; [reflexivity|].
    split.
    - cbn [at_path lookup String.eqb Ascii.eqb Bool.eqb]. now rewrite Hst3.
    - rewrite Hrest.
      apply in_or_app. left. apply in_or_app. right. now left. }
  split.
  { intros [Hlo Hhi]. apply Z.ltb_ge in Hlo. apply Z.ltb_lt in Hhi.
    rewrite Hlo, Hhi in H2. injection H2 as <- <-.
    cbn [confidence warnings] in Hst3 |- *.
    assert (Hc2 : (if negb (String.eqb (confidence st1) "low")
                   then "medium" else confidence st1) = "medium").
    { destruct Hst1 as [(_ & -> & _)|(_ & -> & _)]; reflexivity. }
    split; [reflexivity|]. split; [exact Hc2|]. split; [reflexivity|].
    cbn [at_path lookup String.eqb Ascii.eqb Bool.eqb].
    now rewrite Hst3, Hc2. }
  split.
  { intros Hlen. assert ((len (strip text) <? 50) = false) as Hlo
      by (apply Z.ltb_ge; lia).
    apply Z.ltb_ge in Hlen. rewrite Hlo, Hlen in H2.
    injection H2 as <- <-.
    split; [reflexivity|]. split; [reflexivity|]. split; [reflexivity|].
    cbn [at_path lookup String.eqb Ascii.eqb Bool.eqb].
    now rewrite Hst3, Hcase. }
  split.
  { intros _ Hlen. apply Z.ltb_lt in Hlen. rewrite Hlen in H2.
    injection H2 as <- <-. rewrite Hst3. reflexivity. }
  split.
  - intros st. apply check_text_quality_monotone.
  - intros st. apply check_text_quality_keeps_low.
Qed.

Lemma quality_confidence_only_downgraded_witness :
  (exists report,
      _generate_quality_report (VDict incomplete) short_text "ocr" = Ok report /\
      at_path ["confidence"] report = Some (VStr "low") /\
      at_path ["text_quality"] report = Some (VStr "poor")) /\
  (exists report,
      _generate_quality_report (VDict incomplete) long_text "direct_text"
      = Ok report /\
      at_path ["confidence"] report = Some (VStr "medium") /\
      at_path ["text_quality"] report = Some (VStr "good")).
Proof.
  split.
  - destruct (quality_confidence_only_downgraded incomplete short_text "ocr")
      as (st1 & st2 & tq & st3 & report & _ & _ & _ & Hr & _ & Ht
          & _ & _ & _ & _ & _ & _ & _ & Hpoor & _);
      [reflexivity|].
    exists report. split; [exact Hr|].
    destruct Hpoor as (-> & _ & _ & Hlow & _); [reflexivity|].
    split; [exact Hlow|exact Ht].
  - destruct (quality_confidence_only_downgraded incomplete long_text
                "direct_text")
      as (st1 & st2 & tq & st3 & report & _ & _ & _ & Hr & _ & Ht
          & _ & _ & _ & _ & _ & _ & _ & _ & _ & Hgood & _);
      [reflexivity|].
    exists report. split; [exact Hr|].
    destruct Hgood as (-> & _ & _ & Hc); [vm_compute; discriminate|].
    split; [exact Hc|exact Ht].
Defined.

Lemma generate_quality_report_pure d text method :
  report_input_ok d = true ->
  _generate_quality_report (VDict d) text method
  = Ok (quality_report d text method).
Proof.
  intros H. unfold _generate_quality_report.
  rewrite (check_critical_fields_pure d _ H). cbn [bind].
  unfold check_text_quality, quality_report, report_warnings, later_warnings,
    report_confidence, report_text_quality.
  destruct (missing_paths (VDict d)) as [|p ps] eqn:Hm;
    destruct (len (strip text) <? 50);
    [| destruct (len (strip text) <? 200)
     | | destruct (len (strip text) <? 200)];
    rewrite (check_consistency_pure d _ H); cbn [bind];
    destruct (flagged_inconsistent d); reflexivity.
Qed.

Lemma missing_paths_spec data p :
  In p (missing_paths data)
  <-> In p critical_fields /\ path_missing (split "." p) data = true.
Proof. unfold missing_paths. apply filter_In. Qed.

Lemma later_warnings_incl d text :
  incl (later_warnings d text) [low_text_warning; inconsistency_warning].
Proof.
  unfold later_warnings.
  destruct (len (strip text) <? 50); destruct (flagged_inconsistent d);
    intros x Hx; simpl in *; intuition.
Qed.

Lemma quality_report_warnings d text method :
  at_path ["warnings"] (quality_report d text method)
  = Some (VList (map VStr (report_warnings d text))).
Proof. reflexivity. Qed.

Lemma quality_report_count d text method :
  at_path ["critical_fields_missing"] (quality_report d text method)
  = Some (VInt (Z.of_nat (List.length (missing_paths (VDict d))))).
Proof. reflexivity. Qed.

(** C6.  On a tree of the shape the report expects, the report checks
    the four critical paths by dotted-path lookup through nested
    mappings; a path is missing exactly when a segment is absent or its
    value is [None] or the empty text.  The count of missing paths is
    reported as [critical_fields_missing]; when a path is missing the
    warnings start with the one warning that names all missing paths, no
    other warning is of that kind, and the tier is at most ["medium"];
    when [employee.ssn] and [federal.wages_tips] are the missing ones,
    the count is 2. *)
Theorem quality_report_missing_fields (d : dict) (text method : string) :
  report_input_ok d = true ->
  exists report,
    _generate_quality_report (VDict d) text method = Ok report /\
    map (split ".") critical_fields
    = [["employee"; "name"]; ["employee"; "ssn"];
       ["federal"; "wages_tips"]; ["federal"; "federal_income_tax"]] /\
    (forall p, In p (missing_paths (VDict d))
               <-> In p critical_fields /\
                   path_missing (split "." p) (VDict d) = true) /\
    at_path ["critical_fields_missing"] report
    = Some (VInt (Z.of_nat (List.length (missing_paths (VDict d))))) /\
    (missing_paths (VDict d) <> [] ->
     exists rest confidence,
       at_path ["warnings"] report
       = Some (VList (map VStr (missing_warning (missing_paths (VDict d)) :: rest))) /\
       incl rest [low_text_warning; inconsistency_warning] /\
       at_path ["confidence"] report = Some (VStr confidence) /\
       tier_le confidence "medium") /\
    (missing_paths (VDict d) = [] ->
     exists rest,
       at_path ["warnings"] report = Some (VList (map VStr rest)) /\
       incl rest [low_text_warning; inconsistency_warning]) /\
    (path_missing ["employee"; "name"] (VDict d) = false ->
     path_missing ["employee"; "ssn"] (VDict d) = true ->
     path_missing ["federal"; "wages_tips"] (VDict d) = true ->
     path_missing ["federal"; "federal_income_tax"] (VDict d) = false ->
     missing_paths (VDict d) = ["employee.ssn"; "federal.wages_tips"] /\
     at_path ["critical_fields_missing"] report = Some (VInt 2)).
Proof.
  intros H. exists (quality_report d text method).
  split; [now apply generate_quality_report_pure|].
  split; [reflexivity|].
  split; [intros p; apply missing_paths_spec|].
  split; [reflexivity|].
  split.
  { intros Hm. exists (later_warnings d text), (report_confidence d text).
    split; [|split; [apply later_warnings_incl|split; [reflexivity|]]].
    - rewrite quality_report_warnings. unfold report_warnings.
      destruct (missing_paths (VDict d)); [contradiction|reflexivity].
    - unfold report_confidence, tier_le.
      destruct (len (strip text) <? 50); [cbn; lia|].
      destruct (len (strip text) <? 200); [cbn; lia|].
      destruct (missing_paths (VDict d)); [contradiction|cbn; lia]. }
  split.
  { intros Hm. exists (later_warnings d text).
    split; [|apply later_warnings_incl].
    rewrite quality_report_warnings. unfold report_warnings. now rewrite Hm. }
  intros Hn Hs Hw Ht.
  assert (Hmp : missing_paths (VDict d) = ["employee.ssn"; "federal.wages_tips"]).
  { unfold missing_paths, critical_fields. cbn [filter].
    change (split "." "employee.name") with ["employee"; "name"].
    change (split "." "employee.ssn") with ["employee"; "ssn"].
    change (split "." "federal.wages_tips") with ["federal"; "wages_tips"].
    change (split "." "federal.federal_income_tax")
      with ["federal"; "federal_income_tax"].
    now rewrite Hn, Hs, Hw, Ht. }
  split; [exact Hmp|]. rewrite quality_report_count. now rewrite Hmp.
Qed.

Lemma quality_report_missing_fields_witness :
  exists report,
    _generate_quality_report (VDict incomplete) short_text "ocr" = Ok report /\
    at_path ["critical_fields_missing"] report = Some (VInt 2) /\
    missing_paths (VDict incomplete) = ["employee.ssn"; "federal.wages_tips"].
Proof.
  destruct (quality_report_missing_fields incomplete short_text "ocr")
    as (report & Hr & _ & _ & _ & _ & _ & Htwo); [reflexivity|].
  exists report. split; [exact Hr|].
  destruct Htwo as [Hm Hc]; try reflexivity. split; assumption.
Defined.

(** Scenarios 4 and 5 of the specification in one report. *)
Example generate_quality_report_scenario :
  _generate_quality_report (VDict incomplete) short_text "ocr"
  = Ok (VDict [
      ("confidence", VStr "low");
      ("warnings", VList [
         VStr "Missing critical fields: employee.ssn, federal.wages_tips";
         VStr "Low text extraction - possible OCR issues"
       ]);
      ("text_quality", VStr "poor");
      ("extraction_method", VStr "ocr");
      ("text_length", VInt 10);
      ("critical_fields_missing", VInt 2)
    ]).
Proof. reflexivity. Qed.

(** The code never warns where the claim would not. *)
Lemma flagged_implies_claimed d :
  flagged_inconsistent d = true -> claimed_inconsistent d = true.
Proof.
  unfold flagged_inconsistent, claimed_inconsistent, get_or_none.
  destruct (lookup "wages_tips" (federal_of d)) as [wt|];
    destruct (lookup "social_security_wages" (federal_of d)) as [ss|];
    simpl; intros H; try discriminate.
  - apply andb_prop in H as [_ H]. exact H.
  - now rewrite andb_false_r in H.
Qed.

(** Where the claim warns and the code does not, an amount counts as
    false: it is zero (or another value that is not a number). *)
Lemma claimed_not_flagged d :
  claimed_inconsistent d = true ->
  flagged_inconsistent d = false ->
  truthy (get_or_none "wages_tips" (federal_of d)) = false \/
  truthy (get_or_none "social_security_wages" (federal_of d)) = false.
Proof.
  unfold flagged_inconsistent, claimed_inconsistent, get_or_none.
  destruct (lookup "wages_tips" (federal_of d)) as [wt|];
    destruct (lookup "social_security_wages" (federal_of d)) as [ss|];
    simpl; intros Hc Hf; try discriminate.
  rewrite Hc, andb_true_r in Hf.
  apply andb_false_iff in Hf. exact Hf.
Qed.

(** C7: the code at the failing input.  Both amounts are present and
    50000.0 > 0.0, so the claim asks for the warning; the check tests the
    truth value of each amount, 0.0 counts as false, and no warning is
    appended, although the missing-field check of the same report counts
    the 0.0 as present.  With wages of 40000.0 the warning is there. *)
Lemma consistency_check_skips_zero_wages :
  claimed_inconsistent zero_wages = true /\
  flagged_inconsistent zero_wages = false /\
  missing_paths (VDict zero_wages) = [] /\
  _generate_quality_report (VDict zero_wages) long_text "direct_text"
  = Ok (VDict [
      ("confidence", VStr "high");
      ("warnings", VList []);
      ("text_quality", VStr "good");
      ("extraction_method", VStr "direct_text");
      ("text_length", VInt 200);
      ("critical_fields_missing", VInt 0)
    ]) /\
  _generate_quality_report (VDict low_wages) long_text "direct_text"
  = Ok (VDict [
      ("confidence", VStr "high");
      ("warnings", VList [VStr inconsistency_warning]);
      ("text_quality", VStr "good");
      ("extraction_method", VStr "direct_text");
      ("text_length", VInt 200);
      ("critical_fields_missing", VInt 0)
    ]).
Proof. repeat split. Qed.

(** *** Orchestration *)

Lemma step_raises_pipeline w self path e :
  step_raises w self path e -> pipeline w self path = Raise e.
Proof.
  unfold pipeline, client_of.
  destruct 1 as [H1 | ? ? ? H1 H2 H3 | ? ? ? ? H1 H2 H3 H4
                 | ? ? ? ? ? ? H1 H2 H3 H4 H5 H6
                 | ? ? ? ? ? ? ? H1 H2 H3 H4 H5 H6 H7];
    rewrite H1; cbn [bind]; try reflexivity;
    rewrite H2; cbn [bind]; rewrite H3; cbn [bind]; try reflexivity;
    rewrite H4; cbn [bind]; try reflexivity;
    rewrite H5; cbn [bind]; rewrite H6; cbn [bind]; try reflexivity;
    rewrite H7; reflexivity.
Qed.

Lemma process_w2_handler w self path e :
  test_mode self = false ->
  pipeline w self path = Raise e ->
  process_w2 w self path = Ok (degraded e).
Proof.
  intros Hm Hp. unfold process_w2. now rewrite Hm, Hp.
Qed.

Lemma process_w2_returns w self path :
  exists result, process_w2 w self path = Ok result.
Proof.
  unfold process_w2. destruct (test_mode self); [eauto|].
  destruct (pipeline w self path); simpl; eauto.
Qed.

(** C1.  In non-test mode, whenever a step of the pipeline raises (text
    extraction, structured extraction, normalisation, insight generation,
    quality scoring, or anything else in the body of the [try]),
    [process_w2] raises nothing: it returns the degraded result, whose
    [fields] is the empty mapping, whose [insights] is the one-element
    list that describes the error, and whose [quality] has the tier
    ["low"], a warnings list with the error description and the
    extraction method ["failed"]. *)
Theorem process_w2_degrades (w : World) (self : W2Parser) (path : string) (e : exn) :
  test_mode self = false ->
  step_raises w self path e \/ pipeline w self path = Raise e ->
  (forall e', process_w2 w self path <> Raise e') /\
  exists result,
    process_w2 w self path = Ok result /\
    at_path ["fields"] result = Some (VDict []) /\
    at_path ["insights"] result
    = Some (VList [VStr ("• Processing error: " ++ exn_msg e)]) /\
    at_path ["quality"; "confidence"] result = Some (VStr "low") /\
    at_path ["quality"; "warnings"] result
    = Some (VList [VStr ("Processing failed: " ++ exn_msg e)]) /\
    at_path ["quality"; "extraction_method"] result = Some (VStr "failed").
Proof.
  intros Hm Hraise.
  assert (Hp : pipeline w self path = Raise e).
  { destruct Hraise as [Hs|Hp]; [now apply step_raises_pipeline|exact Hp]. }
  pose proof (process_w2_handler w self path e Hm Hp) as Hd.
  split.
  - intros e' He'. congruence.
  - exists (degraded e). repeat split; assumption || reflexivity.
Qed.

Lemma process_w2_degrades_witness :
  exists result,
    process_w2 office clerk "missing.pdf" = Ok result /\
    at_path ["fields"] result = Some (VDict []) /\
    at_path ["quality"; "extraction_method"] result = Some (VStr "failed").
Proof.
  destruct (process_w2_degrades office clerk "missing.pdf"
              (Exn "FileNotFoundError" "File not found: missing.pdf"))
    as (_ & result & Hr & Hf & _ & _ & _ & Hm).
  - reflexivity.
  - left. apply raises_text_extraction. reflexivity.
  - exists result. repeat split; assumption.
Defined.

Lemma extract_text_missing_file w path :
  os_path_exists w path = false ->
  _extract_text_from_file w path
  = Raise (Exn "FileNotFoundError" ("File not found: " ++ path)).
Proof. intros H. unfold _extract_text_from_file. now rewrite H. Qed.

Lemma extract_text_unsupported w path :
  os_path_exists w path = true ->
  mem (lower (Path_suffix w path)) supported_extensions = false ->
  _extract_text_from_file w path
  = Raise (Exn "ValueError"
               ("Unsupported file format: " ++ lower (Path_suffix w path))).
Proof.
  intros He Hs. unfold _extract_text_from_file. rewrite He. cbn [negb].
  unfold mem, supported_extensions in *. cbn [existsb] in *.
  repeat (apply orb_false_elim in Hs as [?H Hs]).
  repeat match goal with H : _ = false |- _ => rewrite H; clear H end.
  reflexivity.
Qed.

(** C8, as amended.  A file that does not exist and a file of size 0 end
    the command-line entry point with [sys.exit(1)] before the parser is
    built or the pipeline runs, whatever the collaborators would do.
    Inside [process_w2] text extraction raises [FileNotFoundError] for a
    path that does not exist and [ValueError] for an extension that is
    not supported, and in non-test mode [process_w2] turns either into
    the degraded result instead of propagating it. *)
Theorem input_errors_surface (w : World) :
  (forall args, os_path_exists w (file_path args) = false ->
                main w args = SysExit 1) /\
  (forall args, os_path_getsize w (file_path args) = 0 ->
                main w args = SysExit 1) /\
  (forall path, os_path_exists w path = false ->
                _extract_text_from_file w path
                = Raise (Exn "FileNotFoundError" ("File not found: " ++ path))) /\
  (forall path, os_path_exists w path = true ->
                mem (lower (Path_suffix w path)) supported_extensions = false ->
                _extract_text_from_file w path
                = Raise (Exn "ValueError"
                             ("Unsupported file format: "
                              ++ lower (Path_suffix w path)))) /\
  (forall self path e,
      test_mode self = false ->
      _extract_text_from_file w path = Raise e ->
      process_w2 w self path = Ok (degraded e)).
Proof.
  split; [|split; [|split; [|split]]].
  - intros args H. unfold main. now rewrite H.
  - intros args H. unfold main. rewrite H.
    now destruct (os_path_exists w (file_path args)).
  - apply extract_text_missing_file.
  - apply extract_text_unsupported.
  - intros self path e Hm He. apply process_w2_handler; [exact Hm|].
    apply step_raises_pipeline. now apply raises_text_extraction.
Qed.

(** C8 as stated fails: processing a path that does not exist, or a file
    with an unsupported extension, returns the degraded result; the
    command line ends normally on the unsupported extension. *)
Lemma process_w2_swallows_input_errors :
  process_w2 office clerk "missing.pdf"
  = Ok (degraded (Exn "FileNotFoundError" "File not found: missing.pdf")) /\
  process_w2 office clerk "w2.doc"
  = Ok (degraded (Exn "ValueError" "Unsupported file format: .doc")) /\
  main office (command_line "w2.doc")
  = Returned (degraded (Exn "ValueError" "Unsupported file format: .doc")) /\
  main office (command_line "missing.pdf") = SysExit 1 /\
  main office (command_line "empty.txt") = SysExit 1.
Proof. repeat split. Qed.

Lemma check_critical_fields_tier data st st1 missing :
  check_critical_fields data st = Ok (st1, missing) ->
  confidence st1 = confidence st \/ confidence st1 = "medium".
Proof.
  unfold check_critical_fields.
  destruct (find_missing critical_fields data) as [m|]; cbn [bind];
    [|discriminate].
  destruct m; intros H; inversion H; auto.
Qed.

Lemma check_text_quality_tiers text st st2 text_quality :
  check_text_quality text st = (st2, text_quality) ->
  In (confidence st) ["high"; "medium"; "low"] ->
  In (confidence st2) ["high"; "medium"; "low"] /\
  In text_quality ["good"; "fair"; "poor"].
Proof.
  unfold check_text_quality. intros H Hin.
  destruct (len (strip text) <? 50);
    [|destruct (len (strip text) <? 200)];
    inversion H; subst; cbn [confidence]; simpl; auto.
  destruct (String.eqb (confidence st) "low"); simpl; auto.
Qed.

Lemma len_nonneg s : 0 <= len s.
Proof. unfold len. lia. Qed.

(** Whatever the tree, a report that is returned has the six fields. *)
Lemma generate_quality_report_fields data text method q :
  _generate_quality_report data text method = Ok q ->
  six_fields q /\
  at_path ["text_length"] q = Some (VInt (len (strip text))) /\
  at_path ["extraction_method"] q = Some (VStr method).
Proof.
  unfold _generate_quality_report.
  destruct (check_critical_fields data _) as [[st1 missing]|] eqn:H1;
    cbn [bind]; [|discriminate].
  destruct (check_text_quality text st1) as [st2 text_quality] eqn:H2.
  destruct (check_consistency data st2) as [st3|] eqn:H3;
    cbn [bind]; [|discriminate].
  intros H. inversion H. subst q. clear H.
  split; [|split; reflexivity].
  apply check_critical_fields_tier in H1. cbn [confidence] in H1.
  apply check_consistency_keeps_confidence in H3.
  apply check_text_quality_tiers in H2 as [Hc Hq].
  2:{ destruct H1 as [-> | ->]; simpl; auto. }
  exists (confidence st3), (warnings st3), text_quality, method,
    (len (strip text)), (Z.of_nat (List.length missing)).
  rewrite H3. repeat split; auto using len_nonneg. lia.
Qed.

Lemma pipeline_returns w self path result :
  pipeline w self path = Ok result ->
  exists text method normalized insights q,
    _extract_text_from_file w path = Ok (text, method) /\
    _generate_quality_report normalized text method = Ok q /\
    result = VDict [("fields", normalized); ("insights", insights); ("quality", q)].
Proof.
  unfold pipeline.
  destruct (_extract_text_from_file w path) as [[text method]|];
    cbn [bind]; [|discriminate].
  destruct (client_of self "extract_w2_data") as [c|]; cbn [bind]; [|discriminate].
  destruct (extract_w2_data c text) as [data|]; cbn [bind]; [|discriminate].
  destruct (_normalize_data w data) as [normalized|]; cbn [bind]; [|discriminate].
  destruct (_get_employee_address normalized) as [address|];
    cbn [bind]; [|discriminate].
  destruct (client_of self "generate_insights") as [c'|]; cbn [bind]; [|discriminate].
  destruct (generate_insights c' normalized address) as [insights_data|];
    cbn [bind]; [|discriminate].
  destruct (_generate_quality_report normalized text method) as [q|] eqn:Hq;
    cbn [bind]; [|discriminate].
  destruct (py_get insights_data "insights" (VList [])) as [insights|];
    cbn [bind]; [|discriminate].
  intros H. inversion H. eauto 10.
Qed.

Lemma test_mode_report_fields :
  exists q,
    at_path ["quality"] _process_test_mode = Some q /\ six_fields q /\
    at_path ["text_length"] q = Some (VInt 0).
Proof.
  eexists. split; [reflexivity|]. split; [|reflexivity].
  exists "high", ["Test mode - no actual processing performed"], "good",
    "test_mode", 0, 0.
  repeat split; simpl; auto; lia.
Qed.

(** C9, as amended.  A result of [process_w2] is of one of three kinds.
    In test mode and on the success path its quality report has all six
    fields: a tier among high, medium and low, a list of warning texts,
    a text quality among good, fair and poor, the extraction method, a
    non-negative text length and a non-negative count of missing critical
    fields; on the success path the extraction method is the one text
    extraction returned and the text length is the length of the trimmed
    extracted text, in test mode the length is 0.  On the failure path
    the report has the tier ["low"], a warnings list and the extraction
    method ["failed"]. *)
Theorem quality_report_shape (w : World) (self : W2Parser) (path : string) (result : value) :
  process_w2 w self path = Ok result ->
  (test_mode self = true /\
   exists q,
     at_path ["quality"] result = Some q /\ six_fields q /\
     at_path ["text_length"] q = Some (VInt 0)) \/
  (test_mode self = false /\
   exists text method q,
     _extract_text_from_file w path = Ok (text, method) /\
     at_path ["quality"] result = Some q /\ six_fields q /\
     at_path ["text_length"] q = Some (VInt (len (strip text))) /\
     at_path ["extraction_method"] q = Some (VStr method)) \/
  (test_mode self = false /\
   exists e warnings,
     pipeline w self path = Raise e /\
     at_path ["quality"; "confidence"] result = Some (VStr "low") /\
     at_path ["quality"; "warnings"] result = Some (VList (map VStr warnings)) /\
     at_path ["quality"; "extraction_method"] result = Some (VStr "failed")).
Proof.
  unfold process_w2. destruct (test_mode self) eqn:Hm.
  - intros H. inversion H. left. split; [reflexivity|].
    apply test_mode_report_fields.
  - destruct (pipeline w self path) as [r|e] eqn:Hp; cbn [try_except];
      intros H; inversion H; subst result; clear H.
    + right. left. split; [reflexivity|].
      apply pipeline_returns in Hp
        as (text & method & normalized & insights & q & He & Hq & ->).
      exists text, method, q. split; [exact He|]. split; [reflexivity|].
      now apply generate_quality_report_fields in Hq.
    + right. right. split; [reflexivity|].
      exists e, [("Processing failed: " ++ exn_msg e)%string].
      repeat split.
Qed.

Lemma quality_report_shape_witness :
  exists result q,
    process_w2 office clerk "w2.txt" = Ok result /\
    at_path ["quality"] result = Some q /\ six_fields q /\
    at_path ["text_length"] q = Some (VInt 200) /\
    at_path ["extraction_method"] q = Some (VStr "direct_text").
Proof.
  destruct (process_w2 office clerk "w2.txt") as [result|] eqn:Hr;
    [|discriminate].
  destruct (quality_report_shape office clerk "w2.txt" result Hr)
    as [[Hm _] | [(_ & text & method & q & He & Hq & Hsix & Hlen & Hmeth)
                 | (_ & e & ws & Hp & _)]].
  - discriminate.
  - inversion He. subst text method.
    exists result, q. repeat split; assumption.
  - unfold process_w2 in Hr. cbn [test_mode clerk parser] in Hr.
    rewrite Hp in Hr. discriminate Hp.
Defined.

(** C9 as stated fails on the failure path: the degraded quality report
    has no [text_quality], no [text_length] and no
    [critical_fields_missing]. *)
Lemma degraded_report_lacks_fields :
  process_w2 office clerk "missing.pdf"
  = Ok (degraded (Exn "FileNotFoundError" "File not found: missing.pdf")) /\
  map (fun field =>
         at_path ["quality"; field]
           (degraded (Exn "FileNotFoundError" "File not found: missing.pdf")))
      ["text_quality"; "text_length"; "critical_fields_missing"]
  = [None; None; None].
Proof. split; reflexivity. Qed.

(** *** Normalisation as a whole: what is kept *)

Lemma keeps_refl d : keeps d d.
Proof. repeat split; auto. Qed.

Lemma keeps_trans d1 d2 d3 : keeps d1 d2 -> keeps d2 d3 -> keeps d1 d3.
Proof.
  intros (K1 & O1 & E1) (K2 & O2 & E2). repeat split; try congruence.
  intros k v Hk Hv. eauto.
Qed.

Lemma keeps_update sec v' d :
  sec <> "other_boxes" ->
  (forall v, lookup sec d = Some v -> is_empty v = true -> v' = v) ->
  (exists v, lookup sec d = Some v) ->
  keeps d (update sec v' d).
Proof.
  intros Hsec Hempty [v Hv]. repeat split.
  - eapply keys_update; eauto.
  - now apply lookup_update_other.
  - intros k x Hk Hx. destruct (String.eqb_spec k sec) as [->|Hne].
    + rewrite lookup_update_same. f_equal. eauto.
    + rewrite lookup_update_other; auto.
Qed.

Lemma mask_field_keeps w sec key d r :
  sec <> "other_boxes" ->
  mask_field w sec key (VDict d) = Ok r ->
  exists d', r = VDict d' /\ keeps d d'.
Proof.
  intros Hsec. unfold mask_field. cbn [py_contains py_getitem bind].
  destruct (lookup sec d) as [v|] eqn:Hv; cbn [bind].
  2:{ intros H. inversion H. eauto using keeps_refl. }
  step. destruct (truthy a) eqn:Ht.
  2:{ intros H. inversion H. eauto using keeps_refl. }
  step. step. intros H. inversion H. eexists. split; [reflexivity|].
  apply keeps_update; eauto.
  intros v0 Hv0 Hempty. rewrite Hv in Hv0. inversion Hv0. subst v0.
  destruct v as [| | | | |[|]|[|]]; discriminate.
Qed.

Lemma normalize_address_state_keeps sec d r :
  sec <> "other_boxes" ->
  normalize_address_state sec (VDict d) = Ok r ->
  exists d', r = VDict d' /\ keeps d d'.
Proof.
  intros Hsec. unfold normalize_address_state.
  cbn [py_contains py_getitem bind].
  destruct (lookup sec d) as [v|] eqn:Hv; cbn [bind].
  2:{ intros H. inversion H. eauto using keeps_refl. }
  step. destruct a.
  2:{ intros H. inversion H. eauto using keeps_refl. }
  step. step. step. intros H. inversion H. eexists. split; [reflexivity|].
  apply keeps_update; eauto.
  intros v0 Hv0 Hempty. rewrite Hv in Hv0. inversion Hv0. subst v0.
  destruct v as [| | | | |[|]|[|]]; discriminate.
Qed.

Lemma for_state_local_keeps body d r :
  for_state_local body (VDict d) = Ok r ->
  exists d', r = VDict d' /\ keeps d d'.
Proof.
  unfold for_state_local. cbn [py_contains py_getitem bind].
  destruct (lookup "state_local" d) as [v|] eqn:Hv; cbn [bind].
  2:{ intros H. inversion H. eauto using keeps_refl. }
  step. step.
  destruct v; intros H; inversion H; eauto using keeps_refl.
  eexists. split; [reflexivity|].
  apply keeps_update; eauto; [discriminate|].
  intros v0 Hv0 Hempty. rewrite Hv in Hv0. inversion Hv0. subst v0.
  destruct l; try discriminate.
  simpl in E. inversion E. subst a. simpl in E0. now inversion E0.
Qed.

Lemma convert_fields_empty fields v :
  is_empty v = true -> convert_fields fields v = Ok v.
Proof.
  intros Hv. destruct v as [| | | | |[|]|[|]]; try discriminate;
    induction fields as [|f fields IH]; simpl; auto.
Qed.

Lemma convert_numeric_fields_keeps d r :
  _convert_numeric_fields (VDict d) = Ok r ->
  exists d', r = VDict d' /\ keeps d d'.
Proof.
  unfold _convert_numeric_fields. cbn [py_contains py_getitem bind].
  destruct (lookup "federal" d) as [v|] eqn:Hv; cbn [bind].
  2:{ apply for_state_local_keeps. }
  destruct (convert_fields monetary_fields v) as [v'|] eqn:Hc;
    cbn [bind py_setitem]; [|discriminate].
  intros H. apply for_state_local_keeps in H as (d' & -> & Hk).
  exists d'. split; [reflexivity|].
  apply keeps_trans with (2 := Hk).
  apply keeps_update; eauto; [discriminate|].
  intros v0 Hv0 Hempty. rewrite Hv in Hv0. inversion Hv0. subst v0.
  rewrite (convert_fields_empty _ _ Hempty) in Hc. now inversion Hc.
Qed.

Lemma mask_sensitive_data_keeps w d r :
  _mask_sensitive_data w (VDict d) = Ok r ->
  exists d', r = VDict d' /\ keeps d d'.
Proof.
  unfold _mask_sensitive_data.
  destruct (mask_field w "employee" "ssn" (VDict d)) as [r1|] eqn:H1;
    cbn [bind]; [|discriminate].
  apply mask_field_keeps in H1 as (d1 & -> & K1); [|discriminate].
  intros H2. apply mask_field_keeps in H2 as (d2 & -> & K2); [|discriminate].
  eauto using keeps_trans.
Qed.

Lemma normalize_state_codes_keeps d r :
  _normalize_state_codes (VDict d) = Ok r ->
  exists d', r = VDict d' /\ keeps d d'.
Proof.
  unfold _normalize_state_codes.
  destruct (normalize_address_state "employee" (VDict d)) as [r1|] eqn:H1;
    cbn [bind]; [|discriminate].
  apply normalize_address_state_keeps in H1 as (d1 & -> & K1); [|discriminate].
  destruct (normalize_address_state "employer" (VDict d1)) as [r2|] eqn:H2;
    cbn [bind]; [|discriminate].
  apply normalize_address_state_keeps in H2 as (d2 & -> & K2); [|discriminate].
  intros H3. apply for_state_local_keeps in H3 as (d3 & -> & K3).
  eauto using keeps_trans.
Qed.

(** *** Normalisation as a whole: it returns on a well-shaped tree *)

Lemma dict_or_absent_weaken (p q : dict -> bool) k d :
  (forall m, p m = true -> q m = true) ->
  dict_or_absent p k d = true -> dict_or_absent q k d = true.
Proof.
  unfold dict_or_absent. intros Hpq.
  destruct (lookup k d) as [[]|]; auto.
Qed.

Lemma dict_or_absent_alter_same (p : dict -> bool) g k d :
  (forall m, p m = true -> p (g m) = true) ->
  dict_or_absent p k d = true ->
  dict_or_absent p k (alter (on_dict g) k d) = true.
Proof.
  unfold dict_or_absent. intros Hg. rewrite lookup_alter_same.
  destruct (lookup k d) as [[]|]; simpl; auto.
Qed.

Lemma forallb_is_dict_map g l :
  forallb is_dict (map (on_dict g) l) = forallb is_dict l.
Proof.
  induction l as [|[] l IH]; simpl; auto.
Qed.

Lemma records_or_absent_alter_same g d :
  records_or_absent (alter (on_list (map (on_dict g))) "state_local" d)
  = records_or_absent d.
Proof.
  unfold records_or_absent. rewrite lookup_alter_same.
  destruct (lookup "state_local" d) as [[]|]; simpl; auto.
  apply forallb_is_dict_map.
Qed.

Lemma tree_ok_parts d :
  tree_ok d = true <->
  dict_or_absent (dict_or_absent any_dict "address") "employee" d = true /\
  dict_or_absent (dict_or_absent any_dict "address") "employer" d = true /\
  dict_or_absent any_dict "federal" d = true /\
  records_or_absent d = true.
Proof.
  unfold tree_ok. rewrite !andb_true_iff. tauto.
Qed.

Lemma mask_sensitive_data_pure w d :
  dict_or_absent any_dict "employee" d = true ->
  dict_or_absent any_dict "employer" d = true ->
  _mask_sensitive_data w (VDict d) = Ok (VDict (mask_tree w d)).
Proof.
  intros He Hr. unfold _mask_sensitive_data, mask_tree.
  rewrite (mask_field_pure w "employee" "ssn" d He). cbn [bind].
  apply mask_field_pure.
  rewrite dict_or_absent_alter_other; [exact Hr | discriminate].
Qed.

Lemma normalize_state_codes_pure d :
  dict_or_absent (dict_or_absent any_dict "address") "employee" d = true ->
  dict_or_absent (dict_or_absent any_dict "address") "employer" d = true ->
  records_or_absent d = true ->
  _normalize_state_codes (VDict d) = Ok (VDict (states_tree d)).
Proof.
  intros He Hr Hl. unfold _normalize_state_codes, states_tree, normalize_address.
  rewrite (normalize_address_state_pure "employee" d He). cbn [bind].
  rewrite normalize_address_state_pure
    by (rewrite dict_or_absent_alter_other; [exact Hr | discriminate]).
  cbn [bind].
  apply for_state_local_pure; [apply normalize_state_of_pure|].
  rewrite !records_or_absent_alter_other; [exact Hl | discriminate..].
Qed.

Lemma tree_ok_mask_tree w d : tree_ok d = true -> tree_ok (mask_tree w d) = true.
Proof.
  rewrite !tree_ok_parts. intros (He & Hr & Hf & Hl). unfold mask_tree.
  repeat split.
  - rewrite dict_or_absent_alter_other by discriminate.
    apply dict_or_absent_alter_same; [|exact He].
    intros m Hm. now rewrite dict_or_absent_alter_other by discriminate.
  - apply dict_or_absent_alter_same.
    + intros m Hm. now rewrite dict_or_absent_alter_other by discriminate.
    + now rewrite dict_or_absent_alter_other by discriminate.
  - now rewrite !dict_or_absent_alter_other by discriminate.
  - now rewrite !records_or_absent_alter_other by discriminate.
Qed.

Lemma tree_ok_states_tree d : tree_ok d = true -> tree_ok (states_tree d) = true.
Proof.
  rewrite !tree_ok_parts. intros (He & Hr & Hf & Hl).
  unfold states_tree, normalize_address.
  assert (Haddr : forall m,
             dict_or_absent any_dict "address" m = true ->
             dict_or_absent any_dict "address"
               (alter (on_dict (alter normalize_state_value "state")) "address" m)
             = true).
  { intros m Hm. apply dict_or_absent_alter_same; auto. }
  repeat split.
  - rewrite !dict_or_absent_alter_other by discriminate.
    now apply dict_or_absent_alter_same.
  - rewrite dict_or_absent_alter_other by discriminate.
    apply dict_or_absent_alter_same; [exact Haddr|].
    now rewrite dict_or_absent_alter_other by discriminate.
  - now rewrite !dict_or_absent_alter_other by discriminate.
  - rewrite records_or_absent_alter_same.
    now rewrite !records_or_absent_alter_other by discriminate.
Qed.

Lemma tree_ok_with_defaults d : tree_ok d = true -> tree_ok (with_defaults d) = true.
Proof.
  rewrite !tree_ok_parts. unfold dict_or_absent, records_or_absent.
  unfold with_defaults, sections. cbn [map lookup String.eqb Ascii.eqb Bool.eqb].
  intros (He & Hr & Hf & Hl). repeat split.
  - destruct (lookup "employee" d) as [[]|]; auto.
  - destruct (lookup "employer" d) as [[]|]; auto.
  - destruct (lookup "federal" d) as [[]|]; auto.
  - destruct (lookup "state_local" d) as [[]|]; auto.
Qed.

Lemma normalize_data_unfold w d :
  d <> [] ->
  _normalize_data w (VDict d)
  = (normalized <- _mask_sensitive_data w (VDict (with_defaults d)) ;;
     normalized <- _normalize_state_codes normalized ;;
     _convert_numeric_fields normalized).
Proof.
  intros Hd. unfold _normalize_data. destruct d; [contradiction|reflexivity].
Qed.

Lemma normalize_data_pure w d :
  d <> [] -> tree_ok d = true ->
  _normalize_data w (VDict d)
  = Ok (VDict (convert_tree (states_tree (mask_tree w (with_defaults d))))).
Proof.
  intros Hd Hok. rewrite (normalize_data_unfold w d Hd).
  apply tree_ok_with_defaults in Hok.
  pose proof (tree_ok_mask_tree w _ Hok) as Hok1.
  pose proof (tree_ok_states_tree _ Hok1) as Hok2.
  apply tree_ok_parts in Hok as (He & Hr & _ & _).
  apply tree_ok_parts in Hok1 as (He1 & Hr1 & _ & Hl1).
  apply tree_ok_parts in Hok2 as (_ & _ & Hf2 & Hl2).
  rewrite mask_sensitive_data_pure
    by (eapply dict_or_absent_weaken; [|eassumption]; reflexivity).
  cbn [bind].
  rewrite (normalize_state_codes_pure _ He1 Hr1 Hl1). cbn [bind].
  apply (convert_numeric_fields_pure _ Hf2 Hl2).
Qed.

Lemma lookup_with_defaults sec d :
  In sec sections ->
  lookup sec (with_defaults d)
  = Some (match lookup sec d with Some v => v | None => default_of sec end).
Proof.
  unfold sections. simpl.
  intros [<-|[<-|[<-|[<-|[<-|[]]]]]]; reflexivity.
Qed.

Lemma normalize_passes_keep w d r :
  (normalized <- _mask_sensitive_data w (VDict d) ;;
   normalized <- _normalize_state_codes normalized ;;
   _convert_numeric_fields normalized) = Ok r ->
  exists d', r = VDict d' /\ keeps d d'.
Proof.
  destruct (_mask_sensitive_data w (VDict d)) as [r1|] eqn:H1;
    cbn [bind]; [|discriminate].
  apply mask_sensitive_data_keeps in H1 as (d1 & -> & K1).
  destruct (_normalize_state_codes (VDict d1)) as [r2|] eqn:H2;
    cbn [bind]; [|discriminate].
  apply normalize_state_codes_keeps in H2 as (d2 & -> & K2).
  intros H3. apply convert_numeric_fields_keeps in H3 as (d3 & -> & K3).
  eauto using keeps_trans.
Qed.

(** C10, as amended.  For every raw blob that counts as true: whenever
    normalisation returns, the blob is a mapping and the result is a
    tree with exactly the five sections employee, employer, federal,
    state_local and other_boxes, in which every section the blob lacks
    is the empty mapping (the empty list for state_local) and
    other_boxes is the value of the blob, unmodified; and normalisation
    does return on every non-empty blob of the shape of the data model.
    Every blob that counts as false is returned as the empty mapping,
    without sections: the empty mapping, [None], the empty list, the
    empty text, [False] and the numbers 0 and 0.0 among them. *)
Theorem normalize_data_sections (w : World) (data : value) :
  truthy data = true ->
  (forall r,
      _normalize_data w data = Ok r ->
      exists d d',
        data = VDict d /\ r = VDict d' /\
        map fst d' = sections /\
        (forall sec, In sec sections -> lookup sec d = None ->
                     lookup sec d' = Some (default_of sec)) /\
        lookup "other_boxes" d'
        = Some (match lookup "other_boxes" d with
                | Some v => v
                | None => VDict []
                end)) /\
  (forall d, data = VDict d -> tree_ok d = true ->
             exists r, _normalize_data w data = Ok r) /\
  _normalize_data w (VDict []) = Ok (VDict []) /\
  (forall blob, truthy blob = false ->
                _normalize_data w blob = Ok (VDict []) /\
                map (fun sec => at_path [sec] (VDict [])) sections
                = [None; None; None; None; None]) /\
  Forall (fun blob => truthy blob = false)
         [VDict []; VNone; VList []; VStr EmptyString; VBool false; VInt 0;
          dec 0 1].
Proof.
  intros Ht.
  split; [|split; [|split; [reflexivity|split; [|repeat constructor]]]].
  - intros r Hr. destruct data; simpl in Ht;
      try (unfold _normalize_data in Hr; simpl in Hr; rewrite ?Ht in Hr;
           discriminate).
    assert (Hd : d <> []) by (destruct d; congruence).
    rewrite (normalize_data_unfold w d Hd) in Hr.
    apply normalize_passes_keep in Hr as (d' & -> & Hk & Ho & He).
    exists d, d'. repeat split.
    + exact Hk.
    + intros sec Hin Hnone.
      apply He.
      * rewrite (lookup_with_defaults sec d Hin). now rewrite Hnone.
      * unfold default_of. now destruct (String.eqb sec "state_local").
    + rewrite Ho. apply (lookup_with_defaults "other_boxes" d).
      unfold sections. simpl. auto 6.
  - intros d -> Hok. eexists. apply normalize_data_pure; [|exact Hok].
    destruct d; simpl in Ht; congruence.
  - intros blob Hf. split; [|reflexivity].
    unfold _normalize_data. now rewrite Hf.
Qed.

Lemma normalize_data_sections_witness :
  exists r d',
    _normalize_data office (VDict identifiers) = Ok r /\
    r = VDict d' /\ map fst d' = sections /\
    lookup "federal" d' = Some (VDict []) /\
    lookup "state_local" d' = Some (VList []).
Proof.
  destruct (normalize_data_sections office (VDict identifiers))
    as (Hsections & Hreturns & _); [reflexivity|].
  destruct (Hreturns identifiers) as [r Hr]; try reflexivity.
  destruct (Hsections r Hr) as (d & d' & Hd & -> & Hk & Hdef & _).
  inversion Hd. subst d.
  exists (VDict d'), d'. repeat split; try assumption.
  - apply (Hdef "federal"); [simpl; auto|reflexivity].
  - apply (Hdef "state_local"); [simpl; auto|reflexivity].
Defined.

(** C10 as stated fails on the empty mapping: the result is the empty
    mapping, with none of the five sections. *)
Lemma normalize_data_empty_blob :
  _normalize_data office (VDict []) = Ok (VDict []) /\
  map (fun sec => at_path [sec] (VDict [])) sections
  = [None; None; None; None; None].
Proof. split; reflexivity. Qed.

(** A non-empty blob, normalised end to end. *)
Example normalize_data_scenario :
  _normalize_data office
    (VDict [("employee", VDict [("ssn", VStr "123-45-6789");
                                ("address", VDict [("state", VStr "new york")])]);
            ("federal", VDict [("wages_tips", VStr "$75,000.00")]);
            ("other_boxes", VDict [("box_14", VStr "dues 300.00")])])
  = Ok (VDict [
      ("employee", VDict [("ssn", VStr "***-**-6789");
                          ("address", VDict [("state", VStr "NY")])]);
      ("employer", VDict []);
      ("federal", VDict [("wages_tips", VFloat (float_of_Z 75000))]);
      ("state_local", VList []);
      ("other_boxes", VDict [("box_14", VStr "dues 300.00")])
    ]).
Proof. reflexivity. Qed.

(** ** Further properties *)

Import More.

(** *** The client of the generative model *)

Lemma extract_loop_three s prompt :
  Gemini.extract_loop s prompt 3 0
  = match Gemini.extract_attempt s prompt 0 with
    | Ok data => Ok data
    | Raise _ =>
        match Gemini.extract_attempt s prompt 1 with
        | Ok data => Ok data
        | Raise _ =>
            match Gemini.extract_attempt s prompt 2 with
            | Ok data => Ok data
            | Raise e =>
                if Gemini.is_JSONDecodeError e
                then Raise (Exn "Exception"
                                ("Failed to parse JSON response after 3 attempts: "
                                 ++ exn_msg e))
                else Raise e
            end
        end
    end.
Proof.
  cbn [Gemini.extract_loop].
  destruct (Gemini.extract_attempt s prompt 0) as [|e0]; [reflexivity|].
  replace (if Gemini.is_JSONDecodeError e0 then _ else _)
    with (match Gemini.extract_attempt s prompt 1 with
          | Ok data => Ok data
          | Raise e =>
              if Gemini.is_JSONDecodeError e
              then Gemini.extract_loop s prompt 1 2
              else Gemini.extract_loop s prompt 1 2
          end)
    by (destruct (Gemini.is_JSONDecodeError e0); reflexivity).
  destruct (Gemini.extract_attempt s prompt 1) as [|e1]; [reflexivity|].
  replace (if Gemini.is_JSONDecodeError e1 then _ else _)
    with (Gemini.extract_loop s prompt 1 2)
    by (destruct (Gemini.is_JSONDecodeError e1); reflexivity).
  cbn [Gemini.extract_loop].
  destruct (Gemini.extract_attempt s prompt 2) as [|e2]; reflexivity.
Qed.

Lemma extract_w2_data_unfold s text :
  Gemini.extract_w2_data s text
  = try_except
      (bind (extraction_prompt s)
            (fun prompt => Gemini.extract_loop s (full_prompt prompt text) 3 0))
      (fun e => Raise (Exn "Exception" ("Gemini extraction failed: " ++ exn_msg e))).
Proof. reflexivity. Qed.

(** X1.  [extract_w2_data] returns the parsed answer of the first of the
    three attempts that gives one: when the prompt can be read, the
    attempts before attempt [n] (below 3) raise and attempt [n] parses
    to [data], the method returns [data]. *)
Theorem extract_w2_data_first_success
  (s : Gemini.Service) (text prompt : string) (n : nat) (data : value) :
  extraction_prompt s = Ok prompt ->
  (n < 3)%nat ->
  (forall k, (k < n)%nat ->
             exists e, Gemini.extract_attempt s (full_prompt prompt text) k = Raise e) ->
  Gemini.extract_attempt s (full_prompt prompt text) n = Ok data ->
  Gemini.extract_w2_data s text = Ok data.
Proof.
  intros Hp Hn Hbefore Hat.
  rewrite extract_w2_data_unfold, Hp. cbn [bind].
  rewrite extract_loop_three.
  destruct n as [|[|[|n]]]; try lia.
  - now rewrite Hat.
  - destruct (Hbefore 0%nat) as [e0 H0]; [lia|]. now rewrite H0, Hat.
  - destruct (Hbefore 0%nat) as [e0 H0]; [lia|].
    destruct (Hbefore 1%nat) as [e1 H1]; [lia|]. now rewrite H0, H1, Hat.
Qed.

Lemma extract_w2_data_first_success_witness :
  Gemini.extract_w2_data third_time_lucky "Wages 75000"
  = Ok (VDict [("federal", VDict [])]).
Proof.
  apply (extract_w2_data_first_success third_time_lucky "Wages 75000"
           Gemini.extraction_fallback_prompt 2).
  - reflexivity.
  - lia.
  - intros k Hk. destruct k as [|[|k]]; [eexists; reflexivity..|lia].
  - reflexivity.
Defined.

(** X2.  A failure of [extract_w2_data] is always an [Exception] whose
    text starts with ["Gemini extraction failed: "], whatever was raised
    inside; and it fails only when the prompt file cannot be read or all
    three attempts raise. *)
Theorem extract_w2_data_failure (s : Gemini.Service) (text : string) (e : exn) :
  Gemini.extract_w2_data s text = Raise e ->
  exn_class e = "Exception" /\
  (exists cause, exn_msg e = "Gemini extraction failed: " ++ exn_msg cause /\
     (extraction_prompt s = Raise cause \/
      exists prompt,
        extraction_prompt s = Ok prompt /\
        forall k, (k < 3)%nat ->
                  exists e', Gemini.extract_attempt s (full_prompt prompt text) k
                             = Raise e')).
Proof.
  rewrite extract_w2_data_unfold. unfold try_except.
  destruct (extraction_prompt s) as [prompt|cause] eqn:Hp; cbn [bind].
  - rewrite extract_loop_three.
    destruct (Gemini.extract_attempt s (full_prompt prompt text) 0)
      as [|e0] eqn:H0; [discriminate|].
    destruct (Gemini.extract_attempt s (full_prompt prompt text) 1)
      as [|e1] eqn:H1; [discriminate|].
    destruct (Gemini.extract_attempt s (full_prompt prompt text) 2)
      as [|e2] eqn:H2; [discriminate|].
    assert (Hall : forall k, (k < 3)%nat ->
               exists e', Gemini.extract_attempt s (full_prompt prompt text) k
                          = Raise e').
    { intros k Hk. destruct k as [|[|[|k]]]; eauto; lia. }
    destruct (Gemini.is_JSONDecodeError e2); intros H; injection H as <-;
      (split; [reflexivity|]).
    + exists (Exn "Exception"
                ("Failed to parse JSON response after 3 attempts: " ++ exn_msg e2)).
      split; [reflexivity|]. eauto.
    + exists e2. split; [reflexivity|]. eauto.
  - intros H. injection H as <-. split; [reflexivity|].
    exists cause. split; [reflexivity|]. now left.
Qed.

Lemma extract_w2_data_failure_witness :
  exists e,
    Gemini.extract_w2_data never_json "Wages 75000" = Raise e /\
    exn_class e = "Exception" /\
    exn_msg e
    = "Gemini extraction failed: Failed to parse JSON response after 3 attempts: Expecting value: line 1 column 1 (char 0)".
Proof.
  eexists. split; [reflexivity|]. split; [|reflexivity].
  apply (extract_w2_data_failure never_json "Wages 75000"). reflexivity.
Defined.

Lemma insights_loop_three s prompt :
  Gemini.insights_loop s prompt 3 0
  = match Gemini.insights_attempt s prompt 0 with
    | Ok data => Ok data
    | Raise _ =>
        match Gemini.insights_attempt s prompt 1 with
        | Ok data => Ok data
        | Raise _ =>
            match Gemini.insights_attempt s prompt 2 with
            | Ok data => Ok data
            | Raise e =>
                if Gemini.is_JSONDecodeError e
                then Ok (VDict [("insights",
                                 VList [VStr "• Unable to generate insights due to processing error"])])
                else Ok (VDict [("insights",
                                 VList [VStr "• Insight generation failed"])])
            end
        end
    end.
Proof.
  cbn [Gemini.insights_loop].
  destruct (Gemini.insights_attempt s prompt 0) as [|e0]; [reflexivity|].
  replace (if Gemini.is_JSONDecodeError e0 then _ else _)
    with (match Gemini.insights_attempt s prompt 1 with
          | Ok data => Ok data
          | Raise e =>
              if Gemini.is_JSONDecodeError e
              then Gemini.insights_loop s prompt 1 2
              else Gemini.insights_loop s prompt 1 2
          end)
    by (destruct (Gemini.is_JSONDecodeError e0); reflexivity).
  destruct (Gemini.insights_attempt s prompt 1) as [|e1]; [reflexivity|].
  replace (if Gemini.is_JSONDecodeError e1 then _ else _)
    with (Gemini.insights_loop s prompt 1 2)
    by (destruct (Gemini.is_JSONDecodeError e1); reflexivity).
  cbn [Gemini.insights_loop].
  destruct (Gemini.insights_attempt s prompt 2) as [|e2]; reflexivity.
Qed.

Lemma generate_insights_unfold s data address :
  Gemini.generate_insights s data address
  = try_except
      (bind (insights_prompt s data address)
            (fun prompt => Gemini.insights_loop s prompt 3 0))
      (fun e =>
         Ok (VDict [("insights",
                     VList [VStr ("• Error generating insights: " ++ exn_msg e)])])).
Proof.
  unfold Gemini.generate_insights, insights_prompt.
  destruct (Gemini.insights_prompt_file s) as [[|]|]; reflexivity.
Qed.

(** X3.  Neither method asks the model more than three times: the
    results do not depend on what a fourth or later call would answer. *)
Theorem client_calls_at_most_three
  (s : Gemini.Service) (g : nat -> string -> res string) :
  (forall k prompt, (k < 3)%nat -> g k prompt = Gemini.generate_content s k prompt) ->
  (forall text,
      Gemini.extract_w2_data (with_content s g) text = Gemini.extract_w2_data s text) /\
  (forall data address,
      Gemini.generate_insights (with_content s g) data address
      = Gemini.generate_insights s data address).
Proof.
  intros Hg.
  assert (He : forall prompt k, (k < 3)%nat ->
             Gemini.extract_attempt (with_content s g) prompt k
             = Gemini.extract_attempt s prompt k).
  { intros prompt k Hk. unfold Gemini.extract_attempt. cbn. now rewrite Hg. }
  assert (Hi : forall prompt k, (k < 3)%nat ->
             Gemini.insights_attempt (with_content s g) prompt k
             = Gemini.insights_attempt s prompt k).
  { intros prompt k Hk. unfold Gemini.insights_attempt. cbn. now rewrite Hg. }
  split.
  - intros text. rewrite !extract_w2_data_unfold.
    change (extraction_prompt (with_content s g)) with (extraction_prompt s).
    destruct (extraction_prompt s); cbn [bind]; [|reflexivity].
    now rewrite !extract_loop_three, !He by lia.
  - intros data address. rewrite !generate_insights_unfold.
    change (insights_prompt (with_content s g) data address)
      with (insights_prompt s data address).
    destruct (insights_prompt s data address); cbn [bind]; [|reflexivity].
    now rewrite !insights_loop_three, !Hi by lia.
Qed.

Lemma client_calls_at_most_three_witness :
  Gemini.extract_w2_data
    (with_content never_json
       (fun k prompt =>
          if (k <? 3)%nat then Gemini.generate_content never_json k prompt
          else Ok "{}"))
    "Wages 75000"
  = Gemini.extract_w2_data never_json "Wages 75000".
Proof.
  apply (client_calls_at_most_three never_json).
  intros k prompt Hk. apply Nat.ltb_lt in Hk. now rewrite Hk.
Defined.

(** *** Markdown fences *)

Lemma chars_append a b : chars (a ++ b) = (chars a ++ chars b)%list.
Proof.
  unfold chars. induction a as [|c a IH]; simpl; [reflexivity|].
  now rewrite IH.
Qed.

Lemma str_chars t : str (chars t) = t.
Proof. apply string_of_list_ascii_of_string. Qed.

Lemma is_prefix_app p l : is_prefix p (p ++ l)%list = true.
Proof.
  induction p as [|c p IH]; simpl; [reflexivity|].
  now rewrite Ascii.eqb_refl, IH.
Qed.

Lemma is_prefix_shorter p q l :
  is_prefix (p ++ q)%list l = true -> is_prefix p l = true.
Proof.
  revert l. induction p as [|c p IH]; intros l; simpl; [reflexivity|].
  destruct l as [|x l]; [discriminate|].
  intros H. apply andb_prop in H as [Hc H]. rewrite Hc. simpl. eauto.
Qed.

Lemma startswith_append p t : Gemini.startswith p (p ++ t) = true.
Proof. unfold Gemini.startswith. rewrite chars_append. apply is_prefix_app. Qed.

Lemma endswith_append t q : Gemini.endswith q (t ++ q) = true.
Proof.
  unfold Gemini.endswith. rewrite chars_append, rev_app_distr.
  apply is_prefix_app.
Qed.

Lemma drop_append n p t :
  String.length p = n -> Gemini.drop n (p ++ t) = t.
Proof.
  intros <-. unfold Gemini.drop. rewrite chars_append, <- length_chars.
  rewrite skipn_app, skipn_all, Nat.sub_diag. simpl. apply str_chars.
Qed.

Lemma drop_last_append n t q :
  String.length q = n -> Gemini.drop_last n (t ++ q) = t.
Proof.
  intros <-. unfold Gemini.drop_last.
  rewrite chars_append, length_app, <- (length_chars q).
  replace (List.length (chars t) + List.length (chars q) - List.length (chars q))%nat
    with (List.length (chars t) + 0)%nat by lia.
  rewrite firstn_app_2. simpl. rewrite app_nil_r. apply str_chars.
Qed.

Lemma json_not_before_fence body :
  Gemini.startswith "json" (body ++ Gemini.fence) = true ->
  Gemini.startswith "json" body = true.
Proof.
  unfold Gemini.startswith. rewrite chars_append.
  destruct (chars body) as [|c1 [|c2 [|c3 [|c4 l]]]]; simpl;
    repeat match goal with
           | |- context [Ascii.eqb ?a ?b] =>
               destruct (Ascii.eqb a b); simpl; try discriminate
           end; auto.
Qed.

(** X4.  For a text [body] that does not itself start with a fence, the
    cleaning of a response turns both the response fenced as JSON and
    the response with plain fences (whose body does not start with
    ["json"]) into [body], and leaves [body] unchanged when it does not
    end with a fence either. *)
Theorem strip_fences_unwraps (body : string) :
  Gemini.startswith Gemini.fence body = false ->
  Gemini.strip_fences ("```json" ++ body ++ "```") = body /\
  (Gemini.startswith "json" body = false ->
   Gemini.strip_fences ("```" ++ body ++ "```") = body) /\
  (Gemini.endswith Gemini.fence body = false ->
   Gemini.strip_fences body = body).
Proof.
  intros Hb. unfold Gemini.strip_fences. unfold Gemini.fence in *.
  split; [|split].
  - change ("```" ++ "json") with "```json".
    rewrite (startswith_append "```json" (body ++ "```")).
    rewrite (drop_append 7 "```json" (body ++ "```") eq_refl).
    rewrite (endswith_append body "```").
    rewrite (drop_last_append 3 body "```" eq_refl).
    now rewrite Hb.
  - intros Hj.
    assert (Hno : Gemini.startswith ("```" ++ "json")
                    ("```" ++ body ++ "```") = false).
    { destruct (Gemini.startswith ("```" ++ "json")
                  ("```" ++ body ++ "```")) eqn:E; [|reflexivity].
      assert (Gemini.startswith "json" (body ++ Gemini.fence) = true) as Hs
        by exact E.
      apply json_not_before_fence in Hs. congruence. }
    rewrite Hno.
    change ("```" ++ body ++ "```") with (("```" ++ body) ++ "```").
    rewrite (endswith_append ("```" ++ body) "```").
    rewrite (drop_last_append 3 ("```" ++ body) "```" eq_refl).
    rewrite (startswith_append "```" body).
    apply (drop_append 3 "```" body eq_refl).
  - intros He.
    assert (Hno : Gemini.startswith ("```" ++ "json") body = false).
    { destruct (Gemini.startswith ("```" ++ "json") body) eqn:E;
        [|reflexivity].
      unfold Gemini.startswith in E, Hb.
      rewrite chars_append in E.
      apply is_prefix_shorter in E. congruence. }
    now rewrite Hno, He, Hb.
Qed.

Lemma strip_fences_unwraps_witness :
  Gemini.strip_fences ("```json" ++ "{}" ++ "```") = "{}".
Proof.
  destruct (strip_fences_unwraps "{}" eq_refl) as [H _]. exact H.
Defined.

(** *** Insights *)

Lemma insights_attempt_shape s prompt k data :
  Gemini.insights_attempt s prompt k = Ok data -> has_insights_list data.
Proof.
  unfold Gemini.insights_attempt.
  destruct (Gemini.generate_content s k prompt) as [text|]; cbn [bind];
    [|discriminate].
  destruct (Gemini.json_loads s _) as [v|]; cbn [bind]; [|discriminate].
  destruct v; cbn [py_get bind]; try discriminate.
  destruct (lookup "insights" d) as [i|] eqn:E.
  - destruct i; cbn [Gemini.is_list]; intros H; injection H as <-;
      try (exists [("insights", VList [])], []; split; reflexivity).
    exists d, l. split; [reflexivity|exact E].
  - cbn [Gemini.is_list]. intros H. injection H as <-.
    exists [("insights", VList [])], []. split; reflexivity.
Qed.

Lemma has_insights_list_single text :
  has_insights_list (VDict [("insights", VList [VStr text])]).
Proof. eexists. eexists. split; reflexivity. Qed.

Lemma generate_insights_always_list_aux s data address result :
  Gemini.generate_insights s data address = Ok result -> has_insights_list result.
Proof.
  rewrite generate_insights_unfold.
  destruct (insights_prompt s data address) as [prompt|e]; cbn [bind try_except].
  2:{ intros H. injection H as <-. apply has_insights_list_single. }
  rewrite insights_loop_three.
  destruct (Gemini.insights_attempt s prompt 0) as [d0|e0] eqn:H0.
  { intros H. injection H as <-. eauto using insights_attempt_shape. }
  destruct (Gemini.insights_attempt s prompt 1) as [d1|e1] eqn:H1.
  { intros H. injection H as <-. eauto using insights_attempt_shape. }
  destruct (Gemini.insights_attempt s prompt 2) as [d2|e2] eqn:H2.
  { intros H. injection H as <-. eauto using insights_attempt_shape. }
  destruct (Gemini.is_JSONDecodeError e2); intros H; injection H as <-;
    apply has_insights_list_single.
Qed.

(** X5.  [generate_insights] never raises: whatever the model, the JSON
    parser, the prompt file and the formatting do, it returns a mapping
    whose ['insights'] is a list; when the prompt cannot be prepared the
    list is the one text that describes the error. *)
Theorem generate_insights_always_list
  (s : Gemini.Service) (data : value) (address : string) :
  (exists result,
      Gemini.generate_insights s data address = Ok result /\
      has_insights_list result) /\
  (forall e,
      insights_prompt s data address = Raise e ->
      Gemini.generate_insights s data address
      = Ok (VDict [("insights",
                    VList [VStr ("• Error generating insights: " ++ exn_msg e)])])).
Proof.
  rewrite generate_insights_unfold. split.
  - destruct (insights_prompt s data address) as [prompt|e]; cbn [bind try_except].
    2:{ eexists. split; [reflexivity|apply has_insights_list_single]. }
    rewrite insights_loop_three.
    destruct (Gemini.insights_attempt s prompt 0) as [d0|e0] eqn:H0.
    { exists d0. split; [reflexivity|eauto using insights_attempt_shape]. }
    destruct (Gemini.insights_attempt s prompt 1) as [d1|e1] eqn:H1.
    { exists d1. split; [reflexivity|eauto using insights_attempt_shape]. }
    destruct (Gemini.insights_attempt s prompt 2) as [d2|e2] eqn:H2.
    { exists d2. split; [reflexivity|eauto using insights_attempt_shape]. }
    destruct (Gemini.is_JSONDecodeError e2); eexists;
      (split; [reflexivity|apply has_insights_list_single]).
  - intros e He. now rewrite He.
Qed.

(** X6.  A response that parses to a mapping ends [generate_insights] at
    once, usable or not: the mapping is returned as it is when its
    ['insights'] is a list, and replaced by the mapping with the empty
    list otherwise; there is no second attempt. *)
Theorem generate_insights_first_mapping
  (s : Gemini.Service) (data : value) (address prompt text : string) (m : dict) :
  insights_prompt s data address = Ok prompt ->
  Gemini.generate_content s 0 prompt = Ok text ->
  Gemini.json_loads s (Gemini.strip_fences (strip text)) = Ok (VDict m) ->
  Gemini.generate_insights s data address
  = Ok (match lookup "insights" m with
        | Some (VList _) => VDict m
        | _ => VDict [("insights", VList [])]
        end).
Proof.
  intros Hp Hg Hj. rewrite generate_insights_unfold, Hp. cbn [bind].
  rewrite insights_loop_three. unfold Gemini.insights_attempt at 1.
  rewrite Hg. cbn [bind]. rewrite Hj. cbn [bind py_get].
  destruct (lookup "insights" m) as [[]|]; reflexivity.
Qed.

Lemma generate_insights_first_mapping_witness :
  Gemini.generate_insights
    (service [Ok "{}"] [("{}", VDict [("notes", VList [VStr "none"])])])
    (VDict []) ""
  = Ok (VDict [("insights", VList [])]).
Proof.
  apply (generate_insights_first_mapping
           (service [Ok "{}"] [("{}", VDict [("notes", VList [VStr "none"])])])
           (VDict []) ""
           (Gemini.insights_fallback_template ++ "{}" ++ "") "{}"
           [("notes", VList [VStr "none"])]); reflexivity.
Defined.

(** X7.  When the prompt is ready and all three attempts raise,
    [generate_insights] returns one fixed apology: the text about a
    processing error when the third failure is a JSON decoding error,
    and the text that insight generation failed otherwise. *)
Theorem generate_insights_gives_up
  (s : Gemini.Service) (data : value) (address prompt : string) (e : exn) :
  insights_prompt s data address = Ok prompt ->
  (forall k, (k < 2)%nat ->
             exists e', Gemini.insights_attempt s prompt k = Raise e') ->
  Gemini.insights_attempt s prompt 2 = Raise e ->
  Gemini.generate_insights s data address
  = Ok (VDict [("insights",
                VList [VStr (if Gemini.is_JSONDecodeError e
                             then "• Unable to generate insights due to processing error"
                             else "• Insight generation failed")])]).
Proof.
  intros Hp Hk H2. rewrite generate_insights_unfold, Hp. cbn [bind].
  rewrite insights_loop_three.
  destruct (Hk 0%nat) as [e0 H0]; [lia|].
  destruct (Hk 1%nat) as [e1 H1]; [lia|].
  rewrite H0, H1, H2. now destruct (Gemini.is_JSONDecodeError e).
Qed.

Lemma generate_insights_gives_up_witness :
  Gemini.generate_insights never_json (VDict []) ""
  = Ok (VDict [("insights",
                VList [VStr "• Unable to generate insights due to processing error"])]).
Proof.
  apply (generate_insights_gives_up never_json (VDict []) ""
           (Gemini.insights_fallback_template ++ "{}" ++ "")
           (Exn "JSONDecodeError" "Expecting value: line 1 column 1 (char 0)")).
  - reflexivity.
  - intros k Hk. destruct k as [|[|k]]; [eexists; reflexivity..|lia].
  - reflexivity.
Defined.

(** *** The parser with the client of the repository *)

Lemma pipeline_steps w self path result :
  pipeline w self path = Ok result ->
  exists text method c data normalized address insights_data q insights,
    _extract_text_from_file w path = Ok (text, method) /\
    gemini_client self = Some c /\
    extract_w2_data c text = Ok data /\
    _normalize_data w data = Ok normalized /\
    _get_employee_address normalized = Ok address /\
    generate_insights c normalized address = Ok insights_data /\
    _generate_quality_report normalized text method = Ok q /\
    py_get insights_data "insights" (VList []) = Ok insights /\
    result = VDict [("fields", normalized); ("insights", insights); ("quality", q)].
Proof.
  unfold pipeline, client_of.
  destruct (_extract_text_from_file w path) as [[text method]|];
    cbn [bind]; [|discriminate].
  destruct (gemini_client self) as [c|]; cbn [bind]; [|discriminate].
  destruct (extract_w2_data c text) as [data|] eqn:H1; cbn [bind]; [|discriminate].
  destruct (_normalize_data w data) as [normalized|] eqn:H2;
    cbn [bind]; [|discriminate].
  destruct (_get_employee_address normalized) as [address|] eqn:H3;
    cbn [bind]; [|discriminate].
  destruct (generate_insights c normalized address) as [insights_data|] eqn:H4;
    cbn [bind]; [|discriminate].
  destruct (_generate_quality_report normalized text method) as [q|] eqn:H5;
    cbn [bind]; [|discriminate].
  destruct (py_get insights_data "insights" (VList [])) as [insights|] eqn:H6;
    cbn [bind]; [|discriminate].
  intros H. injection H as <-.
  exists text, method, c, data, normalized, address, insights_data, q, insights.
  repeat split; assumption.
Qed.

Lemma normalize_data_returns_mapping w data r :
  _normalize_data w data = Ok r -> exists d, r = VDict d.
Proof.
  destruct (truthy data) eqn:Ht.
  - destruct data; simpl in Ht;
      try (unfold _normalize_data; simpl; rewrite ?Ht; discriminate).
    assert (Hd : d <> []) by (destruct d; congruence).
    rewrite (normalize_data_unfold w d Hd).
    intros H. apply normalize_passes_keep in H as (d' & -> & _). eauto.
  - unfold _normalize_data. rewrite Ht. simpl.
    intros H. injection H as <-. eauto.
Qed.

Lemma process_w2_summary_ready w s self path result :
  (forall c, gemini_client self = Some c -> c = Gemini.client s) ->
  process_w2 w self path = Ok result ->
  summary_ready result.
Proof.
  intros Hc. unfold process_w2. destruct (test_mode self).
  { intros H. injection H as <-. repeat eexists. }
  destruct (pipeline w self path) as [r|e] eqn:Hp; cbn [try_except];
    intros H; injection H as <-.
  2:{ repeat eexists. }
  apply pipeline_steps in Hp
    as (text & method & c & data & normalized & address & insights_data & q
        & insights & _ & Hself & _ & Hn & _ & Hi & Hq & Hget & ->).
  rewrite (Hc c Hself) in Hi. cbn in Hi.
  apply generate_insights_always_list_aux in Hi as (m & l & -> & Hl).
  cbn in Hget. rewrite Hl in Hget. injection Hget as <-.
  apply normalize_data_returns_mapping in Hn as [d ->].
  apply generate_quality_report_fields in Hq
    as ((c' & ws & tq & m' & n & k & -> & _) & _).
  repeat eexists.
Qed.

(** X8.  With the client of the repository, the ['insights'] of every
    result of [process_w2] is a list, [fields] is a mapping and the
    quality report has a tier and a list of warnings: in test mode, on
    the success path and on the failure path. *)
Theorem process_w2_insights_list
  (w : World) (s : Gemini.Service) (self : W2Parser) (path : string) :
  (forall c, gemini_client self = Some c -> c = Gemini.client s) ->
  exists result insights,
    process_w2 w self path = Ok result /\
    at_path ["insights"] result = Some (VList insights) /\
    summary_ready result.
Proof.
  intros Hc. destruct (process_w2_returns w self path) as [result Hr].
  pose proof (process_w2_summary_ready w s self path result Hc Hr) as Hs.
  destruct Hs as (fields & insights & q & c & ws & -> & Hq1 & Hq2).
  exists (VDict [("fields", VDict fields); ("insights", VList insights);
                 ("quality", q)]), insights.
  split; [exact Hr|]. split; [reflexivity|]. repeat eexists; eassumption.
Qed.

Lemma process_w2_insights_list_witness :
  exists result insights,
    process_w2 office (analyst never_json) "w2.txt" = Ok result /\
    at_path ["insights"] result = Some (VList insights).
Proof.
  destruct (process_w2_insights_list office never_json (analyst never_json) "w2.txt")
    as (result & insights & Hr & Hi & _).
  - intros c H. injection H as <-. reflexivity.
  - exists result, insights. split; assumption.
Defined.

Lemma run_summary w args self result :
  init w (api_key args) (arg_test_mode args) = Ok self ->
  process_w2 w self (file_path args) = Ok result ->
  (forall path, output args = Some path -> write_json w path result = Ok tt) ->
  summary_ready result ->
  run w args = Ok result.
Proof.
  intros Hinit Hr Hw (fields & insights & q & c & ws & -> & Hc & Hws).
  unfold run. rewrite Hinit. cbn [bind]. rewrite Hr. cbn [bind].
  assert (Hout : match output args with
                 | Some path => write_json w path
                     (VDict [("fields", VDict fields); ("insights", VList insights);
                             ("quality", q)])
                 | None => Ok tt
                 end = Ok tt).
  { destruct (output args); auto. }
  rewrite Hout. cbn [bind].
  destruct q; try discriminate. cbn in Hc, Hws |- *.
  destruct (lookup "confidence" d); [|discriminate].
  destruct (lookup "warnings" d) as [found|]; [|discriminate].
  injection Hws as ->. cbn. now destruct ws.
Qed.

(** X9.  With the client of the repository the command line cannot fail
    after the parser is built: for a file that exists and is not empty,
    once the parser is constructed and provided the result can be
    written to the output file, [main] returns normally with the result
    of [process_w2]; every field the summary reads is there. *)
Theorem main_returns_result
  (w : World) (s : Gemini.Service) (args : Args) (self : W2Parser) :
  os_path_exists w (file_path args) = true ->
  os_path_getsize w (file_path args) <> 0 ->
  init w (api_key args) (arg_test_mode args) = Ok self ->
  (forall c, gemini_client self = Some c -> c = Gemini.client s) ->
  (forall path result, output args = Some path -> write_json w path result = Ok tt) ->
  exists result,
    process_w2 w self (file_path args) = Ok result /\
    main w args = Returned result.
Proof.
  intros He Hs Hinit Hc Hw.
  destruct (process_w2_returns w self (file_path args)) as [result Hr].
  exists result. split; [exact Hr|].
  unfold main. rewrite He. cbn [negb].
  apply Z.eqb_neq in Hs. rewrite Hs.
  rewrite (run_summary w args self result Hinit Hr); eauto.
  eapply process_w2_summary_ready; eauto.
Qed.

Lemma main_returns_result_witness :
  exists result,
    main (scanner true (Ok [])) (command_line "w2.pdf") = Returned result.
Proof.
  destruct (main_returns_result (scanner true (Ok [])) third_time_lucky
              (command_line "w2.pdf") (analyst third_time_lucky))
    as (result & _ & Hm); try reflexivity.
  - discriminate.
  - intros c H. injection H as <-. reflexivity.
  - exists result. exact Hm.
Defined.

(** *** Employee address *)

Lemma get_employee_address_components d m a :
  lookup "employee" d = Some (VDict m) ->
  lookup "address" m = Some (VDict a) ->
  _get_employee_address (VDict d) = py_join ", " (address_components a).
Proof.
  intros Hm Ha. unfold _get_employee_address.
  cbn [py_contains py_getitem bind]. rewrite Hm. cbn [bind py_contains py_getitem].
  rewrite Ha. cbn [bind py_get py_getitem].
  unfold address_components, address_keys, get_or_none. cbn [map filter].
  destruct (lookup "street" a) as [v1|]; cbn [bind truthy];
    [destruct (truthy v1); cbn [bind app]|];
    (destruct (lookup "city" a) as [v2|]; cbn [bind truthy];
     [destruct (truthy v2); cbn [bind app]|]);
    (destruct (lookup "state" a) as [v3|]; cbn [bind truthy];
     [destruct (truthy v3); cbn [bind app]|]);
    (destruct (lookup "zip" a) as [v4|]; cbn [bind truthy];
     [destruct (truthy v4); cbn [bind app]|]);
    reflexivity.
Qed.

Lemma strings_of_texts i vs :
  forallb (fun v => is_str v || negb (truthy v)) vs = true ->
  strings_of i (filter truthy vs)
  = Ok (filter (fun t => negb (String.eqb t "")) (map text_of vs)).
Proof.
  revert i. induction vs as [|v vs IH]; intros i; cbn [forallb filter map];
    [reflexivity|].
  intros H. apply andb_prop in H as [Hv Hvs].
  destruct (truthy v) eqn:Ht.
  - destruct v; try discriminate. cbn [strings_of text_of].
    rewrite (IH (S i) Hvs). cbn [bind]. simpl in Ht. now rewrite Ht.
  - rewrite (IH i Hvs). destruct v; simpl in *; try discriminate; try reflexivity.
    apply negb_false_iff in Ht. now rewrite Ht.
Qed.

Lemma strings_of_raises i vs :
  existsb (fun v => negb (is_str v)) vs = true ->
  exists e, strings_of i vs = Raise e /\ exn_class e = "TypeError".
Proof.
  revert i. induction vs as [|v vs IH]; intros i; cbn [existsb]; [discriminate|].
  intros H. destruct v; cbn [strings_of]; try (eexists; split; reflexivity).
  cbn in H. destruct (IH (S i) H) as (e & -> & He). cbn [bind]. eauto.
Qed.

(** X10.  For an employee address whose four components are texts,
    [None] or missing, the display address is the texts that are not
    empty, in the order street, city, state, zip, joined by [", "]; no
    separator is written for a component that is left out. *)
Theorem get_employee_address_joins (d m a : dict) :
  lookup "employee" d = Some (VDict m) ->
  lookup "address" m = Some (VDict a) ->
  forallb (fun k => text_or_absent k a) address_keys = true ->
  _get_employee_address (VDict d)
  = Ok (join ", "
          (filter (fun t => negb (String.eqb t ""))
                  (map (fun k => text_of (get_or_none k a)) address_keys))).
Proof.
  intros Hm Ha Ht. rewrite (get_employee_address_components d m a Hm Ha).
  unfold py_join, address_components. rewrite strings_of_texts.
  - cbn [bind]. now rewrite map_map.
  - rewrite forallb_forall in *. intros v Hv.
    apply in_map_iff in Hv as (k & <- & Hk). specialize (Ht k Hk).
    unfold text_or_absent, get_or_none in *.
    destruct (lookup k a) as [[]|]; simpl; auto; discriminate.
Qed.

Lemma get_employee_address_joins_witness :
  _get_employee_address (VDict text_zip) = Ok "123 Main Street, NY, 10001".
Proof.
  apply (get_employee_address_joins text_zip
           [("name", VStr "John A. Doe");
            ("address", VDict [("street", VStr "123 Main Street");
                               ("city", VStr ""); ("state", VStr "NY");
                               ("zip", VStr "10001")])]
           [("street", VStr "123 Main Street"); ("city", VStr "");
            ("state", VStr "NY"); ("zip", VStr "10001")]);
    reflexivity.
Defined.

(** X11.  A component of the employee address that counts as true and is
    not a text (a zip code given as a number, say) makes
    [_get_employee_address] raise a [TypeError]; in non-test mode the
    document then ends in the degraded result, although text extraction,
    structured extraction and normalisation returned. *)
Theorem get_employee_address_rejects_non_text
  (d m a : dict) (k : string) (v : value) :
  lookup "employee" d = Some (VDict m) ->
  lookup "address" m = Some (VDict a) ->
  In k address_keys ->
  lookup k a = Some v ->
  truthy v = true ->
  is_str v = false ->
  exists e,
    _get_employee_address (VDict d) = Raise e /\
    exn_class e = "TypeError" /\
    forall w self path text method c data,
      test_mode self = false ->
      _extract_text_from_file w path = Ok (text, method) ->
      gemini_client self = Some c ->
      extract_w2_data c text = Ok data ->
      _normalize_data w data = Ok (VDict d) ->
      process_w2 w self path = Ok (degraded e).
Proof.
  intros Hm Ha Hk Hv Ht Hs.
  rewrite (get_employee_address_components d m a Hm Ha).
  destruct (strings_of_raises 0 (address_components a)) as (e & He & Hc).
  { apply existsb_exists. exists v. split; [|now rewrite Hs].
    unfold address_components. apply filter_In. split; [|exact Ht].
    apply in_map_iff. exists k. split; [|exact Hk].
    unfold get_or_none. now rewrite Hv. }
  exists e. unfold py_join. rewrite He. cbn [bind].
  split; [reflexivity|]. split; [exact Hc|].
  intros w self path text method c data Hmode H1 H2 H3 H4.
  apply process_w2_handler; [exact Hmode|].
  unfold pipeline, client_of. rewrite H1. cbn [bind]. rewrite H2. cbn [bind].
  rewrite H3. cbn [bind]. rewrite H4. cbn [bind].
  rewrite (get_employee_address_components d m a Hm Ha).
  unfold py_join. rewrite He. reflexivity.
Qed.

Lemma get_employee_address_rejects_non_text_witness :
  exists e,
    _get_employee_address (VDict numeric_zip) = Raise e /\
    exn_class e = "TypeError".
Proof.
  destruct (get_employee_address_rejects_non_text numeric_zip
              [("name", VStr "John A. Doe");
               ("address", VDict [("street", VStr "123 Main Street");
                                  ("city", VStr ""); ("state", VStr "NY");
                                  ("zip", VInt 10001)])]
              [("street", VStr "123 Main Street"); ("city", VStr "");
               ("state", VStr "NY"); ("zip", VInt 10001)]
              "zip" (VInt 10001))
    as (e & He & Hc & _); try reflexivity.
  - simpl. auto.
  - exists e. split; assumption.
Defined.

(** *** Text extraction *)

(** X12.  [_extract_text_from_pdf] never raises.  Its label is ["failed"]
    exactly when the OCR libraries are missing; it is
    ["direct_extraction"] only for a text of at least 100 characters
    after trimming; for a shorter text and for a PDF that cannot be read
    the text is the fixed placeholder of [_ocr_pdf], labelled ["ocr"] or
    ["ocr_fallback"]. *)
Theorem extract_text_from_pdf_returns (w : World) (path : string) :
  exists text method,
    _extract_text_from_pdf w path = Ok (text, method) /\
    In method ["failed"; "ocr"; "direct_extraction"; "ocr_fallback"] /\
    (method = "failed" <-> OCR_AVAILABLE w = false) /\
    (method = "direct_extraction" -> 100 <= len (strip text)) /\
    (method = "ocr" \/ method = "ocr_fallback" -> text = _ocr_pdf path) /\
    (forall e, OCR_AVAILABLE w = true -> pdf_page_texts w path = Raise e ->
               method = "ocr_fallback").
Proof.
  unfold _extract_text_from_pdf.
  destruct (OCR_AVAILABLE w); cbn [negb].
  2:{ eexists. eexists. split; [reflexivity|].
      repeat split; simpl; auto; try discriminate.
      intros [H|H]; discriminate. }
  destruct (pdf_page_texts w path) as [pages|e]; cbn [bind try_except].
  - match goal with
    | |- context [len (strip ?t) <? 100] =>
        destruct (Z.ltb_spec (len (strip t)) 100)
    end; cbn [try_except]; eexists; eexists; (split; [reflexivity|]);
      repeat split; simpl; auto; try discriminate; try lia.
    + intros [H0|H0]; discriminate.
  - eexists. eexists. split; [reflexivity|].
    repeat split; simpl; auto; discriminate.
Qed.

(** X13.  With the OCR libraries present, an image whose OCR raises
    makes [_extract_text_from_image] raise an [Exception] whose text is
    ["OCR failed: "] and the text of the cause, and [process_w2] reports
    it in the degraded result; an image is never given a placeholder
    text. *)
Theorem extract_text_from_image_failure
  (w : World) (self : W2Parser) (path : string) (e : exn) :
  OCR_AVAILABLE w = true ->
  image_to_string w path = Raise e ->
  os_path_exists w path = true ->
  mem (lower (Path_suffix w path)) image_extensions = true ->
  test_mode self = false ->
  _extract_text_from_image w path
  = Raise (Exn "Exception" ("OCR failed: " ++ exn_msg e)) /\
  process_w2 w self path
  = Ok (degraded (Exn "Exception" ("OCR failed: " ++ exn_msg e))).
Proof.
  intros Hocr Himg Hex Hext Hmode.
  assert (Hi : _extract_text_from_image w path
               = Raise (Exn "Exception" ("OCR failed: " ++ exn_msg e))).
  { unfold _extract_text_from_image. now rewrite Hocr, Himg. }
  split; [exact Hi|].
  apply process_w2_handler; [exact Hmode|].
  apply step_raises_pipeline, raises_text_extraction.
  unfold _extract_text_from_file. rewrite Hex. cbn [negb].
  unfold image_extensions in Hext.
  destruct (mem (lower (Path_suffix w path)) [".pdf"]) eqn:Hpdf.
  - exfalso. unfold mem in *. cbn [existsb] in *.
    rewrite orb_false_r in Hpdf. apply String.eqb_eq in Hpdf.
    rewrite Hpdf in Hext. discriminate.
  - now rewrite Hext.
Qed.

Lemma extract_text_from_image_failure_witness :
  process_w2 (scanner true (Ok [])) (analyst third_time_lucky) "scan.png"
  = Ok (degraded (Exn "Exception" "OCR failed: tesseract is not installed")).
Proof.
  apply (extract_text_from_image_failure (scanner true (Ok []))
           (analyst third_time_lucky) "scan.png"
           (Exn "TesseractNotFoundError" "tesseract is not installed"));
    reflexivity.
Defined.

Lemma report_by_text_length data text method q :
  _generate_quality_report data text method = Ok q ->
  at_path ["extraction_method"] q = Some (VStr method) /\
  at_path ["text_length"] q = Some (VInt (len (strip text))) /\
  (len (strip text) < 50 ->
   at_path ["confidence"] q = Some (VStr "low") /\
   at_path ["text_quality"] q = Some (VStr "poor")) /\
  (50 <= len (strip text) < 200 ->
   at_path ["confidence"] q = Some (VStr "medium") /\
   at_path ["text_quality"] q = Some (VStr "fair")).
Proof.
  unfold _generate_quality_report.
  destruct (check_critical_fields data _) as [[st1 missing]|] eqn:H1;
    cbn [bind]; [|discriminate].
  apply check_critical_fields_tier in H1. cbn [confidence] in H1.
  destruct (check_text_quality text st1) as [st2 text_quality] eqn:H2.
  destruct (check_consistency data st2) as [st3|] eqn:H3;
    cbn [bind]; [|discriminate].
  apply check_consistency_keeps_confidence in H3.
  intros H. injection H as <-.
  split; [reflexivity|]. split; [reflexivity|].
  unfold check_text_quality in H2. split.
  - intros Hlen. apply Z.ltb_lt in Hlen. rewrite Hlen in H2.
    injection H2 as <- <-. cbn. now rewrite H3.
  - intros [Hlo Hhi]. apply Z.ltb_ge in Hlo. apply Z.ltb_lt in Hhi.
    rewrite Hlo, Hhi in H2. injection H2 as <- <-. cbn. rewrite H3. cbn.
    destruct H1 as [-> | ->]; split; reflexivity.
Qed.

Lemma extract_without_ocr w path text method :
  OCR_AVAILABLE w = false ->
  mem (lower (Path_suffix w path)) (".pdf" :: image_extensions) = true ->
  _extract_text_from_file w path = Ok (text, method) ->
  method = "failed" /\ len (strip text) < 50.
Proof.
  intros Hocr Hext. unfold _extract_text_from_file.
  destruct (os_path_exists w path); cbn [negb]; [|discriminate].
  unfold _extract_text_from_pdf, _extract_text_from_image. rewrite Hocr.
  cbn [negb].
  destruct (mem (lower (Path_suffix w path)) [".pdf"]) eqn:Hpdf.
  { intros H. injection H as <- <-. split; [reflexivity|]. now cbn. }
  assert (Himg : mem (lower (Path_suffix w path)) image_extensions = true).
  { unfold mem in *. cbn [existsb] in *. rewrite orb_false_r in Hpdf.
    now rewrite Hpdf in Hext. }
  unfold image_extensions in Himg. rewrite Himg.
  intros H. injection H as <- <-. split; [reflexivity|]. now cbn.
Qed.

(** X14.  Without the OCR libraries, every PDF or image that the
    pipeline gets through is scored on the fixed notice that the
    libraries are required, never on the file: the report has the
    extraction method ["failed"], the text quality ["poor"] and the tier
    ["low"], whatever the model extracted. *)
Theorem no_ocr_scores_low
  (w : World) (self : W2Parser) (path : string) (result : value) :
  OCR_AVAILABLE w = false ->
  mem (lower (Path_suffix w path)) (".pdf" :: image_extensions) = true ->
  pipeline w self path = Ok result ->
  at_path ["quality"; "extraction_method"] result = Some (VStr "failed") /\
  at_path ["quality"; "text_quality"] result = Some (VStr "poor") /\
  at_path ["quality"; "confidence"] result = Some (VStr "low").
Proof.
  intros Hocr Hext Hp.
  apply pipeline_steps in Hp
    as (text & method & c & data & normalized & address & insights_data & q
        & insights & He & _ & _ & _ & _ & _ & Hq & _ & ->).
  destruct (extract_without_ocr w path text method Hocr Hext He) as [-> Hlen].
  apply report_by_text_length in Hq as (Hm & _ & Hshort & _).
  destruct (Hshort Hlen) as [Hc Ht].
  destruct q; try discriminate. cbn in *. auto.
Qed.

Lemma no_ocr_scores_low_witness :
  exists result,
    pipeline (scanner false (Ok [])) (analyst third_time_lucky) "w2.pdf" = Ok result /\
    at_path ["quality"; "confidence"] result = Some (VStr "low").
Proof.
  destruct (pipeline (scanner false (Ok [])) (analyst third_time_lucky) "w2.pdf")
    as [result|] eqn:Hp; [|discriminate].
  exists result. split; [reflexivity|].
  destruct (no_ocr_scores_low (scanner false (Ok [])) (analyst third_time_lucky)
              "w2.pdf" result eq_refl eq_refl Hp) as (_ & _ & Hc).
  exact Hc.
Defined.

(** X15.  With the OCR libraries, a PDF that the pipeline gets through
    is either labelled ["direct_extraction"] with a text length of at
    least 100, or it is scored on the 59 characters of the OCR
    placeholder: text quality ["fair"], tier ["medium"], label ["ocr"]
    or ["ocr_fallback"]. *)
Theorem pdf_scores (w : World) (self : W2Parser) (path : string) (result : value) :
  OCR_AVAILABLE w = true ->
  mem (lower (Path_suffix w path)) [".pdf"] = true ->
  pipeline w self path = Ok result ->
  (at_path ["quality"; "extraction_method"] result = Some (VStr "direct_extraction") /\
   exists n, at_path ["quality"; "text_length"] result = Some (VInt n) /\ 100 <= n) \/
  ((at_path ["quality"; "extraction_method"] result = Some (VStr "ocr") \/
    at_path ["quality"; "extraction_method"] result = Some (VStr "ocr_fallback")) /\
   at_path ["quality"; "text_length"] result = Some (VInt 59) /\
   at_path ["quality"; "text_quality"] result = Some (VStr "fair") /\
   at_path ["quality"; "confidence"] result = Some (VStr "medium")).
Proof.
  intros Hocr Hext Hp.
  apply pipeline_steps in Hp
    as (text & method & c & data & normalized & address & insights_data & q
        & insights & He & _ & _ & _ & _ & _ & Hq & _ & ->).
  apply report_by_text_length in Hq as (Hm & Hl & _ & Hmid).
  unfold _extract_text_from_file in He.
  destruct (os_path_exists w path); cbn [negb] in He; [|discriminate].
  rewrite Hext in He. unfold _extract_text_from_pdf in He.
  rewrite Hocr in He. cbn [negb] in He.
  assert (Hplace : forall label,
             (text, method) = (_ocr_pdf path, label) ->
             at_path ["text_length"] q = Some (VInt 59) /\
             at_path ["text_quality"] q = Some (VStr "fair") /\
             at_path ["confidence"] q = Some (VStr "medium")).
  { intros label Heq. injection Heq as -> ->.
    split; [exact Hl|]. destruct Hmid as [Hc Ht]; [now cbn|]. auto. }
  destruct q; try discriminate.
  destruct (pdf_page_texts w path) as [pages|e]; cbn [bind try_except] in He.
  - match type of He with
    | context [len (strip ?t) <? 100] =>
        destruct (Z.ltb_spec (len (strip t)) 100)
    end; cbn [try_except] in He; injection He as Ht Hmeth.
    + right. destruct (Hplace "ocr") as (H1 & H2 & H3); [congruence|].
      subst method. cbn in *. auto.
    + left. subst text method. cbn in *. split; [exact Hm|]. eauto.
  - injection He as Ht Hmeth.
    right. destruct (Hplace "ocr_fallback") as (H1 & H2 & H3); [congruence|].
    subst method. cbn in *. auto.
Qed.

Lemma pdf_scores_witness :
  exists result,
    pipeline (scanner true (Raise (Exn "PdfReadError" "EOF marker not found")))
             (analyst third_time_lucky) "w2.pdf" = Ok result /\
    at_path ["quality"; "extraction_method"] result = Some (VStr "ocr_fallback") /\
    at_path ["quality"; "confidence"] result = Some (VStr "medium").
Proof.
  destruct (pipeline (scanner true (Raise (Exn "PdfReadError" "EOF marker not found")))
              (analyst third_time_lucky) "w2.pdf") as [result|] eqn:Hp;
    [|discriminate].
  exists result. split; [reflexivity|].
  destruct (pdf_scores
              (scanner true (Raise (Exn "PdfReadError" "EOF marker not found")))
              (analyst third_time_lucky) "w2.pdf" result eq_refl eq_refl Hp)
    as [[Hd _] | [[Ho|Ho] (_ & _ & Hc)]].
  - injection Hp as <-. discriminate Hd.
  - injection Hp as <-. discriminate Ho.
  - split; assumption.
Defined.

(** *** Rewriting twice *)

Lemma update_update k v v' d : update k v (update k v' d) = update k v d.
Proof.
  induction d as [|[k0 v0] d IH]; simpl.
  - now rewrite String.eqb_refl.
  - destruct (String.eqb k k0) eqn:E; simpl; rewrite E; [reflexivity|].
    now rewrite IH.
Qed.

Lemma alter_alter f g k d :
  alter f k (alter g k d) = alter (fun v => f (g v)) k d.
Proof.
  unfold alter. destruct (lookup k d) as [v|] eqn:E.
  - now rewrite lookup_update_same, update_update.
  - now rewrite E.
Qed.

Lemma alter_ext f g k d : (forall v, f v = g v) -> alter f k d = alter g k d.
Proof.
  intros H. unfold alter. destruct (lookup k d); [|reflexivity]. now rewrite H.
Qed.

Lemma update_swap k1 k2 v1 v2 d x y :
  k1 <> k2 -> lookup k1 d = Some x -> lookup k2 d = Some y ->
  update k1 v1 (update k2 v2 d) = update k2 v2 (update k1 v1 d).
Proof.
  intros Hne. induction d as [|[k0 v0] d IH]; simpl; [discriminate|].
  destruct (String.eqb k1 k0) eqn:E1; destruct (String.eqb k2 k0) eqn:E2;
    simpl; rewrite ?E1, ?E2; intros H1 H2; try reflexivity.
  - apply String.eqb_eq in E1, E2. congruence.
  - now rewrite IH.
Qed.

Lemma alter_swap f g k1 k2 d :
  k1 <> k2 \/ (forall v, f (g v) = g (f v)) ->
  alter f k1 (alter g k2 d) = alter g k2 (alter f k1 d).
Proof.
  intros H. destruct (String.eqb_spec k1 k2) as [->|Hne].
  - destruct H as [H|H]; [congruence|].
    rewrite !alter_alter. now apply alter_ext.
  - unfold alter at 2 4.
    destruct (lookup k2 d) as [y|] eqn:E2; destruct (lookup k1 d) as [x|] eqn:E1.
    + unfold alter. rewrite lookup_update_other, E1 by congruence.
      rewrite lookup_update_other, E2 by congruence.
      eapply update_swap; eauto.
    + unfold alter. rewrite lookup_update_other, E1, E2 by congruence.
      reflexivity.
    + unfold alter. rewrite E1. rewrite lookup_update_other, E2 by congruence.
      reflexivity.
    + unfold alter. now rewrite E1, E2.
Qed.

Lemma alter_idem f k d :
  (forall v, f (f v) = f v) -> alter f k (alter f k d) = alter f k d.
Proof. intros H. rewrite alter_alter. now apply alter_ext. Qed.

Lemma on_dict_idem g v :
  (forall m, g (g m) = g m) -> on_dict g (on_dict g v) = on_dict g v.
Proof. intros H. destruct v; simpl; auto. now rewrite H. Qed.

Lemma on_dict_swap g h v :
  (forall m, g (h m) = h (g m)) -> on_dict g (on_dict h v) = on_dict h (on_dict g v).
Proof. intros H. destruct v; simpl; auto. now rewrite H. Qed.

Lemma on_records_idem g v :
  (forall m, g (g m) = g m) ->
  on_list (map (on_dict g)) (on_list (map (on_dict g)) v)
  = on_list (map (on_dict g)) v.
Proof.
  intros H. destruct v; simpl; auto. rewrite map_map. f_equal.
  apply map_ext. intros r. now apply on_dict_idem.
Qed.

Lemma on_records_swap g h v :
  (forall m, g (h m) = h (g m)) ->
  on_list (map (on_dict g)) (on_list (map (on_dict h)) v)
  = on_list (map (on_dict h)) (on_list (map (on_dict g)) v).
Proof.
  intros H. destruct v; simpl; auto. rewrite !map_map. f_equal.
  apply map_ext. intros r. now apply on_dict_swap.
Qed.

Lemma coerce_all_swap f k fields m :
  alter f k (fold_left (fun m field => alter f field m) fields m)
  = fold_left (fun m field => alter f field m) fields (alter f k m).
Proof.
  revert m. induction fields as [|field fields IH]; intros m; simpl;
    [reflexivity|].
  rewrite IH. f_equal.
  destruct (String.eqb_spec k field) as [->|Hne]; [reflexivity|].
  apply alter_swap. now left.
Qed.

Lemma fold_alter_idem f fields m :
  (forall v, f (f v) = f v) ->
  fold_left (fun m field => alter f field m) fields
    (fold_left (fun m field => alter f field m) fields m)
  = fold_left (fun m field => alter f field m) fields m.
Proof.
  intros Hf. revert m. induction fields as [|field fields IH]; intros m; simpl;
    [reflexivity|].
  rewrite coerce_all_swap, alter_idem by exact Hf. apply IH.
Qed.

Lemma fold_alter_swap f g k fields m :
  ~ In k fields ->
  alter g k (fold_left (fun m field => alter f field m) fields m)
  = fold_left (fun m field => alter f field m) fields (alter g k m).
Proof.
  revert m. induction fields as [|field fields IH]; intros m Hk; simpl;
    [reflexivity|].
  rewrite IH by (simpl in Hk; tauto). f_equal.
  apply alter_swap. left. simpl in Hk. intros ->. tauto.
Qed.

(** *** Masking again *)

Lemma lastn_all {A : Type} n (l : list A) :
  (List.length l <= n)%nat -> lastn n l = l.
Proof.
  intros H. unfold lastn. rewrite firstn_all2 by (now rewrite length_rev).
  apply rev_involutive.
Qed.

Lemma length_lastn {A : Type} n (l : list A) :
  List.length (lastn n l) = Nat.min n (List.length l).
Proof. unfold lastn. now rewrite length_rev, length_firstn, length_rev. Qed.

Lemma lastn_in {A : Type} n (l : list A) x : In x (lastn n l) -> In x l.
Proof.
  unfold lastn. intros H. apply in_rev in H.
  apply in_rev. rewrite <- (firstn_skipn n (rev l)).
  apply in_or_app. now left.
Qed.

Lemma filter_all {A : Type} (p : A -> bool) l :
  (forall x, In x l -> p x = true) -> filter p l = l.
Proof.
  induction l as [|x l IH]; simpl; intros H; [reflexivity|].
  rewrite (H x) by auto. f_equal. auto.
Qed.

Lemma digits_of_mask_text raw :
  digits_of (mask_text raw)
  = if (4 <=? List.length (digits_of raw))%nat then lastn 4 (digits_of raw) else [].
Proof.
  unfold mask_text. destruct (4 <=? List.length (digits_of raw))%nat;
    [|reflexivity].
  unfold digits_of at 1. rewrite chars_append, chars_str, filter_app.
  change (filter is_digit (chars "***-**-")) with (@nil ascii). cbn [app].
  apply filter_all. intros c Hc. apply lastn_in in Hc.
  unfold digits_of in Hc. now apply filter_In in Hc.
Qed.

Lemma mask_text_idem raw : mask_text (mask_text raw) = mask_text raw.
Proof.
  unfold mask_text at 1. rewrite digits_of_mask_text.
  destruct (Nat.leb_spec 4 (List.length (digits_of raw))) as [H|H].
  - rewrite length_lastn, Nat.min_l by exact H. cbn [Nat.leb].
    rewrite lastn_all by (rewrite length_lastn; lia).
    unfold mask_text. apply Nat.leb_le in H. now rewrite H.
  - cbn. unfold mask_text. apply Nat.leb_gt in H. now rewrite H.
Qed.

Lemma mask_text_length raw : String.length (mask_text raw) = 11%nat.
Proof.
  unfold mask_text.
  destruct (Nat.leb_spec 4 (List.length (digits_of raw))) as [H|H];
    [|reflexivity].
  rewrite <- length_chars, chars_append, chars_str, length_app, length_lastn.
  rewrite Nat.min_l by exact H. reflexivity.
Qed.

Lemma mask_value_idem w v : mask_value w (mask_value w v) = mask_value w v.
Proof.
  unfold mask_value at 2. destruct (truthy v) eqn:Ht.
  - unfold mask_value. cbn [truthy py_str].
    assert (String.eqb (mask_text (py_str (repr_other w) v)) "" = false) as Hne.
    { apply String.eqb_neq. intros H.
      pose proof (mask_text_length (py_str (repr_other w) v)) as Hl.
      rewrite H in Hl. discriminate. }
    rewrite Hne, Ht. cbn [negb]. now rewrite mask_text_idem.
  - unfold mask_value. now rewrite Ht.
Qed.

(** X16.  The text that masking writes never shows more than the last
    four digits: it has 11 characters, starts with ["***-**-"], and its
    digits are the last four digits of the raw text when the raw text has
    at least four digits, and none otherwise. *)
Theorem masked_shows_last_four (raw : string) :
  String.length (masked (sub_non_digits raw)) = 11%nat /\
  is_prefix (chars "***-**-") (chars (masked (sub_non_digits raw))) = true /\
  filter is_digit (chars (masked (sub_non_digits raw)))
  = (if (4 <=? List.length (filter is_digit (chars raw)))%nat
     then lastn 4 (filter is_digit (chars raw))
     else []) /\
  (List.length (filter is_digit (chars (masked (sub_non_digits raw)))) <= 4)%nat.
Proof.
  rewrite masked_mask_text.
  split; [apply mask_text_length|]. split.
  { unfold mask_text. destruct (4 <=? _)%nat; [|reflexivity].
    rewrite chars_append. apply is_prefix_app. }
  pose proof (digits_of_mask_text raw) as Hd. unfold digits_of in Hd.
  split; [exact Hd|]. rewrite Hd.
  destruct (4 <=? _)%nat; [|simpl; lia].
  rewrite length_lastn. lia.
Qed.

Lemma mask_tree_idem w d : mask_tree w (mask_tree w d) = mask_tree w d.
Proof.
  unfold mask_tree.
  rewrite (alter_swap _ _ "employee" "employer") by (left; discriminate).
  rewrite alter_idem.
  2:{ intros v. apply on_dict_idem. intros m. apply alter_idem, mask_value_idem. }
  f_equal. apply alter_idem.
  intros v. apply on_dict_idem. intros m. apply alter_idem, mask_value_idem.
Qed.

Lemma dict_or_absent_any_mask_tree w k d :
  dict_or_absent any_dict k d = true ->
  dict_or_absent any_dict k (mask_tree w d) = true.
Proof.
  unfold mask_tree, dict_or_absent. intros H.
  destruct (String.eqb_spec k "employer") as [->|H1].
  - rewrite lookup_alter_same, lookup_alter_other by discriminate.
    destruct (lookup "employer" d) as [[]|]; simpl; auto.
  - rewrite lookup_alter_other by exact H1.
    destruct (String.eqb_spec k "employee") as [->|H2].
    + rewrite lookup_alter_same.
      destruct (lookup "employee" d) as [[]|]; simpl; auto.
    + now rewrite lookup_alter_other by exact H2.
Qed.

(** X17.  Masking is idempotent: on a tree whose employee and employer
    sections are mappings (or missing), masking the masked tree again
    returns it unchanged. *)
Theorem mask_sensitive_data_idempotent (w : World) (d : dict) :
  dict_or_absent any_dict "employee" d = true ->
  dict_or_absent any_dict "employer" d = true ->
  exists d',
    _mask_sensitive_data w (VDict d) = Ok (VDict d') /\
    _mask_sensitive_data w (VDict d') = Ok (VDict d').
Proof.
  intros He Hr. exists (mask_tree w d).
  split; [now apply mask_sensitive_data_pure|].
  rewrite mask_sensitive_data_pure by now apply dict_or_absent_any_mask_tree.
  now rewrite mask_tree_idem.
Qed.

Lemma mask_sensitive_data_idempotent_witness :
  exists d',
    _mask_sensitive_data office (VDict identifiers) = Ok (VDict d') /\
    _mask_sensitive_data office (VDict d') = Ok (VDict d').
Proof.
  apply (mask_sensitive_data_idempotent office identifiers); reflexivity.
Defined.

(** *** State codes and numbers again *)

Lemma canonical_code_of_code :
  Forall (fun st => canonical_code (lower (strip (snd st))) = Some (snd st))
         us_states.
Proof. repeat constructor. Qed.

Lemma normalize_state_value_idem v :
  normalize_state_value (normalize_state_value v) = normalize_state_value v.
Proof.
  destruct v; try reflexivity. cbn [normalize_state_value].
  destruct (canonical_code (lower (strip s))) as [c|] eqn:E.
  - cbn [normalize_state_value].
    apply canonical_code_closed in E as (n & Hin & _).
    pose proof canonical_code_of_code as F. rewrite Forall_forall in F.
    specialize (F (n, c) Hin). cbn [snd] in F. now rewrite F.
  - cbn [normalize_state_value]. now rewrite E.
Qed.

Lemma normalize_address_idem m :
  normalize_address (normalize_address m) = normalize_address m.
Proof.
  unfold normalize_address. apply alter_idem. intros v. apply on_dict_idem.
  intros a. apply alter_idem, normalize_state_value_idem.
Qed.

Lemma states_tree_idem d : states_tree (states_tree d) = states_tree d.
Proof.
  unfold states_tree.
  rewrite (alter_swap _ _ "employee" "state_local") by (left; discriminate).
  rewrite (alter_swap _ _ "employee" "employer") by (left; discriminate).
  rewrite (alter_idem _ "employee")
    by (intros v; apply on_dict_idem, normalize_address_idem).
  rewrite (alter_swap _ _ "employer" "state_local") by (left; discriminate).
  rewrite (alter_idem _ "employer")
    by (intros v; apply on_dict_idem, normalize_address_idem).
  apply alter_idem. intros v. apply on_records_idem.
  intros m. apply alter_idem, normalize_state_value_idem.
Qed.

(** X18.  State normalisation is idempotent: on a tree of the shape of
    the data model, normalising the normalised tree again returns it
    unchanged; a canonical code is rewritten to itself. *)
Theorem normalize_state_codes_idempotent (d : dict) :
  tree_ok d = true ->
  exists d',
    _normalize_state_codes (VDict d) = Ok (VDict d') /\
    _normalize_state_codes (VDict d') = Ok (VDict d') /\
    Forall (fun st => normalize_state_value (VStr (snd st)) = VStr (snd st))
           us_states.
Proof.
  intros Hok. pose proof (tree_ok_states_tree d Hok) as Hok'.
  apply tree_ok_parts in Hok as (He & Hr & _ & Hl).
  apply tree_ok_parts in Hok' as (He' & Hr' & _ & Hl').
  exists (states_tree d).
  split; [now apply normalize_state_codes_pure|].
  split; [|repeat constructor].
  rewrite (normalize_state_codes_pure _ He' Hr' Hl').
  now rewrite states_tree_idem.
Qed.

Lemma normalize_state_codes_idempotent_witness :
  exists d',
    _normalize_state_codes (VDict addresses) = Ok (VDict d') /\
    _normalize_state_codes (VDict d') = Ok (VDict d').
Proof.
  destruct (normalize_state_codes_idempotent addresses eq_refl)
    as (d' & H1 & H2 & _).
  exists d'. split; assumption.
Defined.

Lemma coerce_idem v : coerce (coerce v) = coerce v.
Proof.
  destruct v; try reflexivity. cbn [coerce].
  destruct (String.eqb s "") eqn:E; [cbn [coerce]; now rewrite E|].
  destruct (String.eqb (sub_non_numeric s) "" || String.eqb (sub_non_numeric s) "-");
    [reflexivity|].
  now destruct (parse_float (sub_non_numeric s)).
Qed.

Lemma coerce_no_text v t : coerce v = VStr t -> t = "".
Proof.
  destruct v; try discriminate. cbn [coerce].
  destruct (String.eqb s "") eqn:E.
  - intros H. injection H as <-. now apply String.eqb_eq.
  - destruct (String.eqb (sub_non_numeric s) "" || String.eqb (sub_non_numeric s) "-");
      [discriminate|].
    destruct (parse_float (sub_non_numeric s)); discriminate.
Qed.

Lemma convert_tree_idem d : convert_tree (convert_tree d) = convert_tree d.
Proof.
  unfold convert_tree.
  rewrite (alter_swap _ _ "federal" "state_local") by (left; discriminate).
  rewrite (alter_idem _ "federal").
  2:{ intros v. apply on_dict_idem. intros m. unfold coerce_all.
      apply fold_alter_idem, coerce_idem. }
  apply alter_idem. intros v. apply on_records_idem.
  intros m. unfold coerce_all. apply fold_alter_idem, coerce_idem.
Qed.

Lemma tree_ok_convert_tree d : tree_ok d = true -> tree_ok (convert_tree d) = true.
Proof.
  rewrite !tree_ok_parts. intros (He & Hr & Hf & Hl). unfold convert_tree.
  repeat split.
  - now rewrite !dict_or_absent_alter_other by discriminate.
  - now rewrite !dict_or_absent_alter_other by discriminate.
  - rewrite dict_or_absent_alter_other by discriminate.
    now apply dict_or_absent_alter_same.
  - rewrite records_or_absent_alter_same.
    now rewrite records_or_absent_alter_other by discriminate.
Qed.

(** X19.  Numeric conversion is idempotent, and what it leaves in a
    monetary field is never a text with characters in it: on a tree
    whose federal section is a mapping and whose state/local section is
    a list of mappings (either may be missing), converting the converted
    tree again returns it unchanged, and each of the ten federal
    monetary fields of the converted tree is a number, [None], the empty
    text or a value that was no text before. *)
Theorem convert_numeric_fields_idempotent (d : dict) :
  dict_or_absent any_dict "federal" d = true ->
  records_or_absent d = true ->
  exists d',
    _convert_numeric_fields (VDict d) = Ok (VDict d') /\
    _convert_numeric_fields (VDict d') = Ok (VDict d') /\
    (forall field t,
        In field monetary_fields ->
        at_path ["federal"; field] (VDict d') = Some (VStr t) -> t = "").
Proof.
  intros Hf Hl. exists (convert_tree d).
  split; [now apply convert_numeric_fields_pure|].
  split.
  - rewrite convert_numeric_fields_pure.
    + fold (coerce_all monetary_fields).
      fold (coerce_all ["state_wages"; "state_income_tax"]).
      change (alter _ "state_local" (alter _ "federal" (convert_tree d)))
        with (convert_tree (convert_tree d)).
      now rewrite convert_tree_idem.
    + unfold convert_tree. rewrite dict_or_absent_alter_other by discriminate.
      now apply dict_or_absent_alter_same.
    + unfold convert_tree. rewrite records_or_absent_alter_same.
      now rewrite records_or_absent_alter_other by discriminate.
  - intros field t Hin. unfold convert_tree. cbn [at_path].
    rewrite lookup_alter_other by discriminate. rewrite lookup_alter_same.
    unfold dict_or_absent in Hf.
    destruct (lookup "federal" d) as [[]|]; try discriminate. cbn [option_map on_dict].
    destruct (fields_rewritten_fold coerce monetary_fields d0
                monetary_fields_distinct) as [_ Hlook].
    unfold coerce_all. rewrite Hlook.
    rewrite (proj2 (existsb_exists _ _)
               (ex_intro _ field (conj Hin (String.eqb_refl field)))
             : mem field monetary_fields = true).
    destruct (lookup field d0) as [v|]; cbn [option_map]; [|discriminate].
    intros H. injection H as H. now apply coerce_no_text in H.
Qed.

Lemma convert_numeric_fields_idempotent_witness :
  exists d',
    _convert_numeric_fields (VDict amounts) = Ok (VDict d') /\
    _convert_numeric_fields (VDict d') = Ok (VDict d').
Proof.
  destruct (convert_numeric_fields_idempotent amounts eq_refl eq_refl)
    as (d' & H1 & H2 & _).
  exists d'. split; assumption.
Defined.

(** *** Normalising again *)

Lemma mask_address_swap w key v :
  key <> "address" ->
  on_dict (alter (mask_value w) key) (on_dict normalize_address v)
  = on_dict normalize_address (on_dict (alter (mask_value w) key) v).
Proof.
  intros H. apply on_dict_swap. intros m. unfold normalize_address.
  apply alter_swap. now left.
Qed.

Lemma mask_states_swap w d :
  mask_tree w (states_tree d) = states_tree (mask_tree w d).
Proof.
  unfold mask_tree, states_tree.
  rewrite (alter_swap _ _ "employee" "state_local") by (left; discriminate).
  rewrite (alter_swap _ _ "employer" "state_local") by (left; discriminate).
  rewrite (alter_swap _ _ "employee" "employer") by (left; discriminate).
  rewrite (alter_swap _ _ "employer" "employer")
    by (right; intros v; apply mask_address_swap; discriminate).
  rewrite (alter_swap _ _ "employee" "employee")
    by (right; intros v; apply mask_address_swap; discriminate).
  rewrite (alter_swap _ _ "employer" "employee") by (left; discriminate).
  reflexivity.
Qed.

Lemma mask_convert_swap w d :
  mask_tree w (convert_tree d) = convert_tree (mask_tree w d).
Proof.
  unfold mask_tree, convert_tree.
  rewrite (alter_swap _ _ "employee" "state_local") by (left; discriminate).
  rewrite (alter_swap _ _ "employer" "state_local") by (left; discriminate).
  rewrite (alter_swap _ _ "employee" "federal") by (left; discriminate).
  rewrite (alter_swap _ _ "employer" "federal") by (left; discriminate).
  reflexivity.
Qed.

Lemma states_convert_swap d :
  states_tree (convert_tree d) = convert_tree (states_tree d).
Proof.
  unfold states_tree, convert_tree.
  rewrite (alter_swap _ _ "employee" "state_local") by (left; discriminate).
  rewrite (alter_swap _ _ "employer" "state_local") by (left; discriminate).
  rewrite (alter_swap _ _ "state_local" "state_local").
  2:{ right. intros v. apply on_records_swap. intros m. unfold coerce_all.
      apply fold_alter_swap. simpl. intros [H|[H|[]]]; discriminate. }
  rewrite (alter_swap _ _ "employee" "federal") by (left; discriminate).
  rewrite (alter_swap _ _ "employer" "federal") by (left; discriminate).
  rewrite (alter_swap _ _ "state_local" "federal") by (left; discriminate).
  reflexivity.
Qed.

Lemma with_defaults_fixed d : map fst d = sections -> with_defaults d = d.
Proof.
  destruct d as [|[k1 v1] [|[k2 v2] [|[k3 v3] [|[k4 v4] [|[k5 v5] [|]]]]]];
    cbn; try discriminate.
  intros H. injection H as -> -> -> -> ->. reflexivity.
Qed.

Lemma keys_normalized w d :
  map fst (convert_tree (states_tree (mask_tree w (with_defaults d)))) = sections.
Proof.
  unfold convert_tree, states_tree, mask_tree. now rewrite !keys_alter.
Qed.

Lemma normalized_tree_idem w d :
  convert_tree (states_tree (mask_tree w
    (convert_tree (states_tree (mask_tree w d)))))
  = convert_tree (states_tree (mask_tree w d)).
Proof.
  rewrite mask_convert_swap, mask_states_swap, mask_tree_idem.
  rewrite states_convert_swap, states_tree_idem.
  apply convert_tree_idem.
Qed.

(** X20.  Normalisation is idempotent: a blob of the shape of the data
    model that is not empty is normalised to a tree with exactly the
    five sections, and normalising that tree again returns it unchanged:
    masked identifiers, canonical state codes and converted amounts are
    all left as they are. *)
Theorem normalize_data_idempotent (w : World) (d : dict) :
  d <> [] -> tree_ok d = true ->
  exists d',
    _normalize_data w (VDict d) = Ok (VDict d') /\
    map fst d' = sections /\
    _normalize_data w (VDict d') = Ok (VDict d').
Proof.
  intros Hd Hok.
  exists (convert_tree (states_tree (mask_tree w (with_defaults d)))).
  split; [now apply normalize_data_pure|].
  split; [apply keys_normalized|].
  pose proof (keys_normalized w d) as Hk.
  rewrite normalize_data_pure.
  - rewrite (with_defaults_fixed _ Hk).
    now rewrite (normalized_tree_idem w (with_defaults d)).
  - intros E. rewrite E in Hk. discriminate.
  - apply tree_ok_convert_tree, tree_ok_states_tree, tree_ok_mask_tree.
    now apply tree_ok_with_defaults.
Qed.

Lemma normalize_data_idempotent_witness :
  exists d',
    _normalize_data office (VDict identifiers) = Ok (VDict d') /\
    _normalize_data office (VDict d') = Ok (VDict d').
Proof.
  destruct (normalize_data_idempotent office identifiers) as (d' & H1 & _ & H2);
    [discriminate | reflexivity |].
  exists d'. split; assumption.
Defined.

(** *** What the normalised tree shows of an identifier *)

Lemma lookup_section_normalized w d sec :
  sec = "employee" \/ sec = "employer" ->
  lookup sec (convert_tree (states_tree (mask_tree w d)))
  = option_map
      (fun v => on_dict normalize_address
                  (on_dict (alter (mask_value w)
                                  (if String.eqb sec "employee" then "ssn" else "ein")) v))
      (lookup sec d).
Proof.
  unfold convert_tree, states_tree, mask_tree.
  intros [-> | ->]; cbn [String.eqb Ascii.eqb Bool.eqb].
  - rewrite !lookup_alter_other by discriminate. rewrite lookup_alter_same.
    rewrite lookup_alter_other by discriminate. rewrite lookup_alter_same.
    now destruct (lookup "employee" d).
  - rewrite !lookup_alter_other by discriminate. rewrite lookup_alter_same.
    rewrite lookup_alter_other by discriminate.
    rewrite lookup_alter_same. rewrite lookup_alter_other by discriminate.
    now destruct (lookup "employer" d).
Qed.

Lemma masked_value_shown w raw :
  truthy (mask_value w raw) = true ->
  exists t, mask_value w raw = VStr t /\
            String.length t = 11%nat /\
            (List.length (filter is_digit (chars t)) <= 4)%nat.
Proof.
  unfold mask_value. destruct (truthy raw) eqn:Ht; [|congruence].
  intros _. eexists. split; [reflexivity|]. split; [apply mask_text_length|].
  pose proof (digits_of_mask_text (py_str (repr_other w) raw)) as Hd.
  unfold digits_of in Hd. rewrite Hd.
  destruct (4 <=? _)%nat; [|simpl; lia].
  rewrite length_lastn. lia.
Qed.

(** X21.  The later passes do not undo masking: in the tree that
    [_normalize_data] returns for a non-empty blob of the shape of the
    data model, an [employee.ssn] or [employer.ein] that counts as true
    is a text of eleven characters with at most four digits in it. *)
Theorem normalized_identifiers_masked (w : World) (d : dict) :
  d <> [] -> tree_ok d = true ->
  exists d',
    _normalize_data w (VDict d) = Ok (VDict d') /\
    forall path v,
      path = ["employee"; "ssn"] \/ path = ["employer"; "ein"] ->
      at_path path (VDict d') = Some v -> truthy v = true ->
      exists t, v = VStr t /\ String.length t = 11%nat /\
                (List.length (filter is_digit (chars t)) <= 4)%nat.
Proof.
  intros Hd Hok.
  exists (convert_tree (states_tree (mask_tree w (with_defaults d)))).
  split; [now apply normalize_data_pure|].
  intros path v Hpath. cbn [at_path].
  destruct Hpath as [-> | ->]; cbn [at_path].
  - rewrite (lookup_section_normalized w _ "employee") by now left.
    cbn [String.eqb Ascii.eqb Bool.eqb].
    destruct (lookup "employee" (with_defaults d)) as [[]|];
      cbn [option_map on_dict]; try discriminate.
    unfold normalize_address. rewrite lookup_alter_other by discriminate.
    rewrite lookup_alter_same.
    destruct (lookup "ssn" d0) as [raw|]; cbn [option_map]; [|discriminate].
    intros H Ht. injection H as <-. now apply masked_value_shown.
  - rewrite (lookup_section_normalized w _ "employer") by now right.
    cbn [String.eqb Ascii.eqb Bool.eqb].
    destruct (lookup "employer" (with_defaults d)) as [[]|];
      cbn [option_map on_dict]; try discriminate.
    unfold normalize_address. rewrite lookup_alter_other by discriminate.
    rewrite lookup_alter_same.
    destruct (lookup "ein" d0) as [raw|]; cbn [option_map]; [|discriminate].
    intros H Ht. injection H as <-. now apply masked_value_shown.
Qed.

Lemma normalized_identifiers_masked_witness :
  exists d',
    _normalize_data office (VDict identifiers) = Ok (VDict d') /\
    at_path ["employee"; "ssn"] (VDict d') = Some (VStr "***-**-6789").
Proof.
  destruct (normalized_identifiers_masked office identifiers) as (d' & H1 & _);
    [discriminate | reflexivity |].
  exists d'. split; [exact H1|].
  assert (E : VDict d'
              = VDict (convert_tree (states_tree (mask_tree office
                         (with_defaults identifiers))))).
  { rewrite (normalize_data_pure office identifiers) in H1;
      [congruence | discriminate | reflexivity]. }
  rewrite E. reflexivity.
Defined.

(** *** A section that is no mapping *)

Lemma mask_field_not_mapping w sec key d v :
  lookup sec d = Some v -> is_dict v = false ->
  mask_field w sec key (VDict d) = Raise (AttributeError v "get").
Proof.
  intros H Hv. unfold mask_field. cbn [py_contains py_getitem bind].
  rewrite H. cbn [bind]. destruct v; try discriminate; reflexivity.
Qed.

(** X22.  A section of the blob that is there but is no mapping is an
    error, not a default: when the blob has an ['employee'] that is not
    a mapping ([null], a text, a number, a list), or a mapping or
    nothing there and an ['employer'] that is not one, [_normalize_data]
    raises
    [AttributeError] for the [get] of that value, and in non-test mode
    [process_w2] returns the degraded result with that message for every
    file whose extraction gives such a blob. *)
Theorem normalize_data_section_not_mapping (w : World) (d : dict) (v : value) :
  (lookup "employee" d = Some v \/
   dict_or_absent any_dict "employee" d = true /\ lookup "employer" d = Some v) ->
  is_dict v = false ->
  _normalize_data w (VDict d) = Raise (AttributeError v "get") /\
  forall self path text method c,
    test_mode self = false ->
    _extract_text_from_file w path = Ok (text, method) ->
    gemini_client self = Some c ->
    extract_w2_data c text = Ok (VDict d) ->
    process_w2 w self path = Ok (degraded (AttributeError v "get")).
Proof.
  intros H Hv.
  assert (Hn : _normalize_data w (VDict d) = Raise (AttributeError v "get")).
  { assert (Hd : d <> []) by (destruct H as [H|[_ H]]; destruct d; discriminate).
    rewrite (normalize_data_unfold w d Hd). unfold _mask_sensitive_data.
    destruct H as [H | [He H]].
    - rewrite (mask_field_not_mapping w "employee" "ssn" _ v); [reflexivity| |exact Hv].
      rewrite lookup_with_defaults by (simpl; auto). now rewrite H.
    - rewrite mask_field_pure.
      + cbn [bind].
        rewrite (mask_field_not_mapping w "employer" "ein" _ v);
          [reflexivity| |exact Hv].
        rewrite lookup_alter_other by discriminate.
        rewrite lookup_with_defaults by (simpl; auto). now rewrite H.
      + unfold dict_or_absent in *.
        rewrite lookup_with_defaults by (simpl; auto).
        destruct (lookup "employee" d) as [[]|]; auto. }
  split; [exact Hn|].
  intros self path text method c Hm Hx Hc Hdata.
  apply process_w2_handler; [exact Hm|].
  unfold pipeline, client_of. rewrite Hx. cbn [bind]. rewrite Hc. cbn [bind].
  rewrite Hdata. cbn [bind]. now rewrite Hn.
Qed.

Lemma normalize_data_section_not_mapping_witness :
  _normalize_data office (VDict null_employee)
  = Raise (Exn "AttributeError" "'NoneType' object has no attribute 'get'").
Proof.
  destruct (normalize_data_section_not_mapping office null_employee VNone)
    as [H _]; [left; reflexivity | reflexivity | exact H].
Defined.

(** *** The verdict of the quality report *)

(** X23.  When is a report clean.  On a tree of the shape the report
    expects, the confidence is ["high"] exactly when no critical path is
    missing and the trimmed text has at least 200 characters, it is
    ["low"] exactly when the trimmed text has fewer than 50, and the
    list of warnings is empty exactly when no critical path is missing,
    the trimmed text has at least 50 characters and the consistency test
    of the code does not fire; there are never more than three
    warnings. *)
Theorem quality_report_verdict (d : dict) (text method : string) :
  report_input_ok d = true ->
  exists report c ws,
    _generate_quality_report (VDict d) text method = Ok report /\
    at_path ["confidence"] report = Some (VStr c) /\
    at_path ["warnings"] report = Some (VList (map VStr ws)) /\
    (c = "high" <-> missing_paths (VDict d) = [] /\ 200 <= len (strip text)) /\
    (c = "low" <-> len (strip text) < 50) /\
    (ws = [] <-> missing_paths (VDict d) = [] /\ 50 <= len (strip text) /\
                 flagged_inconsistent d = false) /\
    (List.length ws <= 3)%nat.
Proof.
  intros Hok. rewrite (generate_quality_report_pure d text method Hok).
  exists (quality_report d text method), (report_confidence d text),
    (report_warnings d text).
  split; [reflexivity|]. split; [reflexivity|]. split; [reflexivity|].
  unfold report_confidence, report_warnings, later_warnings.
  destruct (Z.ltb_spec (len (strip text)) 50) as [H50|H50];
    destruct (Z.ltb_spec (len (strip text)) 200) as [H200|H200];
    destruct (missing_paths (VDict d)) as [|p ps];
    destruct (flagged_inconsistent d);
    repeat split; intros; simpl in *;
      repeat match goal with
             | H : _ /\ _ |- _ => destruct H
             end;
      try discriminate; try congruence; try lia; auto.
Qed.

Lemma quality_report_verdict_witness :
  exists report,
    _generate_quality_report (VDict low_wages) long_text "direct_text" = Ok report /\
    at_path ["confidence"] report = Some (VStr "high").
Proof.
  destruct (quality_report_verdict low_wages long_text "direct_text" eq_refl)
    as (report & c & ws & H1 & H2 & _ & Hhigh & _).
  exists report. split; [exact H1|].
  rewrite H2. do 2 f_equal. apply Hhigh. split; [reflexivity|].
  vm_compute. discriminate.
Defined.

(** *** The API key and test mode *)

Lemma init_without_key s key :
  key = None \/ key = Some "" ->
  Gemini.getenv_key s = None \/ Gemini.getenv_key s = Some "" ->
  Gemini.init s key
  = Raise (Exn "ValueError" "GEMINI_API_KEY environment variable is required").
Proof.
  unfold Gemini.init. intros [-> | ->] [-> | ->]; reflexivity.
Qed.

(** X24.  The API key is needed outside test mode only.  For a file
    that exists and is not empty, with the client of the repository and
    provided the result can be written to the output file: in test mode
    the command line returns the canned result of [_process_test_mode],
    whatever the key, the environment and the model; outside test mode,
    when neither the argument nor the environment holds a key that is
    not empty, it ends with [sys.exit(1)]. *)
Theorem main_key_and_test_mode (w : World) (s : Gemini.Service) (args : Args) :
  new_GeminiClient w = Gemini.new s ->
  os_path_exists w (file_path args) = true ->
  os_path_getsize w (file_path args) <> 0 ->
  (forall path result, output args = Some path -> write_json w path result = Ok tt) ->
  (arg_test_mode args = true -> main w args = Returned _process_test_mode) /\
  (arg_test_mode args = false ->
   api_key args = None \/ api_key args = Some "" ->
   Gemini.getenv_key s = None \/ Gemini.getenv_key s = Some "" ->
   main w args = SysExit 1).
Proof.
  intros Hnew He Hs Hw. apply Z.eqb_neq in Hs. unfold main.
  rewrite He, Hs. cbn [negb]. split.
  - intros Ht. unfold run, init, process_w2. rewrite Ht. cbn [bind test_mode].
    destruct (output args) as [path|] eqn:Ho.
    + now rewrite (Hw path _ eq_refl).
    + reflexivity.
  - intros Ht Hk Henv. unfold run, init. rewrite Ht, Hnew. unfold Gemini.new.
    now rewrite (init_without_key s _ Hk Henv).
Qed.

Lemma main_key_and_test_mode_witness :
  main (scanner true (Ok []))
       {| file_path := "w2.pdf"; arg_test_mode := true;
          output := None; api_key := None |}
  = Returned _process_test_mode /\
  main (scanner true (Ok []))
       {| file_path := "w2.pdf"; arg_test_mode := false;
          output := None; api_key := None |}
  = SysExit 1.
Proof.
  split.
  - apply (main_key_and_test_mode (scanner true (Ok [])) third_time_lucky);
      try reflexivity; discriminate.
  - apply (main_key_and_test_mode (scanner true (Ok [])) third_time_lucky);
      try reflexivity; try discriminate; now left.
Defined.

(** *** The labels of the extraction method *)

Lemma extract_text_label w path text method :
  _extract_text_from_file w path = Ok (text, method) ->
  In method extraction_labels.
Proof.
  unfold _extract_text_from_file, _extract_text_from_pdf, _extract_text_from_image.
  destruct (os_path_exists w path); cbn [negb]; [|discriminate].
  destruct (mem (lower (Path_suffix w path)) [".pdf"]).
  { destruct (OCR_AVAILABLE w); cbn [negb].
    - destruct (pdf_page_texts w path) as [pages|e]; cbn [bind try_except].
      + match goal with
        | |- context [len (strip ?t) <? 100] => destruct (len (strip t) <? 100)
        end; cbn [try_except]; intros H; injection H as <- <-; simpl; auto.
      + intros H; injection H as <- <-; simpl; auto.
    - intros H; injection H as <- <-; simpl; auto. }
  destruct (mem (lower (Path_suffix w path)) _).
  { destruct (OCR_AVAILABLE w); cbn [negb].
    - destruct (image_to_string w path) as [t|e]; cbn [bind try_except];
        [|discriminate].
      intros H; injection H as <- <-; simpl; auto.
    - intros H; injection H as <- <-; simpl; auto. }
  destruct (mem (lower (Path_suffix w path)) _); [|discriminate].
  destruct (read_text w path) as [t|e]; cbn [bind]; [|discriminate].
  intros H; injection H as <- <-; simpl; auto 6.
Qed.

(** X25.  Every result of [process_w2] names its extraction method, and
    the name is one of six: ["test_mode"] in test mode and only there,
    otherwise ["failed"], ["ocr"], ["direct_extraction"],
    ["ocr_fallback"] or ["direct_text"]. *)
Theorem extraction_method_labels (w : World) (self : W2Parser) (path : string) :
  exists result label,
    process_w2 w self path = Ok result /\
    at_path ["quality"; "extraction_method"] result = Some (VStr label) /\
    In label ("test_mode" :: extraction_labels) /\
    (label = "test_mode" <-> test_mode self = true).
Proof.
  unfold process_w2. destruct (test_mode self).
  { exists _process_test_mode, "test_mode".
    repeat split; simpl; auto. }
  destruct (pipeline w self path) as [r|e] eqn:Hp; cbn [try_except].
  - apply pipeline_returns in Hp
      as (text & method & normalized & insights & q & Hx & Hq & ->).
    apply generate_quality_report_fields in Hq as (_ & _ & Hm).
    apply extract_text_label in Hx.
    exists (VDict [("fields", normalized); ("insights", insights); ("quality", q)]),
      method.
    split; [reflexivity|]. split; [exact Hm|]. split; [now right|].
    split; [|discriminate].
    intros ->. unfold extraction_labels in Hx. simpl in Hx.
    repeat (destruct Hx as [Hx|Hx]; [discriminate|]). contradiction.
  - exists (degraded e), "failed".
    split; [reflexivity|]. split; [reflexivity|]. split; [simpl; auto|].
    split; discriminate.
Qed.
